(** * Scene manager and view manager of the CS-330 OpenGL scene

    A shallow embedding of [SceneManager.cpp] and [ViewManager.cpp] and the
    properties of their texture and material catalogs, render-state
    helpers, scene preparation and rendering, projection toggle, input
    callbacks and per-frame functions.

    Conventions.
    - A C++ [float] is an IEEE 754 binary32 value and a [double] a binary64
      value, both carried by the Standard Library's [spec_float] with the
      operations of [SpecFloat] at the matching precision (round to nearest,
      ties to even).
    - A pointer that may be null is an [option]; a statement that
      dereferences a null pointer has undefined behaviour, written
      [Undefined] in the [outcome] of the function.
    - The collaborators whose code is not part of the two source files
      (the camera class, GLM) appear as records of operations. *)

From Stdlib Require Import ZArith Bool List String Lia.
From Stdlib Require Import Floats.SpecFloat.
From Stdlib Require Import Reals Lra.
Import ListNotations.

Local Open Scope Z_scope.

(* ================================================================== *)
(** * Part I: definitions                                              *)
(* ================================================================== *)

(** ** IEEE 754 scalars *)

Module IEEE.

(** binary32: 24 bits of precision, exponent bound 128. *)
Definition float : Type := spec_float.
(** binary64: 53 bits of precision, exponent bound 1024. *)
Definition double : Type := spec_float.

Definition fadd : float -> float -> float := SFadd 24 128.
Definition fsub : float -> float -> float := SFsub 24 128.
Definition fmul : float -> float -> float := SFmul 24 128.
Definition flt : float -> float -> bool := SFltb.
Definition fle : float -> float -> bool := SFleb.
Definition dsub : double -> double -> double := SFsub 53 1024.

(** The conversion of a [double] to [float] (an assignment to a [float]
    object or [static_cast<float>]): the value rounded to binary32, to an
    infinity when it is beyond the range of binary32, as IEC 60559
    conversions do. *)
Definition to_float (d : double) : float :=
  match d with
  | S754_finite s m e => binary_round 24 128 s m e
  | _ => d
  end.

(** The promotion of a [float] operand to [double] (usual arithmetic
    conversions); it is exact. *)
Definition to_double (f : float) : double :=
  match f with
  | S754_finite s m e => binary_round 53 1024 s m e
  | _ => f
  end.

(** The literals [m * 2^e] in each format. *)
Definition f32 (m e : Z) : float := binary_normalize 24 128 m e false.
Definition f64 (m e : Z) : double := binary_normalize 53 1024 m e false.

Definition is_nan (x : spec_float) : bool :=
  match x with S754_nan => true | _ => false end.

(** Zeros and finite numbers: neither an infinity nor a NaN. *)
Definition is_finite (x : spec_float) : bool :=
  match x with S754_zero _ | S754_finite _ _ _ => true | _ => false end.

(** A [double] that the conversion to [float] and back leaves as it is. *)
Definition float_representable (d : double) : Prop :=
  is_finite d = true /\ to_double (to_float d) = d.

End IEEE.
Import IEEE.

(** ** Vectors *)

Record vec3 (F : Type) : Type := mk_vec3 { vx : F; vy : F; vz : F }.
Arguments mk_vec3 {F} _ _ _.
Arguments vx {F} _.
Arguments vy {F} _.
Arguments vz {F} _.

(** ** Results of functions that may dereference a null pointer *)

Inductive outcome (A : Type) : Type :=
| Returns (a : A)
| Undefined.
Arguments Returns {A} _.
Arguments Undefined {A}.

Definition bind {A B : Type} (o : outcome A) (k : A -> outcome B) : outcome B :=
  match o with
  | Returns a => k a
  | Undefined => Undefined
  end.

Notation "o >>= k" := (bind o k) (at level 50, left associativity).

(** ** The camera *)

(** The members of [Camera] that [ViewManager.cpp] reads and writes. *)
Record Camera : Type := mk_Camera {
  Position : vec3 float;
  Front : vec3 float;
  Up : vec3 float;
  Yaw : float;
  Pitch : float;
  MovementSpeed : float;
  Zoom : float
}.

(** The numeric kernel of the camera class: how yaw and pitch advance under
    a pair of offsets, and the basis vectors (front, up) that belong to a
    yaw and a pitch. *)
Record CameraKernel : Type := mk_CameraKernel {
  orient : float -> float -> float -> float -> float * float;
  basis : float -> float -> vec3 float * vec3 float
}.

(** Modelled from the spec: [Camera::ProcessMouseMovement] (camera.h is not
    among the source files).  It is the camera's orientation-update routine:
    it takes the two offsets, updates yaw and pitch, and recomputes the
    camera basis vectors from the resulting yaw and pitch; with zero offsets
    it is the recomputation the projection toggle asks for.  Position, zoom
    and movement speed are not part of the orientation. *)
Definition ProcessMouseMovement (K : CameraKernel) (c : Camera)
    (xoffset yoffset : float) : Camera :=
  let '(yaw', pitch') := orient K (Yaw c) (Pitch c) xoffset yoffset in
  let '(front', up') := basis K yaw' pitch' in
  {| Position := Position c;
     Front := front';
     Up := up';
     Yaw := yaw';
     Pitch := pitch';
     MovementSpeed := MovementSpeed c;
     Zoom := Zoom c |}.

(** The five members the projection toggle saves and loads. *)
Definition pose (c : Camera) : vec3 float * vec3 float * vec3 float * float * float :=
  (Position c, Front c, Up c, Yaw c, Pitch c).

(** A camera with those five members replaced and the others kept. *)
Definition with_pose (p : vec3 float * vec3 float * vec3 float * float * float)
    (c : Camera) : Camera :=
  let '(position, front, up, yaw, pitch) := p in
  {| Position := position;
     Front := front;
     Up := up;
     Yaw := yaw;
     Pitch := pitch;
     MovementSpeed := MovementSpeed c;
     Zoom := Zoom c |}.

(** ** ViewManager.cpp *)

Module ViewManager.

(** The variables of the unnamed namespace that the callbacks and the
    projection toggle use. *)
Record State : Type := mk_State {
  g_pCamera : option Camera;
  gLastX : float;
  gLastY : float;
  gFirstMouse : bool;
  gCameraSpeed : float;
  bOrthographicProjection : bool;
  perspectivePosition : vec3 float;
  perspectiveFront : vec3 float;
  perspectiveUp : vec3 float;
  perspectiveYaw : float;
  perspectivePitch : float;
  orthographicPosition : vec3 float;
  orthographicFront : vec3 float;
  orthographicUp : vec3 float;
  orthographicYaw : float;
  orthographicPitch : float;
  cameraStatesInitialized : bool
}.

Definition WINDOW_WIDTH : Z := 1000.
Definition WINDOW_HEIGHT : Z := 800.
Definition MIN_CAMERA_SPEED : float := f32 1 (-1).
Definition MAX_CAMERA_SPEED : float := f32 10 0.

Definition fzero : float := S754_zero false.
Definition vzero : vec3 float := mk_vec3 fzero fzero fzero.

(** The variables as their initialisers leave them, before any
    [ViewManager] is constructed. *)
Definition initial_globals : State :=
  {| g_pCamera := None;
     gLastX := f32 (WINDOW_WIDTH / 2) 0;
     gLastY := f32 (WINDOW_HEIGHT / 2) 0;
     gFirstMouse := true;
     gCameraSpeed := f32 5 (-1);
     bOrthographicProjection := false;
     perspectivePosition := vzero;
     perspectiveFront := vzero;
     perspectiveUp := vzero;
     perspectiveYaw := fzero;
     perspectivePitch := fzero;
     orthographicPosition := vzero;
     orthographicFront := vzero;
     orthographicUp := vzero;
     orthographicYaw := fzero;
     orthographicPitch := fzero;
     cameraStatesInitialized := false |}.

Definition set_camera (st : State) (c : option Camera) : State :=
  {| g_pCamera := c;
     gLastX := gLastX st;
     gLastY := gLastY st;
     gFirstMouse := gFirstMouse st;
     gCameraSpeed := gCameraSpeed st;
     bOrthographicProjection := bOrthographicProjection st;
     perspectivePosition := perspectivePosition st;
     perspectiveFront := perspectiveFront st;
     perspectiveUp := perspectiveUp st;
     perspectiveYaw := perspectiveYaw st;
     perspectivePitch := perspectivePitch st;
     orthographicPosition := orthographicPosition st;
     orthographicFront := orthographicFront st;
     orthographicUp := orthographicUp st;
     orthographicYaw := orthographicYaw st;
     orthographicPitch := orthographicPitch st;
     cameraStatesInitialized := cameraStatesInitialized st |}.

(** [ViewManager::ViewManager]; [cam0] is the object [new Camera()]
    yields. *)
Definition ViewManager (cam0 : Camera) (st : State) : State :=
  let c := {| Position := mk_vec3 (f32 0 0) (f32 5 0) (f32 12 0);
              Front := mk_vec3 (f32 0 0) (SFopp (f32 1 (-1))) (SFopp (f32 2 0));
              Up := mk_vec3 (f32 0 0) (f32 1 0) (f32 0 0);
              Yaw := Yaw cam0;
              Pitch := Pitch cam0;
              MovementSpeed := MovementSpeed cam0;
              Zoom := f32 80 0 |} in
  {| g_pCamera := Some c;
     gLastX := gLastX st;
     gLastY := gLastY st;
     gFirstMouse := gFirstMouse st;
     gCameraSpeed := gCameraSpeed st;
     bOrthographicProjection := bOrthographicProjection st;
     perspectivePosition := Position c;
     perspectiveFront := Front c;
     perspectiveUp := Up c;
     perspectiveYaw := Yaw c;
     perspectivePitch := Pitch c;
     orthographicPosition := mk_vec3 (f32 0 0) (f32 15 0) (f32 0 0);
     orthographicFront := mk_vec3 (f32 0 0) (SFopp (f32 1 0)) (f32 0 0);
     orthographicUp := mk_vec3 (f32 0 0) (f32 0 0) (SFopp (f32 1 0));
     orthographicYaw := SFopp (f32 90 0);
     orthographicPitch := SFopp (f32 89 0);
     cameraStatesInitialized := true |}.

(** Lines 170-183 of [Mouse_Position_Callback]: the recorded position
    after the call, and the two offsets it computes.  [xMousePos - gLastX]
    is a [double] subtraction whose result initialises a [float]. *)
Definition Mouse_Position_Offsets (st : State) (xMousePos yMousePos : double)
    : State * (float * float) :=
  let lastX := if gFirstMouse st then to_float xMousePos else gLastX st in
  let lastY := if gFirstMouse st then to_float yMousePos else gLastY st in
  let xOffset := to_float (dsub xMousePos (to_double lastX)) in
  let yOffset := to_float (dsub (to_double lastY) yMousePos) in
  ({| g_pCamera := g_pCamera st;
      gLastX := to_float xMousePos;
      gLastY := to_float yMousePos;
      gFirstMouse := if gFirstMouse st then false else gFirstMouse st;
      gCameraSpeed := gCameraSpeed st;
      bOrthographicProjection := bOrthographicProjection st;
      perspectivePosition := perspectivePosition st;
      perspectiveFront := perspectiveFront st;
      perspectiveUp := perspectiveUp st;
      perspectiveYaw := perspectiveYaw st;
      perspectivePitch := perspectivePitch st;
      orthographicPosition := orthographicPosition st;
      orthographicFront := orthographicFront st;
      orthographicUp := orthographicUp st;
      orthographicYaw := orthographicYaw st;
      orthographicPitch := orthographicPitch st;
      cameraStatesInitialized := cameraStatesInitialized st |},
   (xOffset, yOffset)).

(** [ViewManager::Mouse_Position_Callback]: the offsets are handed to the
    camera when there is one. *)
Definition Mouse_Position_Callback (K : CameraKernel) (st : State)
    (xMousePos yMousePos : double) : State :=
  let '(st', (xOffset, yOffset)) := Mouse_Position_Offsets st xMousePos yMousePos in
  match g_pCamera st' with
  | Some c => set_camera st' (Some (ProcessMouseMovement K c xOffset yOffset))
  | None => st'
  end.

(** The speed [Mouse_Scroll_Callback] settles on: the scaled delta is
    added, then the two comparisons bring the sum back to the limits. *)
Definition scrolled_speed (speed : float) (yOffset : double) : float :=
  let speed1 := fadd speed (fmul (to_float yOffset) (f32 1 (-1))) in
  if flt speed1 MIN_CAMERA_SPEED then MIN_CAMERA_SPEED
  else if flt MAX_CAMERA_SPEED speed1 then MAX_CAMERA_SPEED
  else speed1.

(** [ViewManager::Mouse_Scroll_Callback]. *)
Definition Mouse_Scroll_Callback (st : State) (xOffset yOffset : double) : State :=
  let speed := scrolled_speed (gCameraSpeed st) yOffset in
  {| g_pCamera :=
       match g_pCamera st with
       | Some c =>
           Some {| Position := Position c;
                   Front := Front c;
                   Up := Up c;
                   Yaw := Yaw c;
                   Pitch := Pitch c;
                   MovementSpeed := speed;
                   Zoom := Zoom c |}
       | None => None
       end;
     gLastX := gLastX st;
     gLastY := gLastY st;
     gFirstMouse := gFirstMouse st;
     gCameraSpeed := speed;
     bOrthographicProjection := bOrthographicProjection st;
     perspectivePosition := perspectivePosition st;
     perspectiveFront := perspectiveFront st;
     perspectiveUp := perspectiveUp st;
     perspectiveYaw := perspectiveYaw st;
     perspectivePitch := perspectivePitch st;
     orthographicPosition := orthographicPosition st;
     orthographicFront := orthographicFront st;
     orthographicUp := orthographicUp st;
     orthographicYaw := orthographicYaw st;
     orthographicPitch := orthographicPitch st;
     cameraStatesInitialized := cameraStatesInitialized st |}.

(** [ViewManager::SwitchToOrthographic].  Inside the guard the camera
    pointer is dereferenced without a test. *)
Definition SwitchToOrthographic (K : CameraKernel) (st : State) : outcome State :=
  if negb (bOrthographicProjection st) && cameraStatesInitialized st then
    match g_pCamera st with
    | None => Undefined
    | Some c =>
        let loaded := {| Position := orthographicPosition st;
                         Front := orthographicFront st;
                         Up := orthographicUp st;
                         Yaw := orthographicYaw st;
                         Pitch := orthographicPitch st;
                         MovementSpeed := MovementSpeed c;
                         Zoom := Zoom c |} in
        Returns
          {| g_pCamera := Some (ProcessMouseMovement K loaded fzero fzero);
             gLastX := gLastX st;
             gLastY := gLastY st;
             gFirstMouse := gFirstMouse st;
             gCameraSpeed := gCameraSpeed st;
             bOrthographicProjection := true;
             perspectivePosition := Position c;
             perspectiveFront := Front c;
             perspectiveUp := Up c;
             perspectiveYaw := Yaw c;
             perspectivePitch := Pitch c;
             orthographicPosition := orthographicPosition st;
             orthographicFront := orthographicFront st;
             orthographicUp := orthographicUp st;
             orthographicYaw := orthographicYaw st;
             orthographicPitch := orthographicPitch st;
             cameraStatesInitialized := cameraStatesInitialized st |}
    end
  else Returns st.

(** [ViewManager::SwitchToPerspective]. *)
Definition SwitchToPerspective (K : CameraKernel) (st : State) : outcome State :=
  if bOrthographicProjection st && cameraStatesInitialized st then
    match g_pCamera st with
    | None => Undefined
    | Some c =>
        let loaded := {| Position := perspectivePosition st;
                         Front := perspectiveFront st;
                         Up := perspectiveUp st;
                         Yaw := perspectiveYaw st;
                         Pitch := perspectivePitch st;
                         MovementSpeed := MovementSpeed c;
                         Zoom := Zoom c |} in
        Returns
          {| g_pCamera := Some (ProcessMouseMovement K loaded fzero fzero);
             gLastX := gLastX st;
             gLastY := gLastY st;
             gFirstMouse := gFirstMouse st;
             gCameraSpeed := gCameraSpeed st;
             bOrthographicProjection := false;
             perspectivePosition := perspectivePosition st;
             perspectiveFront := perspectiveFront st;
             perspectiveUp := perspectiveUp st;
             perspectiveYaw := perspectiveYaw st;
             perspectivePitch := perspectivePitch st;
             orthographicPosition := Position c;
             orthographicFront := Front c;
             orthographicUp := Up c;
             orthographicYaw := Yaw c;
             orthographicPitch := Pitch c;
             cameraStatesInitialized := cameraStatesInitialized st |}
    end
  else Returns st.

(** The two groups of five variables that hold the dormant pose. *)
Definition perspective_slot (st : State) :=
  (perspectivePosition st, perspectiveFront st, perspectiveUp st,
   perspectiveYaw st, perspectivePitch st).

Definition orthographic_slot (st : State) :=
  (orthographicPosition st, orthographicFront st, orthographicUp st,
   orthographicYaw st, orthographicPitch st).

(** The states after each of a sequence of scroll events. *)
Fixpoint scroll_run (st : State) (events : list (double * double)) : list State :=
  match events with
  | [] => []
  | (xOffset, yOffset) :: rest =>
      let st' := Mouse_Scroll_Callback st xOffset yOffset in
      st' :: scroll_run st' rest
  end.

(** A speed within the limits [MIN_CAMERA_SPEED] and [MAX_CAMERA_SPEED]. *)
Definition within_speed_limits (speed : float) : Prop :=
  fle MIN_CAMERA_SPEED speed = true /\ fle speed MAX_CAMERA_SPEED = true.

End ViewManager.

(** ** GLM *)

Record vec4 (F : Type) : Type := mk_vec4 { v4x : F; v4y : F; v4z : F; v4w : F }.
Arguments mk_vec4 {F} _ _ _ _.
Arguments v4x {F} _.
Arguments v4y {F} _.
Arguments v4z {F} _.
Arguments v4w {F} _.

(** A [glm::mat4] is stored by columns. *)
Definition mat4 (F : Type) : Type := vec4 (vec4 F).

(** The operations of GLM that [SetTransformations] calls, over the scalar
    type [F]: the literals [0.0f] and [1.0f], [glm::radians], the three
    transform builders of [glm/gtx/transform.hpp] and the matrix product. *)
Record GLM (F : Type) : Type := mk_GLM {
  literal0 : F;
  literal1 : F;
  radians : F -> F;
  scale : vec3 F -> mat4 F;
  rotate : F -> vec3 F -> mat4 F;
  translate : vec3 F -> mat4 F;
  mat4_mul : mat4 F -> mat4 F -> mat4 F
}.
Arguments literal0 {F} _.
Arguments literal1 {F} _.
Arguments radians {F} _ _.
Arguments scale {F} _ _.
Arguments rotate {F} _ _ _.
Arguments translate {F} _ _.
Arguments mat4_mul {F} _ _ _.

(** Modelled from the spec: the translation, axis-rotation and scale
    matrices and the matrix product that the spec composes (GLM is a
    library outside the source files), in exact real arithmetic.  The
    rotation is GLM's axis-angle matrix about the normalised axis. *)
Module Exact.

Local Open Scope R_scope.

Definition mul_vec (m : mat4 R) (v : vec4 R) : vec4 R :=
  let c0 := v4x m in
  let c1 := v4y m in
  let c2 := v4z m in
  let c3 := v4w m in
  mk_vec4
    (v4x c0 * v4x v + v4x c1 * v4y v + v4x c2 * v4z v + v4x c3 * v4w v)
    (v4y c0 * v4x v + v4y c1 * v4y v + v4y c2 * v4z v + v4y c3 * v4w v)
    (v4z c0 * v4x v + v4z c1 * v4y v + v4z c2 * v4z v + v4z c3 * v4w v)
    (v4w c0 * v4x v + v4w c1 * v4y v + v4w c2 * v4z v + v4w c3 * v4w v).

Definition mul (a b : mat4 R) : mat4 R :=
  mk_vec4 (mul_vec a (v4x b)) (mul_vec a (v4y b))
          (mul_vec a (v4z b)) (mul_vec a (v4w b)).

Definition scale (v : vec3 R) : mat4 R :=
  mk_vec4 (mk_vec4 (vx v) 0 0 0)
          (mk_vec4 0 (vy v) 0 0)
          (mk_vec4 0 0 (vz v) 0)
          (mk_vec4 0 0 0 1).

Definition translate (v : vec3 R) : mat4 R :=
  mk_vec4 (mk_vec4 1 0 0 0)
          (mk_vec4 0 1 0 0)
          (mk_vec4 0 0 1 0)
          (mk_vec4 (vx v) (vy v) (vz v) 1).

Definition rotate (angle : R) (v : vec3 R) : mat4 R :=
  let c := cos angle in
  let s := sin angle in
  let n := sqrt (vx v * vx v + vy v * vy v + vz v * vz v) in
  let ax := vx v / n in
  let ay := vy v / n in
  let az := vz v / n in
  let tx := (1 - c) * ax in
  let ty := (1 - c) * ay in
  let tz := (1 - c) * az in
  mk_vec4 (mk_vec4 (c + tx * ax) (tx * ay + s * az) (tx * az - s * ay) 0)
          (mk_vec4 (ty * ax - s * az) (c + ty * ay) (ty * az + s * ax) 0)
          (mk_vec4 (tz * ax + s * ay) (tz * ay - s * ax) (c + tz * az) 0)
          (mk_vec4 0 0 0 1).

Definition radians (degrees : R) : R := degrees * PI / 180.

Definition glm : GLM R := mk_GLM R 0 1 radians scale rotate translate mul.

End Exact.

(** Modelled from the spec: the same matrices and products in binary32,
    each operation rounded to nearest, in the order of GLM's templates for
    [float] ([glm::scale], [glm::rotate] and [glm::translate] of one
    argument start from the identity matrix).  The cosine and the sine
    are those of the platform's libm and are parameters. *)
Module Binary32.

Definition zero : float := f32 0 0.
Definition one : float := f32 1 0.

Definition vec4_scale (v : vec4 float) (k : float) : vec4 float :=
  mk_vec4 (fmul (v4x v) k) (fmul (v4y v) k) (fmul (v4z v) k) (fmul (v4w v) k).

Definition vec4_add (a b : vec4 float) : vec4 float :=
  mk_vec4 (fadd (v4x a) (v4x b)) (fadd (v4y a) (v4y b))
          (fadd (v4z a) (v4z b)) (fadd (v4w a) (v4w b)).

Definition identity : mat4 float :=
  mk_vec4 (mk_vec4 one zero zero zero) (mk_vec4 zero one zero zero)
          (mk_vec4 zero zero one zero) (mk_vec4 zero zero zero one).

(** [mat4 * vec4]. *)
Definition mul_vec (m : mat4 float) (v : vec4 float) : vec4 float :=
  vec4_add
    (vec4_add (vec4_scale (v4x m) (v4x v)) (vec4_scale (v4y m) (v4y v)))
    (vec4_add (vec4_scale (v4z m) (v4z v)) (vec4_scale (v4w m) (v4w v))).

(** A column of [mat4 * mat4]. *)
Definition column (a : mat4 float) (b : vec4 float) : vec4 float :=
  vec4_add
    (vec4_add
       (vec4_add (vec4_scale (v4x a) (v4x b)) (vec4_scale (v4y a) (v4y b)))
       (vec4_scale (v4z a) (v4z b)))
    (vec4_scale (v4w a) (v4w b)).

Definition mul (a b : mat4 float) : mat4 float :=
  mk_vec4 (column a (v4x b)) (column a (v4y b))
          (column a (v4z b)) (column a (v4w b)).

Definition scale (v : vec3 float) : mat4 float :=
  let m := identity in
  mk_vec4 (vec4_scale (v4x m) (vx v)) (vec4_scale (v4y m) (vy v))
          (vec4_scale (v4z m) (vz v)) (v4w m).

Definition translate (v : vec3 float) : mat4 float :=
  let m := identity in
  mk_vec4 (v4x m) (v4y m) (v4z m)
          (vec4_add
             (vec4_add
                (vec4_add (vec4_scale (v4x m) (vx v)) (vec4_scale (v4y m) (vy v)))
                (vec4_scale (v4z m) (vz v)))
             (v4w m)).

Definition normalize (v : vec3 float) : vec3 float :=
  let dot := fadd (fadd (fmul (vx v) (vx v)) (fmul (vy v) (vy v)))
                  (fmul (vz v) (vz v)) in
  let k := SFdiv 24 128 one (SFsqrt 24 128 dot) in
  mk_vec3 (fmul (vx v) k) (fmul (vy v) k) (fmul (vz v) k).

(** [glm::radians]: the degrees times the [float] nearest to pi/180. *)
Definition radians (degrees : float) : float :=
  fmul degrees (f32 9370165 (-29)).

Section Libm.

Variables cosf sinf : float -> float.

Definition rotate (angle : float) (v : vec3 float) : mat4 float :=
  let m := identity in
  let c := cosf angle in
  let s := sinf angle in
  let axis := normalize v in
  let temp := mk_vec3 (fmul (fsub one c) (vx axis)) (fmul (fsub one c) (vy axis))
                      (fmul (fsub one c) (vz axis)) in
  let r00 := fadd c (fmul (vx temp) (vx axis)) in
  let r01 := fadd (fmul (vx temp) (vy axis)) (fmul s (vz axis)) in
  let r02 := fsub (fmul (vx temp) (vz axis)) (fmul s (vy axis)) in
  let r10 := fsub (fmul (vy temp) (vx axis)) (fmul s (vz axis)) in
  let r11 := fadd c (fmul (vy temp) (vy axis)) in
  let r12 := fadd (fmul (vy temp) (vz axis)) (fmul s (vx axis)) in
  let r20 := fadd (fmul (vz temp) (vx axis)) (fmul s (vy axis)) in
  let r21 := fsub (fmul (vz temp) (vy axis)) (fmul s (vx axis)) in
  let r22 := fadd c (fmul (vz temp) (vz axis)) in
  let combine (a b c : float) :=
    vec4_add (vec4_add (vec4_scale (v4x m) a) (vec4_scale (v4y m) b))
             (vec4_scale (v4z m) c) in
  mk_vec4 (combine r00 r01 r02) (combine r10 r11 r12) (combine r20 r21 r22)
          (v4w m).

Definition glm : GLM float :=
  mk_GLM float zero one radians scale rotate translate mul.

End Libm.

(** The real number a finite [float] stands for. *)
Definition value (x : float) : R :=
  match x with
  | S754_finite s m (Zneg p) => (IZR (cond_Zopp s (Zpos m)) / IZR (Z.pow_pos 2 p))%R
  | S754_finite s m e => IZR (cond_Zopp s (Zpos m) * 2 ^ e)
  | _ => 0%R
  end.

(** A finite [float] within the tolerance 10^-6 of a golden value. *)
Definition within_tolerance (x : float) (golden : R) : Prop :=
  is_finite x = true /\ (Rabs (value x - golden) <= / 1000000)%R.

Definition vec4_within_tolerance (v : vec4 float) (golden : vec4 R) : Prop :=
  within_tolerance (v4x v) (v4x golden) /\
  within_tolerance (v4y v) (v4y golden) /\
  within_tolerance (v4z v) (v4z golden) /\
  within_tolerance (v4w v) (v4w golden).

End Binary32.

(** ** SceneManager.cpp *)

Module SceneManager.

(** A value handed to one of the shader manager's [set...Value] methods. *)
Inductive UniformValue (F : Type) : Type :=
| IntValue (v : Z)
| FloatValue (v : F)
| Vec2Value (v0 v1 : F)
| Vec3Value (v : vec3 F)
| Vec4Value (v : vec4 F)
| Mat4Value (v : mat4 F)
| Sampler2DValue (v : Z).
Arguments IntValue {F} _.
Arguments FloatValue {F} _.
Arguments Vec2Value {F} _ _.
Arguments Vec3Value {F} _.
Arguments Vec4Value {F} _.
Arguments Mat4Value {F} _.
Arguments Sampler2DValue {F} _.

(** The shader manager, seen from the scene manager: the uniforms it has
    been handed, oldest first. *)
Definition ShaderManager (F : Type) : Type := list (string * UniformValue F).

(** [TEXTURE_INFO]; its members are [ID] and [tag]. *)
Record TEXTURE_INFO : Type := mk_TEXTURE_INFO {
  ID : Z;
  texture_tag : string
}.

(** [OBJECT_MATERIAL]. *)
Record OBJECT_MATERIAL (F : Type) : Type := mk_OBJECT_MATERIAL {
  ambientColor : vec3 F;
  ambientStrength : F;
  diffuseColor : vec3 F;
  specularColor : vec3 F;
  shininess : F;
  tag : string
}.
Arguments mk_OBJECT_MATERIAL {F} _ _ _ _ _ _.
Arguments ambientColor {F} _.
Arguments ambientStrength {F} _.
Arguments diffuseColor {F} _.
Arguments specularColor {F} _.
Arguments shininess {F} _.
Arguments tag {F} _.

(** What [stbi_load] reports about a decoded image. *)
Record Image : Type := mk_Image {
  width : Z;
  height : Z;
  colorChannels : Z
}.

Inductive GLenum : Type :=
| GL_TEXTURE_WRAP_S | GL_TEXTURE_WRAP_T
| GL_TEXTURE_MIN_FILTER | GL_TEXTURE_MAG_FILTER
| GL_REPEAT | GL_LINEAR
| GL_RGB8 | GL_RGB | GL_RGBA8 | GL_RGBA.

(** The OpenGL calls of [CreateGLTexture], all on [GL_TEXTURE_2D]. *)
Inductive GLCall : Type :=
| glGenTextures (texture : Z)
| glBindTexture (texture : Z)
| glTexParameteri (pname param : GLenum)
| glTexImage2D (internalformat : GLenum) (w h : Z) (format : GLenum)
| glGenerateMipmap.

(** The members of the scene manager, and the OpenGL calls made so far.
    [m_textureIDs] is indexed as the code indexes it; its extent is
    declared in SceneManager.h, outside the source files, and indices are
    not checked against it.  [int] arithmetic is that of [Z]. *)
Record State (F : Type) : Type := mk_State {
  m_pShaderManager : option (ShaderManager F);
  m_textureIDs : Z -> TEXTURE_INFO;
  m_loadedTextures : Z;
  m_objectMaterials : list (OBJECT_MATERIAL F);
  gl : list GLCall
}.
Arguments mk_State {F} _ _ _ _ _.
Arguments m_pShaderManager {F} _.
Arguments m_textureIDs {F} _.
Arguments m_loadedTextures {F} _.
Arguments m_objectMaterials {F} _.
Arguments gl {F} _.

Definition g_ModelName : string := "model".
Definition g_ColorValueName : string := "objectColor".
Definition g_TextureValueName : string := "objectTexture".
Definition g_UseTextureName : string := "bUseTexture".

Section Scalars.

Variable F : Type.

(** The state after the shader manager has been handed [uniforms]. *)
Definition upload (st : State F) (sh : ShaderManager F)
    (uniforms : list (string * UniformValue F)) : State F :=
  {| m_pShaderManager := Some (sh ++ uniforms);
     m_textureIDs := m_textureIDs st;
     m_loadedTextures := m_loadedTextures st;
     m_objectMaterials := m_objectMaterials st;
     gl := gl st |}.

(** [SceneManager::CreateGLTexture].  [image] is what [stbi_load] returns for
    the file ([None] for a null pointer) and [textureID] the name
    [glGenTextures] writes. *)
Definition CreateGLTexture (image : option Image) (textureID : Z) (tag : string)
    (st : State F) : bool * State F :=
  match image with
  | Some img =>
      let calls :=
        [glGenTextures textureID;
         glBindTexture textureID;
         glTexParameteri GL_TEXTURE_WRAP_S GL_REPEAT;
         glTexParameteri GL_TEXTURE_WRAP_T GL_REPEAT;
         glTexParameteri GL_TEXTURE_MIN_FILTER GL_LINEAR;
         glTexParameteri GL_TEXTURE_MAG_FILTER GL_LINEAR] in
      let register (upload_call : GLCall) :=
        (true,
         {| m_pShaderManager := m_pShaderManager st;
            m_textureIDs := fun index =>
              if index =? m_loadedTextures st
              then {| ID := textureID; texture_tag := tag |}
              else m_textureIDs st index;
            m_loadedTextures := m_loadedTextures st + 1;
            m_objectMaterials := m_objectMaterials st;
            gl := gl st ++ calls ++ [upload_call; glGenerateMipmap; glBindTexture 0] |}) in
      if colorChannels img =? 3 then
        register (glTexImage2D GL_RGB8 (width img) (height img) GL_RGB)
      else if colorChannels img =? 4 then
        register (glTexImage2D GL_RGBA8 (width img) (height img) GL_RGBA)
      else
        (false,
         {| m_pShaderManager := m_pShaderManager st;
            m_textureIDs := m_textureIDs st;
            m_loadedTextures := m_loadedTextures st;
            m_objectMaterials := m_objectMaterials st;
            gl := gl st ++ calls |})
  | None => (false, st)
  end.

(** The loop of [FindTextureSlot]: it runs while [index < m_loadedTextures]
    and nothing has been found; [remaining] is [m_loadedTextures - index]. *)
Fixpoint FindTextureSlot_loop (textures : Z -> TEXTURE_INFO) (tag : string)
    (remaining : nat) (index : Z) : Z :=
  match remaining with
  | O => -1
  | S remaining' =>
      if String.eqb (texture_tag (textures index)) tag then index
      else FindTextureSlot_loop textures tag remaining' (index + 1)
  end.

(** [SceneManager::FindTextureSlot]. *)
Definition FindTextureSlot (tag : string) (st : State F) : Z :=
  FindTextureSlot_loop (m_textureIDs st) tag (Z.to_nat (m_loadedTextures st)) 0.

(** The loop of [FindMaterial] over the materials from [index] on: the flag
    [bFound] and the material the reference parameter holds afterwards.
    The five numeric members are copied; the tag is not. *)
Fixpoint FindMaterial_loop (tag : string) (materials : list (OBJECT_MATERIAL F))
    (material : OBJECT_MATERIAL F) : bool * OBJECT_MATERIAL F :=
  match materials with
  | [] => (false, material)
  | m :: rest =>
      if String.eqb (SceneManager.tag m) tag then
        (true,
         {| ambientColor := ambientColor m;
            ambientStrength := ambientStrength m;
            diffuseColor := diffuseColor m;
            specularColor := specularColor m;
            shininess := shininess m;
            SceneManager.tag := SceneManager.tag material |})
      else FindMaterial_loop tag rest material
  end.

(** [SceneManager::FindMaterial]: the returned flag and the reference
    parameter [material] after the call.  After the loop the function
    returns [true], not [bFound]. *)
Definition FindMaterial (tag : string) (material : OBJECT_MATERIAL F)
    (st : State F) : bool * OBJECT_MATERIAL F :=
  if (List.length (m_objectMaterials st) =? 0)%nat then (false, material)
  else
    let '(bFound, material') := FindMaterial_loop tag (m_objectMaterials st) material in
    (true, material').

(** [SceneManager::SetTransformations]. *)
Definition SetTransformations (G : GLM F) (scaleXYZ : vec3 F)
    (XrotationDegrees YrotationDegrees ZrotationDegrees : F)
    (positionXYZ : vec3 F) (st : State F) : State F :=
  let scale := scale G scaleXYZ in
  let rotationX := rotate G (radians G XrotationDegrees)
                     (mk_vec3 (literal1 G) (literal0 G) (literal0 G)) in
  let rotationY := rotate G (radians G YrotationDegrees)
                     (mk_vec3 (literal0 G) (literal1 G) (literal0 G)) in
  let rotationZ := rotate G (radians G ZrotationDegrees)
                     (mk_vec3 (literal0 G) (literal0 G) (literal1 G)) in
  let translation := translate G positionXYZ in
  let modelView :=
    mat4_mul G (mat4_mul G (mat4_mul G (mat4_mul G translation rotationX) rotationY)
                  rotationZ) scale in
  match m_pShaderManager st with
  | Some sh => upload st sh [(g_ModelName, Mat4Value modelView)]
  | None => st
  end.

(** [SceneManager::SetShaderColor]. *)
Definition SetShaderColor (redColorValue greenColorValue blueColorValue alphaValue : F)
    (st : State F) : State F :=
  let currentColor := mk_vec4 redColorValue greenColorValue blueColorValue alphaValue in
  match m_pShaderManager st with
  | Some sh =>
      upload st sh [(g_UseTextureName, IntValue 0);
                    (g_ColorValueName, Vec4Value currentColor)]
  | None => st
  end.

(** [SceneManager::SetShaderTexture]. *)
Definition SetShaderTexture (textureTag : string) (st : State F) : State F :=
  match m_pShaderManager st with
  | Some sh =>
      let textureID := FindTextureSlot textureTag st in
      upload st sh [(g_UseTextureName, IntValue 1);
                    (g_TextureValueName, Sampler2DValue textureID)]
  | None => st
  end.

(** [SceneManager::SetTextureUVScale]. *)
Definition SetTextureUVScale (u v : F) (st : State F) : State F :=
  match m_pShaderManager st with
  | Some sh => upload st sh [("UVscale"%string, Vec2Value u v)]
  | None => st
  end.

(** The five uniforms [SetShaderMaterial] hands over for [material]. *)
Definition material_uniforms (material : OBJECT_MATERIAL F)
    : list (string * UniformValue F) :=
  [("material.ambientColor"%string, Vec3Value (ambientColor material));
   ("material.ambientStrength"%string, FloatValue (ambientStrength material));
   ("material.diffuseColor"%string, Vec3Value (diffuseColor material));
   ("material.specularColor"%string, Vec3Value (specularColor material));
   ("material.shininess"%string, FloatValue (shininess material))].

(** [SceneManager::SetShaderMaterial].  [material] is the local variable
    as its declaration leaves it: nothing is assigned to it before the
    lookup.  The shader manager pointer is dereferenced without a test. *)
Definition SetShaderMaterial (material : OBJECT_MATERIAL F) (materialTag : string)
    (st : State F) : outcome (State F) :=
  if (0 <? List.length (m_objectMaterials st))%nat then
    let '(bReturn, material') := FindMaterial materialTag material st in
    if bReturn then
      match m_pShaderManager st with
      | Some sh => Returns (upload st sh (material_uniforms material'))
      | None => Undefined
      end
    else Returns st
  else Returns st.

End Scalars.

Arguments upload {F} _ _ _.
Arguments CreateGLTexture {F} _ _ _ _.
Arguments FindTextureSlot {F} _ _.
Arguments FindMaterial_loop {F} _ _ _.
Arguments FindMaterial {F} _ _ _.
Arguments SetTransformations {F} _ _ _ _ _ _ _.
Arguments SetShaderColor {F} _ _ _ _ _.
Arguments SetShaderTexture {F} _ _.
Arguments SetTextureUVScale {F} _ _ _.
Arguments material_uniforms {F} _.
Arguments SetShaderMaterial {F} _ _ _.

(** The [float] literal [n/d] and the [double] literal [n/d] converted to
    [float], for integers the formats hold exactly. *)
Definition lit (n d : Z) : float := SFdiv 24 128 (f32 n 0) (f32 d 0).
Definition dlit (n d : Z) : float := to_float (SFdiv 53 1024 (f64 n 0) (f64 d 0)).

Definition rgb (r g b : float) : vec3 float := mk_vec3 r g b.

(** [SceneManager::DefineObjectMaterials]. *)
Definition DefineObjectMaterials (st : State float) : State float :=
  let grassMaterial :=
    {| ambientColor := rgb (lit 4 10) (lit 6 10) (lit 3 10);
       ambientStrength := lit 3 100;
       diffuseColor := rgb (lit 4 10) (lit 6 10) (lit 3 10);
       specularColor := rgb (lit 35 100) (lit 45 100) (lit 35 100);
       shininess := dlit 5 1;
       tag := "grass" |} in
  let dirtMaterial :=
    {| ambientColor := rgb (lit 5 10) (lit 4 10) (lit 3 10);
       ambientStrength := lit 1 100;
       diffuseColor := rgb (lit 5 10) (lit 4 10) (lit 3 10);
       specularColor := rgb (lit 18 100) (lit 18 100) (lit 18 100);
       shininess := dlit 12 10;
       tag := "dirt" |} in
  let brickMaterial :=
    {| ambientColor := rgb (lit 6 10) (lit 4 10) (lit 3 10);
       ambientStrength := lit 5 100;
       diffuseColor := rgb (lit 6 10) (lit 4 10) (lit 3 10);
       specularColor := rgb (lit 45 100) (lit 35 100) (lit 35 100);
       shininess := dlit 4 1;
       tag := "brick" |} in
  let hedgeMaterial :=
    {| ambientColor := rgb (lit 3 10) (lit 5 10) (lit 2 10);
       ambientStrength := lit 6 100;
       diffuseColor := rgb (lit 3 10) (lit 5 10) (lit 2 10);
       specularColor := rgb (lit 22 100) (lit 32 100) (lit 22 100);
       shininess := dlit 3 1;
       tag := "hedge" |} in
  let foliageMaterial :=
    {| ambientColor := rgb (lit 35 100) (lit 55 100) (lit 25 100);
       ambientStrength := lit 6 100;
       diffuseColor := rgb (lit 35 100) (lit 55 100) (lit 25 100);
       specularColor := rgb (lit 28 100) (lit 35 100) (lit 28 100);
       shininess := dlit 7 1;
       tag := "foliage" |} in
  {| m_pShaderManager := m_pShaderManager st;
     m_textureIDs := m_textureIDs st;
     m_loadedTextures := m_loadedTextures st;
     m_objectMaterials :=
       m_objectMaterials st ++
       [grassMaterial; dirtMaterial; brickMaterial; hedgeMaterial; foliageMaterial];
     gl := gl st |}.

(** A texture name is a [GLuint], a number below 2^32 ([ID] is what
    [glGenTextures] writes through a [GLuint *]).  Its conversion to [int]
    keeps the 32 bits: names from 2^31 on come out negative. *)
Definition GLuint_MAX : Z := 4294967295.

Definition int_of_GLuint (name : Z) : Z :=
  (name + 2147483648) mod 4294967296 - 2147483648.

(** The loop of [FindTextureID], as that of [FindTextureSlot]; the name
    found is assigned to the [int] the function returns. *)
Fixpoint FindTextureID_loop (textures : Z -> TEXTURE_INFO) (tag : string)
    (remaining : nat) (index : Z) : Z :=
  match remaining with
  | O => -1
  | S remaining' =>
      if String.eqb (texture_tag (textures index)) tag
      then int_of_GLuint (ID (textures index))
      else FindTextureID_loop textures tag remaining' (index + 1)
  end.

(** [SceneManager::FindTextureID]. *)
Definition FindTextureID {F : Type} (tag : string) (st : State F) : Z :=
  FindTextureID_loop (m_textureIDs st) tag (Z.to_nat (m_loadedTextures st)) 0.

(** The two OpenGL calls of [BindGLTextures]: [glActiveTexture (GL_TEXTURE0 +
    unit)] and [glBindTexture (GL_TEXTURE_2D, texture)]. *)
Inductive UnitCall : Type :=
| glActiveTexture (unit : Z)
| glBindTexture2D (texture : Z).

(** The loop of [BindGLTextures] from [i] on. *)
Fixpoint BindGLTextures_loop (textures : Z -> TEXTURE_INFO) (remaining : nat)
    (i : Z) : list UnitCall :=
  match remaining with
  | O => []
  | S remaining' =>
      glActiveTexture i :: glBindTexture2D (ID (textures i))
        :: BindGLTextures_loop textures remaining' (i + 1)
  end.

(** [SceneManager::BindGLTextures]: the calls it makes, in order.  It
    changes no member. *)
Definition BindGLTextures {F : Type} (st : State F) : list UnitCall :=
  BindGLTextures_loop (m_textureIDs st) (Z.to_nat (m_loadedTextures st)) 0.



(** The loop of [DestroyGLTextures] from [i] on: [glGenTextures (1,
    &m_textureIDs[i].ID)] writes a newly generated name, [names i], over
    the stored one. *)
Fixpoint DestroyGLTextures_loop (names : Z -> Z) (textures : Z -> TEXTURE_INFO)
    (remaining : nat) (i : Z) : (Z -> TEXTURE_INFO) * list GLCall :=
  match remaining with
  | O => (textures, [])
  | S remaining' =>
      let textures' := fun index =>
        if index =? i
        then {| ID := names i; texture_tag := texture_tag (textures i) |}
        else textures index in
      let '(textures'', calls) :=
        DestroyGLTextures_loop names textures' remaining' (i + 1) in
      (textures'', glGenTextures (names i) :: calls)
  end.

(** [SceneManager::DestroyGLTextures]. *)
Definition DestroyGLTextures {F : Type} (names : Z -> Z) (st : State F) : State F :=
  let '(textures, calls) :=
    DestroyGLTextures_loop names (m_textureIDs st)
      (Z.to_nat (m_loadedTextures st)) 0 in
  {| m_pShaderManager := m_pShaderManager st;
     m_textureIDs := textures;
     m_loadedTextures := m_loadedTextures st;
     m_objectMaterials := m_objectMaterials st;
     gl := gl st ++ calls |}.

(** [SceneManager::LoadSceneTextures]: the scene manager afterwards and the
    calls of the closing [BindGLTextures].  [stbi_load] is the decoder as a
    function of the file name and [names k] the name [glGenTextures] has
    for the [k]-th call of [CreateGLTexture]; the five results are
    assigned to [bReturn] and never read. *)
Definition LoadSceneTextures {F : Type} (stbi_load : string -> option Image)
    (names : Z -> Z) (st : State F) : State F * list UnitCall :=
  let st1 := snd (CreateGLTexture (stbi_load "textures/plants_grass_seamless.jpg"%string)
                    (names 0) "grass" st) in
  let st2 := snd (CreateGLTexture (stbi_load "textures/dirt.jpg"%string)
                    (names 1) "dirt" st1) in
  let st3 := snd (CreateGLTexture (stbi_load "textures/brick.jpg"%string)
                    (names 2) "brick" st2) in
  let st4 := snd (CreateGLTexture (stbi_load "textures/plants_hedge_seamless.jpg"%string)
                    (names 3) "hedge" st3) in
  let st5 := snd (CreateGLTexture (stbi_load "textures/foliage.jpg"%string)
                    (names 4) "foliage" st4) in
  (st5, BindGLTextures st5).

(** An image [CreateGLTexture] accepts: decoded, with 3 or 4 channels. *)
Definition supported (image : option Image) : bool :=
  match image with
  | Some img => (colorChannels img =? 3) || (colorChannels img =? 4)
  | None => false
  end.

(** The entries the catalog holds: those at the indices below
    [m_loadedTextures], in order. *)
Definition loaded_from (textures : Z -> TEXTURE_INFO) (remaining : nat) (i : Z)
    : list TEXTURE_INFO :=
  map (fun k => textures (i + Z.of_nat k)) (seq 0 remaining).

Definition loaded {F : Type} (st : State F) : list TEXTURE_INFO :=
  loaded_from (m_textureIDs st) (Z.to_nat (m_loadedTextures st)) 0.

(** The position of the first entry of a list with a tag, [-1] without
    one. *)
Fixpoint first_with_tag (tag : string) (entries : list TEXTURE_INFO) (i : Z) : Z :=
  match entries with
  | [] => -1
  | e :: rest =>
      if String.eqb (texture_tag e) tag then i
      else first_with_tag tag rest (i + 1)
  end.

(** The calls made on the [ShapeMeshes] object [m_basicMeshes]. *)
Inductive MeshCall : Type :=
| LoadPlaneMesh | LoadBoxMesh | LoadPyramid4Mesh | LoadConeMesh
| DrawPlaneMesh | DrawBoxMesh | DrawPyramid4Mesh | DrawConeMesh.

(** The scene manager together with what it has asked of its
    collaborators: the texture-unit calls of [BindGLTextures] and the
    calls on [m_basicMeshes], oldest first. *)
Record Scene : Type := mk_Scene {
  manager : State float;
  units : list UnitCall;
  meshes : list MeshCall
}.

Definition on_manager (f : State float -> State float) (sc : Scene) : Scene :=
  {| manager := f (manager sc); units := units sc; meshes := meshes sc |}.

Definition on_manager_outcome (f : State float -> outcome (State float))
    (sc : Scene) : outcome Scene :=
  f (manager sc) >>= fun st =>
  Returns {| manager := st; units := units sc; meshes := meshes sc |}.

Definition mesh (call : MeshCall) (sc : Scene) : Scene :=
  {| manager := manager sc; units := units sc; meshes := meshes sc ++ [call] |}.

Definition g_UseLightingName : string := "bUseLighting".

Section Collaborators.

(** What [ShaderManager::setBoolValue] hands on for a [bool]
    (ShaderManager is outside the source files). *)
Variable BoolValue : bool -> UniformValue float.

(** [SceneManager::SetupSceneLights].  The shader manager pointer is
    dereferenced without a test. *)
Definition SetupSceneLights (st : State float) : outcome (State float) :=
  match m_pShaderManager st with
  | None => Undefined
  | Some sh =>
      Returns (upload st sh
        [(g_UseLightingName, BoolValue true);
         ("directionalLight.direction"%string, Vec3Value (mk_vec3 (SFopp (lit 5 10)) (SFopp (f32 1 0)) (SFopp (lit 3 10))));
         ("directionalLight.ambient"%string, Vec3Value (mk_vec3 (lit 2 10) (lit 2 10) (lit 2 10)));
         ("directionalLight.diffuse"%string, Vec3Value (mk_vec3 (lit 15 10) (lit 15 10) (lit 14 10)));
         ("directionalLight.specular"%string, Vec3Value (mk_vec3 (f32 1 0) (f32 1 0) (f32 1 0)));
         ("directionalLight.bActive"%string, BoolValue true);
         ("pointLights[0].position"%string, Vec3Value (mk_vec3 (lit 35 10) (f32 5 0) (lit 15 10)));
         ("pointLights[0].ambient"%string, Vec3Value (mk_vec3 (lit 1 10) (lit 1 10) (lit 1 10)));
         ("pointLights[0].diffuse"%string, Vec3Value (mk_vec3 (lit 4 10) (lit 4 10) (lit 35 100)));
         ("pointLights[0].specular"%string, Vec3Value (mk_vec3 (lit 3 10) (lit 3 10) (lit 3 10)));
         ("pointLights[0].bActive"%string, BoolValue true);
         ("pointLights[1].position"%string, Vec3Value (mk_vec3 (SFopp (lit 35 10)) (f32 5 0) (lit 65 10)));
         ("pointLights[1].ambient"%string, Vec3Value (mk_vec3 (lit 15 100) (lit 1 10) (lit 5 100)));
         ("pointLights[1].diffuse"%string, Vec3Value (mk_vec3 (lit 8 10) (lit 6 10) (lit 3 10)));
         ("pointLights[1].specular"%string, Vec3Value (mk_vec3 (lit 4 10) (lit 3 10) (lit 2 10)));
         ("pointLights[1].bActive"%string, BoolValue true)])
  end.

(** [SceneManager::PrepareScene]. *)
Definition PrepareScene (stbi_load : string -> option Image) (names : Z -> Z)
    (sc : Scene) : outcome Scene :=
  let sc := mesh LoadPlaneMesh sc in
  let sc := mesh LoadBoxMesh sc in
  let sc := mesh LoadPyramid4Mesh sc in
  let sc := mesh LoadConeMesh sc in
  let '(st, calls) := LoadSceneTextures stbi_load names (manager sc) in
  let sc := {| manager := st; units := units sc ++ calls; meshes := meshes sc |} in
  let sc := on_manager DefineObjectMaterials sc in
  on_manager_outcome SetupSceneLights sc.

End Collaborators.

(** [SceneManager::RenderScene].  [material k] is the local variable of the
    [k]-th call of [SetShaderMaterial] as its declaration leaves it.  Each
    transformation is written with the values the variables [scaleXYZ],
    [XrotationDegrees], [YrotationDegrees], [ZrotationDegrees] and
    [positionXYZ] hold at the call. *)
Definition RenderScene (G : GLM float) (material : nat -> OBJECT_MATERIAL float)
    (sc : Scene) : outcome Scene :=
  let sc := on_manager (SetTransformations G
      (mk_vec3 (f32 20 0) (f32 1 0) (f32 15 0))
      (f32 0 0) (f32 0 0) (f32 0 0)
      (mk_vec3 (f32 0 0) (f32 0 0) (f32 0 0))) sc in
  let sc := on_manager (SetTextureUVScale (f32 4 0) (f32 2 0)) sc in
  on_manager_outcome (SetShaderMaterial (material 0%nat) "grass") sc >>= fun sc =>
  let sc := on_manager (SetShaderTexture "grass") sc in
  let sc := mesh DrawPlaneMesh sc in
  let sc := on_manager (SetTransformations G
      (mk_vec3 (f32 8 0) (lit 35 10) (f32 8 0))
      (f32 0 0) (f32 0 0) (f32 0 0)
      (mk_vec3 (f32 0 0) (lit 2 100) (lit 65 10))) sc in
  let sc := on_manager (SetTextureUVScale (f32 2 0) (f32 2 0)) sc in
  on_manager_outcome (SetShaderMaterial (material 1%nat) "dirt") sc >>= fun sc =>
  let sc := on_manager (SetShaderTexture "dirt") sc in
  let sc := mesh DrawPlaneMesh sc in
  let sc := on_manager (SetTextureUVScale (f32 1 0) (f32 1 0)) sc in
  on_manager_outcome (SetShaderMaterial (material 2%nat) "brick") sc >>= fun sc =>
  let sc := on_manager (SetShaderTexture "brick") sc in
  let sc := on_manager (SetTransformations G
      (mk_vec3 (lit 5 10) (lit 15 100) (lit 5 10))
      (f32 0 0) (f32 45 0) (f32 0 0)
      (mk_vec3 (SFopp (lit 12 10)) (lit 8 100) (lit 72 10))) sc in
  let sc := mesh DrawBoxMesh sc in
  let sc := on_manager (SetTransformations G
      (mk_vec3 (lit 5 10) (lit 15 100) (lit 5 10))
      (f32 0 0) (f32 45 0) (f32 0 0)
      (mk_vec3 (SFopp (lit 16 10)) (lit 8 100) (lit 76 10))) sc in
  let sc := mesh DrawBoxMesh sc in
  let sc := on_manager (SetTransformations G
      (mk_vec3 (lit 5 10) (lit 15 100) (lit 5 10))
      (f32 0 0) (f32 45 0) (f32 0 0)
      (mk_vec3 (SFopp (f32 2 0)) (lit 8 100) (f32 8 0))) sc in
  let sc := mesh DrawBoxMesh sc in
  let sc := on_manager (SetTransformations G
      (mk_vec3 (lit 5 10) (lit 15 100) (lit 5 10))
      (f32 0 0) (f32 45 0) (f32 0 0)
      (mk_vec3 (SFopp (lit 24 10)) (lit 8 100) (lit 84 10))) sc in
  let sc := mesh DrawBoxMesh sc in
  let sc := on_manager (SetTransformations G
      (mk_vec3 (lit 5 10) (lit 15 100) (lit 5 10))
      (f32 0 0) (f32 45 0) (f32 0 0)
      (mk_vec3 (SFopp (lit 28 10)) (lit 8 100) (lit 88 10))) sc in
  let sc := mesh DrawBoxMesh sc in
  let sc := on_manager (SetTransformations G
      (mk_vec3 (lit 5 10) (lit 15 100) (lit 5 10))
      (f32 0 0) (f32 45 0) (f32 0 0)
      (mk_vec3 (SFopp (lit 8 10)) (lit 8 100) (lit 76 10))) sc in
  let sc := mesh DrawBoxMesh sc in
  let sc := on_manager (SetTransformations G
      (mk_vec3 (lit 5 10) (lit 15 100) (lit 5 10))
      (f32 0 0) (f32 45 0) (f32 0 0)
      (mk_vec3 (SFopp (lit 12 10)) (lit 8 100) (f32 8 0))) sc in
  let sc := mesh DrawBoxMesh sc in
  let sc := on_manager (SetTransformations G
      (mk_vec3 (lit 5 10) (lit 15 100) (lit 5 10))
      (f32 0 0) (f32 45 0) (f32 0 0)
      (mk_vec3 (SFopp (lit 16 10)) (lit 8 100) (lit 84 10))) sc in
  let sc := mesh DrawBoxMesh sc in
  let sc := on_manager (SetTransformations G
      (mk_vec3 (lit 5 10) (lit 15 100) (lit 5 10))
      (f32 0 0) (f32 45 0) (f32 0 0)
      (mk_vec3 (SFopp (f32 2 0)) (lit 8 100) (lit 88 10))) sc in
  let sc := mesh DrawBoxMesh sc in
  let sc := on_manager (SetTransformations G
      (mk_vec3 (lit 5 10) (lit 15 100) (lit 5 10))
      (f32 0 0) (f32 45 0) (f32 0 0)
      (mk_vec3 (SFopp (lit 24 10)) (lit 8 100) (lit 92 10))) sc in
  let sc := mesh DrawBoxMesh sc in
  let sc := on_manager (SetTransformations G
      (mk_vec3 (f32 2 0) (f32 1 0) (lit 15 10))
      (f32 0 0) (f32 45 0) (f32 0 0)
      (mk_vec3 (f32 0 0) (lit 75 100) (lit 65 10))) sc in
  let sc := on_manager (SetTextureUVScale (f32 2 0) (f32 1 0)) sc in
  on_manager_outcome (SetShaderMaterial (material 3%nat) "hedge") sc >>= fun sc =>
  let sc := on_manager (SetShaderTexture "hedge") sc in
  let sc := mesh DrawBoxMesh sc in
  let sc := on_manager (SetTransformations G
      (mk_vec3 (lit 15 10) (lit 25 10) (lit 15 10))
      (f32 0 0) (f32 45 0) (f32 0 0)
      (mk_vec3 (f32 0 0) (lit 25 10) (lit 65 10))) sc in
  let sc := on_manager (SetTextureUVScale (lit 15 10) (lit 15 10)) sc in
  on_manager_outcome (SetShaderMaterial (material 4%nat) "foliage") sc >>= fun sc =>
  let sc := on_manager (SetShaderTexture "foliage") sc in
  let sc := mesh DrawPyramid4Mesh sc in
  let sc := mesh LoadConeMesh sc in
  let sc := on_manager (SetTransformations G
      (mk_vec3 (f32 2 0) (f32 1 0) (lit 15 10))
      (f32 0 0) (f32 45 0) (f32 0 0)
      (mk_vec3 (lit 15 10) (lit 75 100) (f32 5 0))) sc in
  let sc := on_manager (SetTextureUVScale (lit 15 10) (f32 1 0)) sc in
  on_manager_outcome (SetShaderMaterial (material 5%nat) "hedge") sc >>= fun sc =>
  let sc := on_manager (SetShaderTexture "hedge") sc in
  let sc := mesh DrawBoxMesh sc in
  let sc := on_manager (SetTransformations G
      (mk_vec3 (lit 7 10) (f32 1 0) (lit 7 10))
      (f32 0 0) (f32 45 0) (f32 0 0)
      (mk_vec3 (lit 15 10) (lit 125 100) (f32 5 0))) sc in
  let sc := on_manager (SetTextureUVScale (lit 12 10) (lit 12 10)) sc in
  on_manager_outcome (SetShaderMaterial (material 6%nat) "foliage") sc >>= fun sc =>
  let sc := on_manager (SetShaderTexture "foliage") sc in
  let sc := mesh DrawConeMesh sc in
  let sc := on_manager (SetTransformations G
      (mk_vec3 (f32 2 0) (f32 1 0) (lit 15 10))
      (f32 0 0) (f32 45 0) (f32 0 0)
      (mk_vec3 (f32 3 0) (lit 75 100) (lit 35 10))) sc in
  let sc := on_manager (SetTextureUVScale (lit 15 10) (f32 1 0)) sc in
  on_manager_outcome (SetShaderMaterial (material 7%nat) "hedge") sc >>= fun sc =>
  let sc := on_manager (SetShaderTexture "hedge") sc in
  let sc := mesh DrawBoxMesh sc in
  let sc := on_manager (SetTransformations G
      (mk_vec3 (lit 75 100) (f32 1 0) (lit 75 100))
      (f32 0 0) (f32 45 0) (f32 0 0)
      (mk_vec3 (f32 3 0) (lit 125 100) (lit 35 10))) sc in
  let sc := on_manager (SetTextureUVScale (lit 12 10) (lit 12 10)) sc in
  on_manager_outcome (SetShaderMaterial (material 8%nat) "foliage") sc >>= fun sc =>
  let sc := on_manager (SetShaderTexture "foliage") sc in
  let sc := mesh DrawConeMesh sc in
  let sc := on_manager (SetTransformations G
      (mk_vec3 (f32 2 0) (f32 1 0) (lit 15 10))
      (f32 0 0) (f32 45 0) (f32 0 0)
      (mk_vec3 (lit 45 10) (lit 75 100) (f32 2 0))) sc in
  let sc := on_manager (SetTextureUVScale (lit 15 10) (f32 1 0)) sc in
  on_manager_outcome (SetShaderMaterial (material 9%nat) "hedge") sc >>= fun sc =>
  let sc := on_manager (SetShaderTexture "hedge") sc in
  let sc := mesh DrawBoxMesh sc in
  let sc := on_manager (SetTransformations G
      (mk_vec3 (lit 65 100) (f32 1 0) (lit 65 100))
      (f32 0 0) (f32 45 0) (f32 0 0)
      (mk_vec3 (lit 45 10) (lit 125 100) (f32 2 0))) sc in
  let sc := on_manager (SetTextureUVScale (lit 12 10) (lit 12 10)) sc in
  on_manager_outcome (SetShaderMaterial (material 10%nat) "foliage") sc >>= fun sc =>
  let sc := on_manager (SetShaderTexture "foliage") sc in
  let sc := mesh DrawConeMesh sc in
  Returns sc.

(** The first material of a catalog with a tag. *)
Definition first_material {F : Type} (t : string)
    (materials : list (OBJECT_MATERIAL F)) : option (OBJECT_MATERIAL F) :=
  find (fun m => String.eqb (tag m) t) materials.

(** The result of [SetShaderMaterial] when it returns after a hit. *)
Definition uploaded_material (t : string) (st : State float) : State float :=
  match m_pShaderManager st, first_material t (m_objectMaterials st) with
  | Some sh, Some m => upload st sh (material_uniforms m)
  | _, _ => st
  end.

(** A state with a shader manager and the materials of [st0]. *)
Definition prepared (st0 st : State float) : Prop :=
  m_pShaderManager st <> None /\
  m_objectMaterials st = m_objectMaterials st0 /\
  m_textureIDs st = m_textureIDs st0 /\
  m_loadedTextures st = m_loadedTextures st0 /\
  gl st = gl st0.

(** The tags [RenderScene] asks [SetShaderMaterial] for. *)
Definition scene_tags : list string :=
  ["grass"; "dirt"; "brick"; "hedge"; "foliage"]%string.

(** The calls [RenderScene] makes on [m_basicMeshes], in order: two planes,
    the ten bricks of the path, the main topiary and the three smaller
    ones, with the cone mesh loaded again before the first of those. *)
Definition render_calls : list MeshCall :=
  [DrawPlaneMesh; DrawPlaneMesh;
   DrawBoxMesh; DrawBoxMesh; DrawBoxMesh; DrawBoxMesh; DrawBoxMesh;
   DrawBoxMesh; DrawBoxMesh; DrawBoxMesh; DrawBoxMesh; DrawBoxMesh;
   DrawBoxMesh; DrawPyramid4Mesh;
   LoadConeMesh; DrawBoxMesh; DrawConeMesh;
   DrawBoxMesh; DrawConeMesh;
   DrawBoxMesh; DrawConeMesh].

End SceneManager.

(** ** ViewManager.cpp: the per-frame functions *)

Module ViewFrame.

Import ViewManager.

(** The keys [ProcessKeyboardEvents] polls. *)
Inductive Key : Type :=
| GLFW_KEY_ESCAPE
| GLFW_KEY_W | GLFW_KEY_S | GLFW_KEY_A | GLFW_KEY_D
| GLFW_KEY_Q | GLFW_KEY_E
| GLFW_KEY_P | GLFW_KEY_O.

(** The directions it hands to the camera. *)
Inductive Camera_Movement : Type :=
| FORWARD | BACKWARD | LEFT | RIGHT | UP | DOWN.

(** The operations the per-frame functions call and the source files do
    not define: [Camera::ProcessKeyboard] and [Camera::GetViewMatrix] of
    the camera class, as far as they act on the members of [Camera]
    above, and [glm::ortho] and [glm::perspective]. *)
Record ViewKernel : Type := mk_ViewKernel {
  ProcessKeyboard : Camera_Movement -> float -> Camera -> Camera;
  GetViewMatrix : Camera -> mat4 float;
  ortho : float -> float -> float -> float -> float -> float -> mat4 float;
  perspective : float -> float -> float -> float -> mat4 float
}.

Definition g_ViewName : string := "view".
Definition g_ProjectionName : string := "projection".

(** The view manager between two frames: the variables of the unnamed
    namespace, the two timing variables among them, the two [static]
    locals of [ProcessKeyboardEvents], the member [m_pShaderManager], and
    whether [glfwSetWindowShouldClose] has been called on [m_pWindow]. *)
Record View : Type := mk_View {
  globals : State;
  gDeltaTime : float;
  gLastFrame : float;
  pKeyWasPressed : bool;
  oKeyWasPressed : bool;
  m_pShaderManager : option (SceneManager.ShaderManager float);
  window_should_close : bool
}.

(** One of the six movement tests of [ProcessKeyboardEvents]: when the key
    is down the camera pointer is dereferenced, without a test. *)
Definition move_on_key (V : ViewKernel) (pressed : bool)
    (direction : Camera_Movement) (deltaTime : float) (st : State)
    : outcome State :=
  if pressed then
    match g_pCamera st with
    | Some c => Returns (set_camera st (Some (ProcessKeyboard V direction deltaTime c)))
    | None => Undefined
    end
  else Returns st.

(** Lines 300-325 of [ProcessKeyboardEvents]: the keys W, S, A, D, Q and E,
    tested one after the other.  [pressed key] tells whether
    [glfwGetKey (m_pWindow, key)] is [GLFW_PRESS]. *)
Definition movement (V : ViewKernel) (pressed : Key -> bool) (deltaTime : float)
    (st : State) : outcome State :=
  move_on_key V (pressed GLFW_KEY_W) FORWARD deltaTime st >>= fun st =>
  move_on_key V (pressed GLFW_KEY_S) BACKWARD deltaTime st >>= fun st =>
  move_on_key V (pressed GLFW_KEY_A) LEFT deltaTime st >>= fun st =>
  move_on_key V (pressed GLFW_KEY_D) RIGHT deltaTime st >>= fun st =>
  move_on_key V (pressed GLFW_KEY_Q) UP deltaTime st >>= fun st =>
  move_on_key V (pressed GLFW_KEY_E) DOWN deltaTime st.

(** Lines 328-343 of [ProcessKeyboardEvents]: the P key, then the O key,
    each acted on when it is down and was not at the previous call. *)
Definition toggles (K : CameraKernel) (pressed : Key -> bool)
    (pKeyWasPressed oKeyWasPressed : bool) (st : State) : outcome State :=
  let pKeyIsPressed := pressed GLFW_KEY_P in
  (if pKeyIsPressed && negb pKeyWasPressed then SwitchToPerspective K st
   else Returns st) >>= fun st =>
  let oKeyIsPressed := pressed GLFW_KEY_O in
  if oKeyIsPressed && negb oKeyWasPressed then SwitchToOrthographic K st
  else Returns st.

(** [ViewManager::ProcessKeyboardEvents]. *)
Definition ProcessKeyboardEvents (K : CameraKernel) (V : ViewKernel)
    (pressed : Key -> bool) (v : View) : outcome View :=
  let close :=
    if pressed GLFW_KEY_ESCAPE then true else window_should_close v in
  movement V pressed (gDeltaTime v) (globals v) >>= fun st =>
  toggles K pressed (pKeyWasPressed v) (oKeyWasPressed v) st >>= fun st =>
  Returns {| globals := st;
             gDeltaTime := gDeltaTime v;
             gLastFrame := gLastFrame v;
             pKeyWasPressed := pressed GLFW_KEY_P;
             oKeyWasPressed := pressed GLFW_KEY_O;
             m_pShaderManager := m_pShaderManager v;
             window_should_close := close |}.

(** The three uniforms [PrepareSceneView] hands the shader manager. *)
Definition view_uniforms (view projection : mat4 float) (position : vec3 float)
    : list (string * SceneManager.UniformValue float) :=
  [(g_ViewName, SceneManager.Mat4Value view);
   (g_ProjectionName, SceneManager.Mat4Value projection);
   ("viewPosition"%string, SceneManager.Vec3Value position)].

(** [ViewManager::PrepareSceneView]; [glfwGetTime] is the time the call of
    that name returns.  The camera pointer is dereferenced without a
    test. *)
Definition PrepareSceneView (K : CameraKernel) (V : ViewKernel) (G : GLM float)
    (glfwGetTime : double) (pressed : Key -> bool) (v : View) : outcome View :=
  let currentFrame := to_float glfwGetTime in
  let v := {| globals := globals v;
              gDeltaTime := fsub currentFrame (gLastFrame v);
              gLastFrame := currentFrame;
              pKeyWasPressed := pKeyWasPressed v;
              oKeyWasPressed := oKeyWasPressed v;
              m_pShaderManager := m_pShaderManager v;
              window_should_close := window_should_close v |} in
  ProcessKeyboardEvents K V pressed v >>= fun v =>
  match g_pCamera (globals v) with
  | None => Undefined
  | Some c =>
      let view := GetViewMatrix V c in
      let projection :=
        if bOrthographicProjection (globals v) then
          let orthoScale := f32 10 0 in
          ortho V
            (fmul (SFopp orthoScale)
               (SFdiv 24 128 (f32 WINDOW_WIDTH 0) (f32 WINDOW_HEIGHT 0)))
            (fmul orthoScale
               (SFdiv 24 128 (f32 WINDOW_WIDTH 0) (f32 WINDOW_HEIGHT 0)))
            (SFopp orthoScale)
            orthoScale
            (SceneManager.lit 1 10)
            (f32 100 0)
        else
          perspective V
            (radians G (Zoom c))
            (SFdiv 24 128 (f32 WINDOW_WIDTH 0) (f32 WINDOW_HEIGHT 0))
            (SceneManager.lit 1 10)
            (f32 100 0) in
      match m_pShaderManager v with
      | Some sh =>
          Returns {| globals := globals v;
                     gDeltaTime := gDeltaTime v;
                     gLastFrame := gLastFrame v;
                     pKeyWasPressed := pKeyWasPressed v;
                     oKeyWasPressed := oKeyWasPressed v;
                     m_pShaderManager :=
                       Some (sh ++ view_uniforms view projection (Position c));
                     window_should_close := window_should_close v |}
      | None => Returns v
      end
  end.

(** Whether one of the six movement keys is down. *)
Definition moving (pressed : Key -> bool) : bool :=
  pressed GLFW_KEY_W || pressed GLFW_KEY_S || pressed GLFW_KEY_A ||
  pressed GLFW_KEY_D || pressed GLFW_KEY_Q || pressed GLFW_KEY_E.

(** Whether the P key, or the O key, takes effect at a call: it is down,
    was not at the previous call, and the toggle's own guard lets it
    through. *)
Definition p_takes_effect (pressed : Key -> bool) (v : View) : bool :=
  pressed GLFW_KEY_P && negb (pKeyWasPressed v) &&
  bOrthographicProjection (globals v) && cameraStatesInitialized (globals v).

Definition o_takes_effect (pressed : Key -> bool) (v : View) : bool :=
  pressed GLFW_KEY_O && negb (oKeyWasPressed v) &&
  cameraStatesInitialized (globals v) &&
  (negb (bOrthographicProjection (globals v)) ||
   pressed GLFW_KEY_P && negb (pKeyWasPressed v)).

(** The mode the two toggle keys leave at a call: the O key is handled
    last. *)
Definition mode_after (pressed : Key -> bool) (v : View) : bool :=
  if pressed GLFW_KEY_O && negb (oKeyWasPressed v) &&
     cameraStatesInitialized (globals v) then true
  else if pressed GLFW_KEY_P && negb (pKeyWasPressed v) &&
          cameraStatesInitialized (globals v) then false
  else bOrthographicProjection (globals v).

(** The orthographic view volume of [PrepareSceneView]: 25 wide, 20 high,
    from 0.1 to 100 deep. *)
Definition orthographic_volume (V : ViewKernel) : mat4 float :=
  ortho V (f32 (-25) (-1)) (f32 25 (-1)) (f32 (-10) 0) (f32 10 0)
    (SceneManager.lit 1 10) (f32 100 0).

End ViewFrame.

(** ** A concrete camera for running the model

    The camera class is outside the two source files, so the theorems
    below hold for every [CameraKernel].  To run the model on examples a
    kernel has to be fixed: this one advances yaw and pitch by the offsets
    scaled by a sensitivity of [0.1], keeps the pitch within 89 degrees of
    level, and recomputes the basis on the coordinate axes (looking down
    for a pitch below -45 degrees, up above 45 degrees, along -Z
    otherwise).  At the yaw and pitch the constructor stores in the
    orthographic slot it yields exactly the front and up vectors stored
    beside them. *)

Module Sample.

Definition sensitivity : float := f32 13421773 (-27).

Definition kernel : CameraKernel :=
  {| orient := fun yaw pitch xoffset yoffset =>
       let yaw' := fadd yaw (fmul xoffset sensitivity) in
       let pitch1 := fadd pitch (fmul yoffset sensitivity) in
       let pitch2 := if flt (f32 89 0) pitch1 then f32 89 0 else pitch1 in
       let pitch3 := if flt pitch2 (SFopp (f32 89 0)) then SFopp (f32 89 0) else pitch2 in
       (yaw', pitch3);
     basis := fun yaw pitch =>
       if flt pitch (SFopp (f32 45 0)) then
         (mk_vec3 (f32 0 0) (SFopp (f32 1 0)) (f32 0 0),
          mk_vec3 (f32 0 0) (f32 0 0) (SFopp (f32 1 0)))
       else if flt (f32 45 0) pitch then
         (mk_vec3 (f32 0 0) (f32 1 0) (f32 0 0),
          mk_vec3 (f32 0 0) (f32 0 0) (f32 1 0))
       else
         (mk_vec3 (f32 0 0) (f32 0 0) (SFopp (f32 1 0)),
          mk_vec3 (f32 0 0) (f32 1 0) (f32 0 0)) |}.

(** A freshly constructed camera: at the origin, level, looking along
    -Z. *)
Definition camera : Camera :=
  {| Position := mk_vec3 (f32 0 0) (f32 0 0) (f32 0 0);
     Front := mk_vec3 (f32 0 0) (f32 0 0) (SFopp (f32 1 0));
     Up := mk_vec3 (f32 0 0) (f32 1 0) (f32 0 0);
     Yaw := SFopp (f32 90 0);
     Pitch := f32 0 0;
     MovementSpeed := f32 5 (-1);
     Zoom := f32 45 0 |}.

(** The program state once the view manager has been constructed. *)
Definition started : ViewManager.State :=
  ViewManager.ViewManager camera ViewManager.initial_globals.

(** The state after a first cursor report at (512, 384). *)
Definition looked : ViewManager.State :=
  ViewManager.Mouse_Position_Callback kernel started (f64 512 0) (f64 384 0).

(** The [double] nearest to one tenth, which no [float] equals. *)
Definition tenth : double := f64 7205759403792794 (-56).

(** A scene manager with a shader manager, no texture and the materials
    of the scene. *)
Definition scene : SceneManager.State float :=
  SceneManager.DefineObjectMaterials
    {| SceneManager.m_pShaderManager := Some [];
       SceneManager.m_textureIDs := fun _ =>
         {| SceneManager.ID := 0; SceneManager.texture_tag := "" |};
       SceneManager.m_loadedTextures := 0;
       SceneManager.m_objectMaterials := [];
       SceneManager.gl := [] |}.

(** The same scene manager constructed with a null shader manager. *)
Definition unlit_scene : SceneManager.State float :=
  {| SceneManager.m_pShaderManager := None;
     SceneManager.m_textureIDs := SceneManager.m_textureIDs scene;
     SceneManager.m_loadedTextures := SceneManager.m_loadedTextures scene;
     SceneManager.m_objectMaterials := SceneManager.m_objectMaterials scene;
     SceneManager.gl := SceneManager.gl scene |}.

(** A material variable nothing has been assigned to: whatever its
    declaration leaves in it, here 7 everywhere, with the empty tag. *)
Definition leftover : SceneManager.OBJECT_MATERIAL float :=
  {| SceneManager.ambientColor := mk_vec3 (f32 7 0) (f32 7 0) (f32 7 0);
     SceneManager.ambientStrength := f32 7 0;
     SceneManager.diffuseColor := mk_vec3 (f32 7 0) (f32 7 0) (f32 7 0);
     SceneManager.specularColor := mk_vec3 (f32 7 0) (f32 7 0) (f32 7 0);
     SceneManager.shininess := f32 7 0;
     SceneManager.tag := "" |}.

(** A scene manager over the reals with an idle shader manager. *)
Definition exact_scene : SceneManager.State R :=
  {| SceneManager.m_pShaderManager := Some [];
     SceneManager.m_textureIDs := fun _ =>
       {| SceneManager.ID := 0; SceneManager.texture_tag := "" |};
     SceneManager.m_loadedTextures := 0;
     SceneManager.m_objectMaterials := [];
     SceneManager.gl := [] |}.

(** An image of two by two pixels with three channels, and the files of
    a run in which [textures/dirt.jpg] cannot be read. *)
Definition image : SceneManager.Image :=
  {| SceneManager.width := 2; SceneManager.height := 2;
     SceneManager.colorChannels := 3 |}.

Definition files (filename : string) : option SceneManager.Image :=
  if String.eqb filename "textures/dirt.jpg" then None else Some image.

(** The scene manager after a first texture, named 7, has been loaded
    under the tag grass. *)
Definition one_texture : SceneManager.State float :=
  snd (SceneManager.CreateGLTexture (Some image) 7 "grass" scene).

(** GLM in binary32 for running the model: the scale and translation
    matrices and the matrix product as GLM computes them.  Pi, the cosine
    and the sine come from the platform's libm; [radians] multiplies by
    the [float] nearest to pi/180 and [rotate] stands in as the rotation
    by a zero angle, the identity matrix. *)
Definition mul_vec (m : mat4 float) (v : vec4 float) : vec4 float :=
  let row (f : vec4 float -> float) :=
    fadd (fadd (fadd (fmul (f (v4x m)) (v4x v)) (fmul (f (v4y m)) (v4y v)))
               (fmul (f (v4z m)) (v4z v)))
         (fmul (f (v4w m)) (v4w v)) in
  mk_vec4 (row v4x) (row v4y) (row v4z) (row v4w).

Definition mul (a b : mat4 float) : mat4 float :=
  mk_vec4 (mul_vec a (v4x b)) (mul_vec a (v4y b))
          (mul_vec a (v4z b)) (mul_vec a (v4w b)).

Definition diagonal (x y z : float) : mat4 float :=
  mk_vec4 (mk_vec4 x (f32 0 0) (f32 0 0) (f32 0 0))
          (mk_vec4 (f32 0 0) y (f32 0 0) (f32 0 0))
          (mk_vec4 (f32 0 0) (f32 0 0) z (f32 0 0))
          (mk_vec4 (f32 0 0) (f32 0 0) (f32 0 0) (f32 1 0)).

Definition translation (v : vec3 float) : mat4 float :=
  mk_vec4 (mk_vec4 (f32 1 0) (f32 0 0) (f32 0 0) (f32 0 0))
          (mk_vec4 (f32 0 0) (f32 1 0) (f32 0 0) (f32 0 0))
          (mk_vec4 (f32 0 0) (f32 0 0) (f32 1 0) (f32 0 0))
          (mk_vec4 (vx v) (vy v) (vz v) (f32 1 0)).

Definition glm : GLM float :=
  mk_GLM float (f32 0 0) (f32 1 0)
    (fun degrees => fmul degrees (f32 9370165 (-29)))
    (fun v => diagonal (vx v) (vy v) (vz v))
    (fun _ _ => diagonal (f32 1 0) (f32 1 0) (f32 1 0))
    translation
    mul.

(** The cosine and the sine of a libm that rounds correctly, at the two
    angles of the golden test: at zero they are 1 and 0, and at the
    [float] nearest to pi/2, which is what [glm::radians] makes of 90
    degrees, the cosine is -4.371139e-08 and the sine is 1.  The values at
    zero stand in at every other angle. *)
Definition cosf (angle : float) : float :=
  if SFeqb angle (Binary32.radians (f32 90 0)) then f32 (-12303662) (-48)
  else f32 1 0.

Definition sinf (angle : float) : float :=
  if SFeqb angle (Binary32.radians (f32 90 0)) then f32 1 0
  else f32 0 0.

(** The scene manager [scene] and its null-shader twin with nothing yet
    asked of the texture units and the meshes. *)
Definition stage : SceneManager.Scene :=
  {| SceneManager.manager := scene;
     SceneManager.units := [];
     SceneManager.meshes := [] |}.

Definition unlit_stage : SceneManager.Scene :=
  {| SceneManager.manager := unlit_scene;
     SceneManager.units := [];
     SceneManager.meshes := [] |}.

(** A view kernel for running the model.  The camera moves by its speed
    times the elapsed time along its front and up vectors, and along the
    X axis in place of its right vector, which is not among the members
    modelled; the view matrix is that of a camera that looks along -Z;
    [ortho] is GLM's matrix and [perspective] GLM's with the tangent of
    half the field of view replaced by its argument. *)
Definition advance (c : Camera) (direction : vec3 float) (distance : float) : Camera :=
  {| Position :=
       mk_vec3 (fadd (vx (Position c)) (fmul (vx direction) distance))
               (fadd (vy (Position c)) (fmul (vy direction) distance))
               (fadd (vz (Position c)) (fmul (vz direction) distance));
     Front := Front c;
     Up := Up c;
     Yaw := Yaw c;
     Pitch := Pitch c;
     MovementSpeed := MovementSpeed c;
     Zoom := Zoom c |}.

Definition fdiv : float -> float -> float := SFdiv 24 128.

Definition view_kernel : ViewFrame.ViewKernel :=
  {| ViewFrame.ProcessKeyboard := fun direction deltaTime c =>
       let velocity := fmul (MovementSpeed c) deltaTime in
       match direction with
       | ViewFrame.FORWARD => advance c (Front c) velocity
       | ViewFrame.BACKWARD => advance c (Front c) (SFopp velocity)
       | ViewFrame.LEFT =>
           advance c (mk_vec3 (f32 1 0) (f32 0 0) (f32 0 0)) (SFopp velocity)
       | ViewFrame.RIGHT =>
           advance c (mk_vec3 (f32 1 0) (f32 0 0) (f32 0 0)) velocity
       | ViewFrame.UP => advance c (Up c) velocity
       | ViewFrame.DOWN => advance c (Up c) (SFopp velocity)
       end;
     ViewFrame.GetViewMatrix := fun c =>
       translation (mk_vec3 (SFopp (vx (Position c))) (SFopp (vy (Position c)))
                            (SFopp (vz (Position c))));
     ViewFrame.ortho := fun left right bottom top zNear zFar =>
       mul (translation
              (mk_vec3 (SFopp (fdiv (fadd right left) (fsub right left)))
                       (SFopp (fdiv (fadd top bottom) (fsub top bottom)))
                       (SFopp (fdiv (fadd zFar zNear) (fsub zFar zNear)))))
           (diagonal (fdiv (f32 2 0) (fsub right left))
                     (fdiv (f32 2 0) (fsub top bottom))
                     (SFopp (fdiv (f32 2 0) (fsub zFar zNear))));
     ViewFrame.perspective := fun fovy aspect zNear zFar =>
       let half := fdiv fovy (f32 2 0) in
       mk_vec4
         (mk_vec4 (fdiv (f32 1 0) (fmul aspect half)) (f32 0 0) (f32 0 0) (f32 0 0))
         (mk_vec4 (f32 0 0) (fdiv (f32 1 0) half) (f32 0 0) (f32 0 0))
         (mk_vec4 (f32 0 0) (f32 0 0)
                  (SFopp (fdiv (fadd zFar zNear) (fsub zFar zNear)))
                  (SFopp (f32 1 0)))
         (mk_vec4 (f32 0 0) (f32 0 0)
                  (SFopp (fdiv (fmul (f32 2 0) (fmul zFar zNear)) (fsub zFar zNear)))
                  (f32 0 0)) |}.

(** The view manager after its construction, with an idle shader manager,
    before the first frame. *)
Definition view : ViewFrame.View :=
  {| ViewFrame.globals := started;
     ViewFrame.gDeltaTime := f32 0 0;
     ViewFrame.gLastFrame := f32 0 0;
     ViewFrame.pKeyWasPressed := false;
     ViewFrame.oKeyWasPressed := false;
     ViewFrame.m_pShaderManager := Some [];
     ViewFrame.window_should_close := false |}.

(** The keyboard with the O key down and every other key up. *)
Definition o_key (key : ViewFrame.Key) : bool :=
  match key with
  | ViewFrame.GLFW_KEY_O => true
  | _ => false
  end.

End Sample.

(* ================================================================== *)
(** * Part II: properties                                              *)
(* ================================================================== *)

(** ** Facts about the IEEE operations *)

Section FloatFacts.

Variables prec emax : Z.

Lemma shr_1_nonneg (mrs : shr_record) :
  0 <= shr_m mrs -> 0 <= shr_m (shr_1 mrs).
Proof.
  destruct mrs as [m r s]; simpl.
  destruct m as [|p|p]; simpl; intros H; try lia.
  - destruct p; simpl; lia.
Qed.

Lemma iter_shr_1_nonneg (p : positive) :
  forall mrs, 0 <= shr_m mrs -> 0 <= shr_m (SpecFloat.iter_pos shr_1 p mrs).
Proof.
  induction p as [p IH|p IH|]; simpl; intros mrs H.
  - apply IH, IH, shr_1_nonneg, H.
  - apply IH, IH, H.
  - apply shr_1_nonneg, H.
Qed.

Lemma shr_nonneg (mrs : shr_record) (e n : Z) :
  0 <= shr_m mrs -> 0 <= shr_m (fst (shr mrs e n)).
Proof.
  intros H. destruct n; simpl; auto using iter_shr_1_nonneg.
Qed.

Lemma shr_fexp_nonneg (m e : Z) (l : location) :
  0 <= m -> 0 <= shr_m (fst (shr_fexp prec emax m e l)).
Proof.
  intros H. unfold shr_fexp. apply shr_nonneg.
  destruct l as [|[ | | ]]; simpl; exact H.
Qed.

Lemma round_nearest_even_nonneg (m : Z) (l : location) :
  0 <= m -> 0 <= round_nearest_even m l.
Proof.
  intros H. destruct l as [|[ | | ]]; simpl; try lia.
  destruct (Z.even m); lia.
Qed.

(** Rounding a non-negative mantissa never yields a NaN. *)
Lemma binary_round_aux_not_nan (sx : bool) (mx ex : Z) (lx : location) :
  0 <= mx -> is_nan (binary_round_aux prec emax sx mx ex lx) = false.
Proof.
  intros H. unfold binary_round_aux.
  pose proof (shr_fexp_nonneg mx ex lx H) as H1.
  destruct (shr_fexp prec emax mx ex lx) as [mrs' e']. simpl in H1.
  pose proof (shr_fexp_nonneg _ e' loc_Exact
                (round_nearest_even_nonneg _ (loc_of_shr_record mrs') H1)) as H2.
  destruct (shr_fexp prec emax _ e' loc_Exact) as [mrs'' e'']. simpl in H2.
  destruct (shr_m mrs'') as [|m|m]; try reflexivity.
  - destruct (e'' <=? emax - prec); reflexivity.
  - lia.
Qed.

Lemma binary_round_not_nan (sx : bool) (mx : positive) (ex : Z) :
  is_nan (binary_round prec emax sx mx ex) = false.
Proof.
  unfold binary_round.
  destruct (shl_align mx ex _) as [mz ez].
  apply binary_round_aux_not_nan. lia.
Qed.

Lemma binary_normalize_not_nan (m e : Z) (szero : bool) :
  is_nan (binary_normalize prec emax m e szero) = false.
Proof.
  destruct m; simpl; auto using binary_round_not_nan.
Qed.

(** A product is a NaN only for a NaN factor or zero times infinity. *)
Lemma SFmul_finite_not_nan (x : spec_float) (s : bool) (m : positive) (e : Z) :
  is_nan x = false -> is_nan (SFmul prec emax x (S754_finite s m e)) = false.
Proof.
  destruct x; simpl; intros H; try reflexivity; try discriminate.
  apply binary_round_aux_not_nan. lia.
Qed.

(** A finite number plus anything but a NaN is not a NaN. *)
Lemma SFadd_finite_not_nan (s : bool) (m : positive) (e : Z) (y : spec_float) :
  is_nan y = false -> is_nan (SFadd prec emax (S754_finite s m e) y) = false.
Proof.
  destruct y; simpl; intros H; try reflexivity; try discriminate.
  apply binary_normalize_not_nan.
Qed.

(** A zero or finite number minus itself is [+0]. *)
Lemma SFsub_diag (x : spec_float) :
  is_finite x = true -> SFsub prec emax x x = S754_zero false.
Proof.
  destruct x as [[|]|[|]| |s m e]; simpl; intros H; try reflexivity; try discriminate.
  rewrite Z.sub_diag. reflexivity.
Qed.

End FloatFacts.

Lemma SFcompare_antisym (x y : spec_float) (c : comparison) :
  SFcompare x y = Some c -> SFcompare y x = Some (CompOpp c).
Proof.
  destruct x as [sx|sx| |sx mx ex], y as [sy|sy| |sy my ey]; simpl;
    try discriminate;
    try (destruct sx; intros H; injection H as <-; reflexivity);
    try (destruct sy; intros H; injection H as <-; reflexivity);
    try (intros H; injection H as <-; reflexivity).
  - destruct sx, sy; intros H; injection H as <-; reflexivity.
  - intros H; injection H as <-. f_equal.
    rewrite (Z.compare_antisym ex ey).
    pose proof (Pos.compare_cont_antisym mx my Eq) as Hm. simpl in Hm.
    change (PosDef.Pos.compare_cont Eq my mx) with (Pos.compare_cont Eq my mx).
    rewrite <- Hm.
    destruct sx, sy; simpl; try reflexivity;
      destruct (ex ?= ey); simpl; reflexivity.
Qed.

(** When [x < y] is false and [x] compares with [y] at all, [y <= x]. *)
Lemma SFltb_false_SFleb (x y : spec_float) :
  is_nan x = false -> is_nan y = false -> SFltb x y = false -> SFleb y x = true.
Proof.
  intros Hx Hy. unfold SFltb, SFleb.
  destruct (SFcompare x y) as [c|] eqn:E.
  - rewrite (SFcompare_antisym _ _ _ E). destruct c; simpl; congruence.
  - destruct x, y; simpl in *; discriminate.
Qed.

Lemma to_float_not_nan (d : double) : is_nan d = false -> is_nan (to_float d) = false.
Proof.
  destruct d; simpl; intros H; try reflexivity; try discriminate.
  apply binary_round_not_nan.
Qed.

(** ** The scroll callback *)

Section Scroll.

Import ViewManager.

Lemma within_speed_limits_finite (speed : float) :
  within_speed_limits speed -> exists s m e, speed = S754_finite s m e.
Proof.
  intros [Hlo Hhi].
  destruct speed as [s|s| |s m e]; try discriminate.
  - destruct s; discriminate.
  - eauto.
Qed.

(** One scroll event keeps the speed within the limits, whatever the
    delta, as long as the delta is a number. *)
Lemma scrolled_speed_within_limits (speed : float) (yOffset : double) :
  within_speed_limits speed -> is_nan yOffset = false ->
  within_speed_limits (scrolled_speed speed yOffset).
Proof.
  intros Hs Hy.
  destruct (within_speed_limits_finite _ Hs) as (s & m & e & ->).
  unfold scrolled_speed.
  set (speed1 := fadd _ _).
  assert (Hn : is_nan speed1 = false).
  { apply SFadd_finite_not_nan.
    change (f32 1 (-1)) with (S754_finite false 8388608 (-24)).
    apply SFmul_finite_not_nan, to_float_not_nan, Hy. }
  destruct (flt speed1 MIN_CAMERA_SPEED) eqn:Hlo.
  - split; reflexivity.
  - destruct (flt MAX_CAMERA_SPEED speed1) eqn:Hhi.
    + split; reflexivity.
    + split.
      * apply SFltb_false_SFleb; auto.
      * apply SFltb_false_SFleb; auto.
Qed.

(** C7.  Starting from the initial camera speed [2.5], after every event
    of a sequence of scroll events whose deltas are numbers (of any
    size and sign, the infinities included) the speed lies between
    [0.5] and [10.0], and the camera, when there is one, moves at that
    speed; each event adds half its delta and then clamps. *)
Theorem scroll_speed_stays_within_limits :
  forall (st : State) (events : list (double * double)),
    gCameraSpeed st = f32 5 (-1) ->
    Forall (fun ev => is_nan (snd ev) = false) events ->
    Forall (fun st' =>
              within_speed_limits (gCameraSpeed st') /\
              (forall c, g_pCamera st' = Some c ->
                         MovementSpeed c = gCameraSpeed st'))
           (scroll_run st events)
    /\ (forall st0 xOffset yOffset,
          gCameraSpeed (Mouse_Scroll_Callback st0 xOffset yOffset) =
          let speed1 := fadd (gCameraSpeed st0) (fmul (to_float yOffset) (f32 1 (-1))) in
          if flt speed1 (f32 1 (-1)) then f32 1 (-1)
          else if flt (f32 10 0) speed1 then f32 10 0
          else speed1).
Proof.
  intros st events Hst Hev. split; [|reflexivity].
  assert (Hin : within_speed_limits (gCameraSpeed st))
    by (rewrite Hst; split; reflexivity).
  clear Hst. revert st Hin.
  induction Hev as [|[dx dy] rest Hdy _ IH]; intros st Hin; simpl.
  - constructor.
  - simpl in Hdy.
    pose proof (scrolled_speed_within_limits _ _ Hin Hdy) as Hin'.
    constructor.
    + split; [exact Hin'|].
      simpl. destruct (g_pCamera st) as [c0|]; intros c Hc; [|discriminate].
      injection Hc as <-. reflexivity.
    + apply IH. exact Hin'.
Qed.

Lemma scroll_speed_stays_within_limits_witness :
  Forall (fun st' =>
            within_speed_limits (gCameraSpeed st') /\
            (forall c, g_pCamera st' = Some c ->
                       MovementSpeed c = gCameraSpeed st'))
         (scroll_run Sample.started
            [(f64 0 0, f64 1000 0);
             (f64 0 0, S754_infinity true);
             (f64 0 0, f64 3 0)]).
Proof.
  refine (proj1 (scroll_speed_stays_within_limits Sample.started
                   [(f64 0 0, f64 1000 0);
                    (f64 0 0, S754_infinity true);
                    (f64 0 0, f64 3 0)] _ _)).
  - reflexivity.
  - repeat constructor.
Defined.

End Scroll.

(** A delta that is not a number is not brought back to the limits: both
    comparisons are false for a NaN. *)
Remark scrolled_speed_nan :
  ViewManager.scrolled_speed (f32 5 (-1)) S754_nan = S754_nan.
Proof. reflexivity. Qed.

(** ** The projection toggle *)

Section Toggle.

Import ViewManager.

Variable K : CameraKernel.

(** The orientation update leaves position, zoom and speed alone. *)
Lemma ProcessMouseMovement_keeps (c : Camera) (xo yo : float) :
  Position (ProcessMouseMovement K c xo yo) = Position c /\
  MovementSpeed (ProcessMouseMovement K c xo yo) = MovementSpeed c /\
  Zoom (ProcessMouseMovement K c xo yo) = Zoom c.
Proof.
  unfold ProcessMouseMovement.
  destruct (orient K _ _ _ _) as [yaw' pitch'].
  destruct (basis K _ _) as [front' up'].
  repeat split.
Qed.

(** What the orientation update makes of yaw, pitch, front and up. *)
Lemma ProcessMouseMovement_orientation (c : Camera) (xo yo : float) :
  let c' := ProcessMouseMovement K c xo yo in
  (Yaw c', Pitch c') = orient K (Yaw c) (Pitch c) xo yo /\
  (Front c', Up c') = basis K (Yaw c') (Pitch c').
Proof.
  unfold ProcessMouseMovement.
  destruct (orient K _ _ _ _) as [yaw' pitch']. simpl.
  destruct (basis K yaw' pitch') as [front' up'] eqn:E. simpl.
  rewrite E. split; reflexivity.
Qed.

(** A pose that the zero-offset update reproduces. *)
Lemma ProcessMouseMovement_fixed (c : Camera) :
  orient K (Yaw c) (Pitch c) fzero fzero = (Yaw c, Pitch c) ->
  basis K (Yaw c) (Pitch c) = (Front c, Up c) ->
  ProcessMouseMovement K c fzero fzero = c.
Proof.
  intros Ho Hb. unfold ProcessMouseMovement. rewrite Ho, Hb.
  destruct c; reflexivity.
Qed.

(** C8.  Calling [SwitchToOrthographic] a second time changes nothing:
    two calls in a row end in the same state (camera pose and mode
    included) as one call, from every state. *)
Theorem SwitchToOrthographic_twice :
  forall st : State,
    SwitchToOrthographic K st >>= SwitchToOrthographic K =
    SwitchToOrthographic K st.
Proof.
  intros st. unfold SwitchToOrthographic at 1 3.
  destruct (bOrthographicProjection st) eqn:Hb,
           (cameraStatesInitialized st) eqn:Hi; simpl.
  - unfold SwitchToOrthographic. rewrite Hb. reflexivity.
  - unfold SwitchToOrthographic. rewrite Hb. reflexivity.
  - destruct (g_pCamera st) as [c|]; simpl; reflexivity.
  - unfold SwitchToOrthographic. rewrite Hb, Hi. reflexivity.
Qed.

(** C3 (amended).  A projection toggle that takes effect saves five
    members of the camera (position, front, up, yaw, pitch) in the five
    variables of the outgoing mode, leaves the variables of the incoming
    mode as they are, and makes the camera the result of the zero-offset
    orientation update of the camera with those five members loaded from
    the incoming mode.  Zoom and movement speed are in neither group of
    variables: the camera keeps the ones it had. *)
Theorem toggle_swaps_five_members :
  forall (st : State) (c : Camera),
    cameraStatesInitialized st = true ->
    g_pCamera st = Some c ->
    (bOrthographicProjection st = false ->
     exists st',
       SwitchToOrthographic K st = Returns st' /\
       perspective_slot st' = pose c /\
       orthographic_slot st' = orthographic_slot st /\
       g_pCamera st' =
         Some (ProcessMouseMovement K (with_pose (orthographic_slot st) c) fzero fzero) /\
       bOrthographicProjection st' = true /\
       gCameraSpeed st' = gCameraSpeed st)
    /\
    (bOrthographicProjection st = true ->
     exists st',
       SwitchToPerspective K st = Returns st' /\
       orthographic_slot st' = pose c /\
       perspective_slot st' = perspective_slot st /\
       g_pCamera st' =
         Some (ProcessMouseMovement K (with_pose (perspective_slot st) c) fzero fzero) /\
       bOrthographicProjection st' = false /\
       gCameraSpeed st' = gCameraSpeed st)
    /\
    (forall p,
       let c' := ProcessMouseMovement K (with_pose p c) fzero fzero in
       Zoom c' = Zoom c /\ MovementSpeed c' = MovementSpeed c /\
       Position c' = fst (fst (fst (fst p)))).
Proof.
  intros st c Hi Hc. repeat split.
  - intros Hb. unfold SwitchToOrthographic. rewrite Hb, Hi, Hc. simpl.
    eexists. repeat split.
  - intros Hb. unfold SwitchToPerspective. rewrite Hb, Hi, Hc. simpl.
    eexists. repeat split.
  - destruct p as [[[[position front] up] yaw] pitch].
    apply (ProcessMouseMovement_keeps
             (with_pose (position, front, up, yaw, pitch) c) fzero fzero).
  - destruct p as [[[[position front] up] yaw] pitch].
    apply (ProcessMouseMovement_keeps
             (with_pose (position, front, up, yaw, pitch) c) fzero fzero).
  - destruct p as [[[[position front] up] yaw] pitch].
    apply (ProcessMouseMovement_keeps
             (with_pose (position, front, up, yaw, pitch) c) fzero fzero).
Qed.

(** C2 (amended).  From the perspective mode, with a pose whose yaw and
    pitch the zero-offset orientation update leaves as they are (the
    update recomputes the basis from the yaw and pitch it is given),
    switching to orthographic and back restores position, yaw and pitch
    exactly, keeps zoom and speed, and ends in the perspective mode;
    front and up come back as the basis vectors of that yaw and pitch.
    So each of the two vectors is restored exactly when it was that
    basis vector before, the whole pose exactly when both were, and a
    pose that an orientation update has produced is restored whole. *)
Theorem perspective_round_trip :
  forall (st : State) (c : Camera),
    bOrthographicProjection st = false ->
    cameraStatesInitialized st = true ->
    g_pCamera st = Some c ->
    orient K (Yaw c) (Pitch c) fzero fzero = (Yaw c, Pitch c) ->
    exists st' c',
      SwitchToOrthographic K st >>= SwitchToPerspective K = Returns st' /\
      g_pCamera st' = Some c' /\
      bOrthographicProjection st' = false /\
      Position c' = Position c /\
      Yaw c' = Yaw c /\
      Pitch c' = Pitch c /\
      Zoom c' = Zoom c /\
      MovementSpeed c' = MovementSpeed c /\
      Front c' = fst (basis K (Yaw c) (Pitch c)) /\
      Up c' = snd (basis K (Yaw c) (Pitch c)) /\
      (Front c' = Front c <-> fst (basis K (Yaw c) (Pitch c)) = Front c) /\
      (Up c' = Up c <-> snd (basis K (Yaw c) (Pitch c)) = Up c) /\
      (pose c' = pose c <-> basis K (Yaw c) (Pitch c) = (Front c, Up c)) /\
      (forall c0 xoffset yoffset,
         c = ProcessMouseMovement K c0 xoffset yoffset -> pose c' = pose c).
Proof.
  intros st c Hb Hi Hc Ho.
  unfold SwitchToOrthographic. rewrite Hb, Hi, Hc. simpl.
  unfold SwitchToPerspective. simpl.
  set (mid := ProcessMouseMovement K
                {| Position := orthographicPosition st;
                   Front := orthographicFront st;
                   Up := orthographicUp st;
                   Yaw := orthographicYaw st;
                   Pitch := orthographicPitch st;
                   MovementSpeed := MovementSpeed c;
                   Zoom := Zoom c |} fzero fzero).
  set (loaded := {| Position := Position c; Front := Front c; Up := Up c;
                    Yaw := Yaw c; Pitch := Pitch c;
                    MovementSpeed := MovementSpeed mid; Zoom := Zoom mid |}).
  assert (Hmid : Zoom mid = Zoom c /\ MovementSpeed mid = MovementSpeed c).
  { destruct (ProcessMouseMovement_keeps
                {| Position := orthographicPosition st;
                   Front := orthographicFront st;
                   Up := orthographicUp st;
                   Yaw := orthographicYaw st;
                   Pitch := orthographicPitch st;
                   MovementSpeed := MovementSpeed c;
                   Zoom := Zoom c |} fzero fzero) as (_ & Hspeed & Hzoom).
    split; [exact Hzoom|exact Hspeed]. }
  destruct Hmid as [Hzoom Hspeed].
  assert (E : ProcessMouseMovement K loaded fzero fzero =
              {| Position := Position c;
                 Front := fst (basis K (Yaw c) (Pitch c));
                 Up := snd (basis K (Yaw c) (Pitch c));
                 Yaw := Yaw c; Pitch := Pitch c;
                 MovementSpeed := MovementSpeed c; Zoom := Zoom c |}).
  { unfold ProcessMouseMovement, loaded. cbn [Yaw Pitch Position MovementSpeed Zoom].
    rewrite Ho. destruct (basis K (Yaw c) (Pitch c)) as [front' up'].
    cbn [fst snd]. rewrite Hzoom, Hspeed. reflexivity. }
  do 2 eexists. split; [reflexivity|]. simpl.
  split; [reflexivity|]. split; [reflexivity|].
  fold mid. fold loaded. rewrite E. cbn [Position Yaw Pitch Zoom MovementSpeed Front Up].
  assert (Hpose : (Position c, fst (basis K (Yaw c) (Pitch c)),
                   snd (basis K (Yaw c) (Pitch c)), Yaw c, Pitch c) = pose c <->
                  basis K (Yaw c) (Pitch c) = (Front c, Up c)).
  { unfold pose. destruct (basis K (Yaw c) (Pitch c)) as [front' up'].
    cbn [fst snd]. split.
    - intros H. injection H as -> ->. reflexivity.
    - intros H. injection H as -> ->. reflexivity. }
  repeat split; try (intros H; exact H).
  - apply Hpose.
  - apply Hpose.
  - intros c0 xoffset yoffset Hc0. unfold pose at 1.
    cbn [Position Yaw Pitch Front Up]. apply Hpose.
    destruct (ProcessMouseMovement_orientation c0 xoffset yoffset) as [_ Hf].
    cbv zeta in Hf. rewrite <- Hc0 in Hf. symmetry. exact Hf.
Qed.

(** Whatever the camera kernel, a speed set by the scroll wheel in the
    orthographic mode is still the camera's speed after the switch back
    to perspective. *)
Lemma speed_survives_toggle (st : State) (c : Camera) (xOffset yOffset : double) :
  bOrthographicProjection st = true ->
  cameraStatesInitialized st = true ->
  g_pCamera st = Some c ->
  exists st' c',
    SwitchToPerspective K (Mouse_Scroll_Callback st xOffset yOffset) = Returns st' /\
    g_pCamera st' = Some c' /\
    MovementSpeed c' = scrolled_speed (gCameraSpeed st) yOffset.
Proof.
  intros Hb Hi Hc. unfold SwitchToPerspective. simpl.
  rewrite Hb, Hi, Hc. simpl.
  do 2 eexists. split; [reflexivity|]. split; [reflexivity|].
  match goal with
  | |- MovementSpeed (ProcessMouseMovement K ?l _ _) = _ =>
      apply (ProcessMouseMovement_keeps l)
  end.
Qed.

End Toggle.

Lemma toggle_swaps_five_members_witness :
  exists st',
    ViewManager.SwitchToOrthographic Sample.kernel Sample.started = Returns st' /\
    ViewManager.perspective_slot st' =
      (mk_vec3 (f32 0 0) (f32 5 0) (f32 12 0),
       mk_vec3 (f32 0 0) (SFopp (f32 1 (-1))) (SFopp (f32 2 0)),
       mk_vec3 (f32 0 0) (f32 1 0) (f32 0 0),
       SFopp (f32 90 0), f32 0 0) /\
    ViewManager.bOrthographicProjection st' = true.
Proof.
  destruct (toggle_swaps_five_members Sample.kernel Sample.started _
              eq_refl eq_refl) as [H _].
  destruct (H eq_refl) as (st' & H1 & H2 & _ & _ & H5 & _).
  exists st'. split; [exact H1|]. split; [exact H2|exact H5].
Defined.

Lemma perspective_round_trip_witness :
  exists st' c' c,
    ViewManager.g_pCamera Sample.looked = Some c /\
    ViewManager.SwitchToOrthographic Sample.kernel Sample.looked
      >>= ViewManager.SwitchToPerspective Sample.kernel = Returns st' /\
    ViewManager.g_pCamera st' = Some c' /\
    pose c' = pose c.
Proof.
  destruct (perspective_round_trip Sample.kernel Sample.looked _
              eq_refl eq_refl eq_refl eq_refl)
    as (st' & c' & H1 & H2 & _ & _ & _ & _ & _ & _ & _ & _ & _ & _ & H13 & _).
  exists st', c'. eexists.
  split; [reflexivity|]. split; [exact H1|]. split; [exact H2|].
  apply H13. reflexivity.
Defined.

(** C2, as stated, fails at the pose the constructor sets up.  The
    constructor writes the front vector (0, -0.5, -2) by hand, and yaw
    and pitch are those of the new camera.  After the switch to
    orthographic and back, position, up, yaw and pitch are what they
    were, and the front vector is the one the orientation update
    recomputes from yaw and pitch, which is not the hand-written one. *)
Lemma initial_pose_not_restored :
  exists st' c c',
    ViewManager.g_pCamera Sample.started = Some c /\
    ViewManager.bOrthographicProjection Sample.started = false /\
    ViewManager.SwitchToOrthographic Sample.kernel Sample.started
      >>= ViewManager.SwitchToPerspective Sample.kernel = Returns st' /\
    ViewManager.g_pCamera st' = Some c' /\
    Front c = mk_vec3 (f32 0 0) (SFopp (f32 1 (-1))) (SFopp (f32 2 0)) /\
    Position c' = Position c /\
    Up c' = Up c /\
    Yaw c' = Yaw c /\
    Pitch c' = Pitch c /\
    Front c' <> Front c /\
    pose c' <> pose c.
Proof.
  do 3 eexists.
  split; [reflexivity|]. split; [reflexivity|].
  split; [reflexivity|]. split; [reflexivity|].
  split; [reflexivity|]. split; [reflexivity|].
  split; [reflexivity|]. split; [reflexivity|].
  split; [reflexivity|].
  split; vm_compute; discriminate.
Qed.

(** C3, as stated, fails for the movement speed.  The speed is 2.5 when the
    perspective pose is saved by the switch to orthographic; one scroll
    step in the orthographic mode makes it 3.0; the switch back to
    perspective loads the saved pose and the speed is still 3.0. *)
Lemma speed_not_restored_by_toggle :
  exists st1 st3 c c3,
    ViewManager.g_pCamera Sample.started = Some c /\
    ViewManager.SwitchToOrthographic Sample.kernel Sample.started = Returns st1 /\
    ViewManager.SwitchToPerspective Sample.kernel
      (ViewManager.Mouse_Scroll_Callback st1 (f64 0 0) (f64 1 0)) = Returns st3 /\
    ViewManager.g_pCamera st3 = Some c3 /\
    MovementSpeed c = f32 5 (-1) /\
    MovementSpeed c3 = f32 3 0 /\
    MovementSpeed c3 <> MovementSpeed c.
Proof.
  do 4 eexists.
  split; [reflexivity|]. split; [reflexivity|].
  split; [reflexivity|]. split; [reflexivity|].
  split; [reflexivity|]. split; [reflexivity|].
  vm_compute. discriminate.
Qed.

(** The sample kernel reproduces the orthographic pose the constructor
    stores: front (0,-1,0) and up (0,0,-1) at yaw -90 and pitch -89. *)
Remark sample_kernel_reproduces_orthographic_slot :
  ProcessMouseMovement Sample.kernel
    (with_pose (ViewManager.orthographic_slot Sample.started) Sample.camera)
    ViewManager.fzero ViewManager.fzero =
  with_pose (ViewManager.orthographic_slot Sample.started) Sample.camera.
Proof. vm_compute. reflexivity. Qed.

(** ** The cursor callback *)

Section Cursor.

Import ViewManager.

Variable K : CameraKernel.

Lemma representable_residue (d : double) :
  float_representable d -> to_float (dsub d (to_double (to_float d))) = fzero.
Proof.
  intros [Hfin Hrt]. rewrite Hrt. unfold dsub.
  rewrite SFsub_diag by exact Hfin. reflexivity.
Qed.

Lemma representable_residue_opp (d : double) :
  float_representable d -> to_float (dsub (to_double (to_float d)) d) = fzero.
Proof.
  intros [Hfin Hrt]. rewrite Hrt. unfold dsub.
  rewrite SFsub_diag by exact Hfin. reflexivity.
Qed.

(** C9 (amended).  On the first cursor report the callback records the
    reported position rounded to [float] and hands the camera the
    difference between the report and that rounded position, each
    difference computed in [double] and rounded to [float]: the rounding
    residue of the conversion, which is a zero delta for every coordinate
    that [float] represents exactly.  On later reports it hands over the
    report minus the recorded position horizontally and the recorded
    position minus the report vertically. *)
Theorem first_cursor_report_is_still :
  forall (st : State) (x y : double),
    gFirstMouse st = true ->
    let xResidue := to_float (dsub x (to_double (to_float x))) in
    let yResidue := to_float (dsub (to_double (to_float y)) y) in
    (snd (Mouse_Position_Offsets st x y) = (xResidue, yResidue) /\
     (forall c, g_pCamera st = Some c ->
        g_pCamera (Mouse_Position_Callback K st x y) =
        Some (ProcessMouseMovement K c xResidue yResidue)) /\
     (g_pCamera st = None ->
        g_pCamera (Mouse_Position_Callback K st x y) = None) /\
     gLastX (Mouse_Position_Callback K st x y) = to_float x /\
     gLastY (Mouse_Position_Callback K st x y) = to_float y /\
     gFirstMouse (Mouse_Position_Callback K st x y) = false)
    /\
    (float_representable x -> xResidue = fzero) /\
    (float_representable y -> yResidue = fzero) /\
    (float_representable x -> float_representable y ->
     snd (Mouse_Position_Offsets st x y) = (fzero, fzero) /\
     forall c, g_pCamera st = Some c ->
       g_pCamera (Mouse_Position_Callback K st x y) =
       Some (ProcessMouseMovement K c fzero fzero))
    /\
    (forall (st2 : State) (x2 y2 : double),
       gFirstMouse st2 = false ->
       let xOffset := to_float (dsub x2 (to_double (gLastX st2))) in
       let yOffset := to_float (dsub (to_double (gLastY st2)) y2) in
       snd (Mouse_Position_Offsets st2 x2 y2) = (xOffset, yOffset) /\
       (forall c, g_pCamera st2 = Some c ->
          g_pCamera (Mouse_Position_Callback K st2 x2 y2) =
          Some (ProcessMouseMovement K c xOffset yOffset)) /\
       gLastX (Mouse_Position_Callback K st2 x2 y2) = to_float x2 /\
       gLastY (Mouse_Position_Callback K st2 x2 y2) = to_float y2 /\
       gFirstMouse (Mouse_Position_Callback K st2 x2 y2) = false).
Proof.
  intros st x y Hf xResidue yResidue.
  assert (Hfirst :
    snd (Mouse_Position_Offsets st x y) = (xResidue, yResidue) /\
    (forall c, g_pCamera st = Some c ->
       g_pCamera (Mouse_Position_Callback K st x y) =
       Some (ProcessMouseMovement K c xResidue yResidue))).
  { unfold Mouse_Position_Callback, Mouse_Position_Offsets.
    rewrite Hf. simpl. split; [reflexivity|]. intros c ->. reflexivity. }
  split; [|split; [|split; [|split]]].
  - destruct Hfirst as [H1 H2]. split; [exact H1|]. split; [exact H2|].
    unfold Mouse_Position_Callback, Mouse_Position_Offsets.
    rewrite Hf. simpl. split; [intros ->; reflexivity|].
    destruct (g_pCamera st); repeat split.
  - apply representable_residue.
  - apply representable_residue_opp.
  - intros Hx Hy. destruct Hfirst as [H1 H2].
    unfold xResidue, yResidue in H1, H2.
    rewrite (representable_residue x Hx), (representable_residue_opp y Hy)
      in H1, H2.
    split; [exact H1|exact H2].
  - intros st2 x2 y2 Hf2 xOffset yOffset.
    unfold Mouse_Position_Callback, Mouse_Position_Offsets.
    rewrite Hf2. simpl. split; [reflexivity|].
    split; [intros c ->; reflexivity|].
    destruct (g_pCamera st2); repeat split; exact Hf2.
Qed.

End Cursor.

Lemma first_cursor_report_is_still_witness :
  snd (ViewManager.Mouse_Position_Offsets Sample.started (f64 512 0) (f64 384 0))
  = (ViewManager.fzero, ViewManager.fzero).
Proof.
  destruct (first_cursor_report_is_still Sample.kernel Sample.started
              (f64 512 0) (f64 384 0) eq_refl) as (_ & _ & _ & H & _).
  apply H; split; reflexivity.
Defined.

(** C9, as stated, fails for a coordinate that [float] does not represent.
    For a first report at x = 0.1 the recorded position is the [float]
    nearest to 0.1 and the horizontal delta handed to the camera is their
    difference, -13421773 * 2^-53 (about -1.49e-9), not zero. *)
Lemma first_cursor_report_residue :
  ViewManager.gFirstMouse Sample.started = true /\
  snd (ViewManager.Mouse_Position_Offsets Sample.started Sample.tenth (f64 0 0))
  = (S754_finite true 13421773 (-53), ViewManager.fzero) /\
  snd (ViewManager.Mouse_Position_Offsets Sample.started Sample.tenth (f64 0 0))
  <> (ViewManager.fzero, ViewManager.fzero).
Proof.
  split; [reflexivity|]. split; [reflexivity|].
  vm_compute. discriminate.
Qed.

(** ** The catalogs *)

Section Catalogs.

Import SceneManager.

Variable F : Type.

Lemma FindTextureSlot_loop_spec (textures : Z -> TEXTURE_INFO) (tag : string)
    (remaining : nat) :
  forall index : Z,
    0 <= index ->
    let r := FindTextureSlot_loop textures tag remaining index in
    (index <= r < index + Z.of_nat remaining /\
     texture_tag (textures r) = tag /\
     (forall j, index <= j < r -> texture_tag (textures j) <> tag))
    \/
    (r = -1 /\
     (forall j, index <= j < index + Z.of_nat remaining ->
                texture_tag (textures j) <> tag)).
Proof.
  induction remaining as [|n IH]; intros index Hi; cbn [FindTextureSlot_loop].
  - right. split; [reflexivity|]. intros j Hj. lia.
  - destruct (String.eqb_spec (texture_tag (textures index)) tag) as [E|E].
    + left. split; [lia|]. split; [exact E|]. intros j Hj. lia.
    + destruct (IH (index + 1)) as [(Hr & Ht & Hb)|(Hr & Hb)]; [lia| |].
      * left. split; [lia|]. split; [exact Ht|].
        intros j Hj. destruct (Z.eq_dec j index) as [->|Hne]; [exact E|].
        apply Hb. lia.
      * right. split; [exact Hr|].
        intros j Hj. destruct (Z.eq_dec j index) as [->|Hne]; [exact E|].
        apply Hb. lia.
Qed.

(** X1.  For every tag and every catalog, the texture lookup returns the
    position of the first entry with the tag among the [m_loadedTextures]
    entries, and [-1] when there is none. *)
Lemma FindTextureSlot_first_match (tag : string) (st : State F) :
  let r := FindTextureSlot tag st in
  (0 <= r < m_loadedTextures st /\
   texture_tag (m_textureIDs st r) = tag /\
   (forall j, 0 <= j < r -> texture_tag (m_textureIDs st j) <> tag))
  \/
  (r = -1 /\
   (forall j, 0 <= j < m_loadedTextures st ->
              texture_tag (m_textureIDs st j) <> tag)).
Proof.
  unfold FindTextureSlot.
  pose proof (FindTextureSlot_loop_spec (m_textureIDs st) tag
                (Z.to_nat (m_loadedTextures st)) 0 (Z.le_refl 0)) as H.
  cbv zeta in H |- *.
  destruct H as [(Hr & Ht & Hb)|(Hr & Hb)].
  - left. split; [lia|]. split; [exact Ht|exact Hb].
  - right. split; [exact Hr|]. intros j Hj. apply Hb. lia.
Qed.

Lemma FindMaterial_loop_miss (t : string) (materials : list (OBJECT_MATERIAL F))
    (material : OBJECT_MATERIAL F) :
  (forall m, In m materials -> tag m <> t) ->
  FindMaterial_loop t materials material = (false, material).
Proof.
  induction materials as [|m rest IH]; intros H; simpl.
  - reflexivity.
  - destruct (String.eqb_spec (tag m) t) as [E|E].
    + exfalso. exact (H m (or_introl eq_refl) E).
    + apply IH. intros m' Hm'. apply H. right. exact Hm'.
Qed.

Lemma FindMaterial_loop_first_match (t : string)
    (before after : list (OBJECT_MATERIAL F)) (m material : OBJECT_MATERIAL F) :
  (forall m', In m' before -> tag m' <> t) ->
  tag m = t ->
  FindMaterial_loop t (before ++ m :: after) material =
  (true, mk_OBJECT_MATERIAL (ambientColor m) (ambientStrength m) (diffuseColor m)
           (specularColor m) (shininess m) (tag material)).
Proof.
  induction before as [|b rest IH]; intros H E; simpl.
  - rewrite E, String.eqb_refl. reflexivity.
  - destruct (String.eqb_spec (tag b) t) as [Eb|Eb].
    + exfalso. exact (H b (or_introl eq_refl) Eb).
    + apply IH; [|exact E]. intros m' Hm'. apply H. right. exact Hm'.
Qed.

(** X2.  When some material has the tag, the material lookup reports
    success and copies the five numeric members of the first such
    material, whether or not later ones share the tag. *)
Lemma FindMaterial_first_match (t : string)
    (before after : list (OBJECT_MATERIAL F)) (m material : OBJECT_MATERIAL F)
    (st : State F) :
  m_objectMaterials st = before ++ m :: after ->
  (forall m', In m' before -> tag m' <> t) ->
  tag m = t ->
  FindMaterial t material st =
  (true, mk_OBJECT_MATERIAL (ambientColor m) (ambientStrength m) (diffuseColor m)
           (specularColor m) (shininess m) (tag material)).
Proof.
  intros Hm H E. unfold FindMaterial. rewrite Hm.
  rewrite (FindMaterial_loop_first_match t before after m material H E).
  destruct before; reflexivity.
Qed.

(** With no material at all the lookup reports a miss. *)
Lemma FindMaterial_empty (t : string) (material : OBJECT_MATERIAL F) (st : State F) :
  m_objectMaterials st = [] -> FindMaterial t material st = (false, material).
Proof.
  intros H. unfold FindMaterial. rewrite H. reflexivity.
Qed.

(** With at least one material the lookup reports success whatever the
    tag; on a miss the reference parameter is left as it was. *)
Lemma FindMaterial_nonempty_miss (t : string) (material : OBJECT_MATERIAL F)
    (st : State F) :
  m_objectMaterials st <> [] ->
  (forall m, In m (m_objectMaterials st) -> tag m <> t) ->
  FindMaterial t material st = (true, material).
Proof.
  intros Hne H. unfold FindMaterial.
  rewrite (FindMaterial_loop_miss t _ material H).
  destruct (m_objectMaterials st); [contradiction|reflexivity].
Qed.

Lemma FindMaterial_nonempty_found (t : string) (material : OBJECT_MATERIAL F)
    (st : State F) :
  m_objectMaterials st <> [] -> fst (FindMaterial t material st) = true.
Proof.
  intros Hne. unfold FindMaterial.
  destruct (m_objectMaterials st) as [|m rest]; [contradiction|].
  cbn [List.length Nat.eqb].
  destruct (FindMaterial_loop t (m :: rest) material). reflexivity.
Qed.

(** On a miss in a catalog that is not empty [SetShaderMaterial] hands the
    shader manager the five members of its local variable. *)
Lemma SetShaderMaterial_miss_uploads (t : string) (material : OBJECT_MATERIAL F)
    (st : State F) (sh : ShaderManager F) :
  m_pShaderManager st = Some sh ->
  m_objectMaterials st <> [] ->
  (forall m, In m (m_objectMaterials st) -> tag m <> t) ->
  SetShaderMaterial material t st =
  Returns (upload st sh (material_uniforms material)).
Proof.
  intros Hs Hne H. unfold SetShaderMaterial.
  rewrite (FindMaterial_nonempty_miss t material st Hne H), Hs.
  destruct (m_objectMaterials st); [contradiction|reflexivity].
Qed.

(** C4.  When the image decodes with 3 or 4 colour channels
    [CreateGLTexture] returns [true], stores the new name and tag at index
    [m_loadedTextures] and raises [m_loadedTextures] by one, leaving the
    other entries alone; when it does not decode, or decodes with another
    channel count, [CreateGLTexture] returns [false] and neither the
    entries nor [m_loadedTextures] change. *)
Theorem CreateGLTexture_catalog :
  forall (image : option Image) (textureID : Z) (t : string) (st : State F),
    let result := CreateGLTexture image textureID t st in
    (forall img,
       image = Some img ->
       colorChannels img = 3 \/ colorChannels img = 4 ->
       fst result = true /\
       m_loadedTextures (snd result) = m_loadedTextures st + 1 /\
       m_textureIDs (snd result) (m_loadedTextures st) =
         {| ID := textureID; texture_tag := t |} /\
       (forall index, index <> m_loadedTextures st ->
          m_textureIDs (snd result) index = m_textureIDs st index))
    /\
    (image = None \/
     (exists img, image = Some img /\
                  colorChannels img <> 3 /\ colorChannels img <> 4) ->
     fst result = false /\
     m_loadedTextures (snd result) = m_loadedTextures st /\
     m_textureIDs (snd result) = m_textureIDs st).
Proof.
  intros image textureID t st result. subst result. split.
  - intros img -> Hch. unfold CreateGLTexture.
    assert (Hreg : (colorChannels img =? 3) = true \/
                   ((colorChannels img =? 3) = false /\
                    (colorChannels img =? 4) = true)).
    { destruct Hch as [->| ->]; [left|right; split]; reflexivity. }
    destruct Hreg as [-> | [-> ->]]; cbn [fst snd m_loadedTextures m_textureIDs];
      (split; [reflexivity|]; split; [reflexivity|]; split;
       [rewrite Z.eqb_refl; reflexivity
       |intros index Hne; apply Z.eqb_neq in Hne; rewrite Hne; reflexivity]).
  - intros [-> | (img & -> & H3 & H4)]; unfold CreateGLTexture.
    + repeat split.
    + apply Z.eqb_neq in H3, H4. rewrite H3, H4. repeat split.
Qed.

End Catalogs.

Lemma FindMaterial_first_match_witness :
  fst (SceneManager.FindMaterial "brick" Sample.leftover Sample.scene) = true /\
  SceneManager.shininess
    (snd (SceneManager.FindMaterial "brick" Sample.leftover Sample.scene)) =
  SceneManager.dlit 4 1.
Proof.
  set (ms := SceneManager.m_objectMaterials Sample.scene).
  assert (E : exists a b m c d, ms = [a; b] ++ m :: [c; d] /\
                SceneManager.tag a = "grass"%string /\
                SceneManager.tag b = "dirt"%string /\
                SceneManager.tag m = "brick"%string /\
                SceneManager.shininess m = SceneManager.dlit 4 1).
  { do 5 eexists. split; [reflexivity|]. repeat split. }
  destruct E as (a & b & m & c & d & Hms & Ha & Hb & Hm & Hsh).
  rewrite (FindMaterial_first_match float "brick" [a; b] [c; d] m
             Sample.leftover Sample.scene Hms).
  - split; [reflexivity|exact Hsh].
  - intros m' [<-|[<-|[]]]; congruence.
  - exact Hm.
Defined.

(** ** The render-state helpers *)

Section Exactness.

Local Open Scope R_scope.

Lemma radians_0 : Exact.radians 0 = 0.
Proof. unfold Exact.radians. field. Qed.

Lemma radians_90 : Exact.radians 90 = PI / 2.
Proof. unfold Exact.radians. field. Qed.

Lemma unit_axis_norm_x : sqrt (1 * 1 + 0 * 0 + 0 * 0) = 1.
Proof. replace (1 * 1 + 0 * 0 + 0 * 0) with 1 by ring. apply sqrt_1. Qed.

Lemma unit_axis_norm_y : sqrt (0 * 0 + 1 * 1 + 0 * 0) = 1.
Proof. replace (0 * 0 + 1 * 1 + 0 * 0) with 1 by ring. apply sqrt_1. Qed.

Lemma unit_axis_norm_z : sqrt (0 * 0 + 0 * 0 + 1 * 1) = 1.
Proof. replace (0 * 0 + 0 * 0 + 1 * 1) with 1 by ring. apply sqrt_1. Qed.

Definition identity : mat4 R :=
  mk_vec4 (mk_vec4 1 0 0 0) (mk_vec4 0 1 0 0) (mk_vec4 0 0 1 0) (mk_vec4 0 0 0 1).

(** A rotation by no angle about a coordinate axis is the identity. *)
Lemma rotate_x_0 : Exact.rotate (Exact.radians 0) (mk_vec3 1 0 0) = identity.
Proof.
  unfold Exact.rotate, identity. cbn [vx vy vz].
  rewrite radians_0, unit_axis_norm_x, cos_0, sin_0.
  f_equal; f_equal; field.
Qed.

Lemma rotate_z_0 : Exact.rotate (Exact.radians 0) (mk_vec3 0 0 1) = identity.
Proof.
  unfold Exact.rotate, identity. cbn [vx vy vz].
  rewrite radians_0, unit_axis_norm_z, cos_0, sin_0.
  f_equal; f_equal; field.
Qed.

(** A quarter turn about the Y axis sends X to -Z and Z to X. *)
Lemma rotate_y_90 :
  Exact.rotate (Exact.radians 90) (mk_vec3 0 1 0) =
  mk_vec4 (mk_vec4 0 0 (-1) 0) (mk_vec4 0 1 0 0) (mk_vec4 1 0 0 0) (mk_vec4 0 0 0 1).
Proof.
  unfold Exact.rotate. cbn [vx vy vz].
  rewrite radians_90, unit_axis_norm_y, cos_PI2, sin_PI2.
  f_equal; f_equal; field.
Qed.

Lemma mul_identity_r (m : mat4 R) : Exact.mul m identity = m.
Proof.
  destruct m as [[a0 a1 a2 a3] [b0 b1 b2 b3] [c0 c1 c2 c3] [d0 d1 d2 d3]].
  unfold Exact.mul, Exact.mul_vec, identity.
  cbn [v4x v4y v4z v4w]. f_equal; f_equal; ring.
Qed.

(** Applying a product is applying its factors, the right one first. *)
Lemma mul_vec_mul (a b : mat4 R) (v : vec4 R) :
  Exact.mul_vec (Exact.mul a b) v = Exact.mul_vec a (Exact.mul_vec b v).
Proof.
  destruct a as [[a0 a1 a2 a3] [b0 b1 b2 b3] [c0 c1 c2 c3] [d0 d1 d2 d3]].
  destruct b as [[e0 e1 e2 e3] [f0 f1 f2 f3] [g0 g1 g2 g3] [h0 h1 h2 h3]].
  destruct v as [x y z w].
  unfold Exact.mul, Exact.mul_vec. cbn [v4x v4y v4z v4w]. f_equal; ring.
Qed.

Lemma scale_apply (s : vec3 R) (v : vec4 R) :
  Exact.mul_vec (Exact.scale s) v =
  mk_vec4 (vx s * v4x v) (vy s * v4y v) (vz s * v4z v) (v4w v).
Proof.
  unfold Exact.mul_vec, Exact.scale. cbn [v4x v4y v4z v4w]. f_equal; ring.
Qed.

Lemma translate_apply (t : vec3 R) (v : vec4 R) :
  Exact.mul_vec (Exact.translate t) v =
  mk_vec4 (v4x v + vx t * v4w v) (v4y v + vy t * v4w v) (v4z v + vz t * v4w v)
          (v4w v).
Proof.
  unfold Exact.mul_vec, Exact.translate. cbn [v4x v4y v4z v4w]. f_equal; ring.
Qed.

Lemma rotate_y_90_apply (v : vec4 R) :
  Exact.mul_vec (Exact.rotate (Exact.radians 90) (mk_vec3 0 1 0)) v =
  mk_vec4 (v4z v) (v4y v) (- v4x v) (v4w v).
Proof.
  rewrite rotate_y_90. unfold Exact.mul_vec. cbn [v4x v4y v4z v4w].
  f_equal; ring.
Qed.

(** The model matrix of the scale (2,1,1), the rotation (0,90,0) degrees
    and the translation (1,0,0), composed as [SetTransformations] does. *)
Lemma golden_model_matrix :
  let M := Exact.mul (Exact.mul (Exact.mul (Exact.mul
             (Exact.translate (mk_vec3 1 0 0))
             (Exact.rotate (Exact.radians 0) (mk_vec3 1 0 0)))
             (Exact.rotate (Exact.radians 90) (mk_vec3 0 1 0)))
             (Exact.rotate (Exact.radians 0) (mk_vec3 0 0 1)))
             (Exact.scale (mk_vec3 2 1 1)) in
  Exact.mul_vec M (mk_vec4 0 0 0 1) = mk_vec4 1 0 0 1 /\
  Exact.mul_vec M (mk_vec4 1 0 0 1) = mk_vec4 1 0 (-2) 1.
Proof.
  cbv zeta. rewrite rotate_x_0, rotate_z_0, !mul_identity_r, !mul_vec_mul.
  rewrite !scale_apply, !rotate_y_90_apply, !translate_apply.
  cbn [vx vy vz v4x v4y v4z v4w].
  split; f_equal; ring.
Qed.

End Exactness.

Section Golden32.

Variables cosf sinf : float -> float.

Hypothesis cos_zero : cosf (Binary32.radians (f32 0 0)) = f32 1 0.
Hypothesis sin_zero : sinf (Binary32.radians (f32 0 0)) = f32 0 0.
Hypothesis cos_quarter :
  cosf (Binary32.radians (f32 90 0)) = f32 (-12303662) (-48).
Hypothesis sin_quarter : sinf (Binary32.radians (f32 90 0)) = f32 1 0.

(** The same model matrix in binary32: the quarter turn is off by the
    cosine of the [float] nearest to pi/2, about -4.4e-08. *)
Lemma golden_model_matrix_binary32 :
  let G := Binary32.glm cosf sinf in
  mat4_mul G (mat4_mul G (mat4_mul G (mat4_mul G
    (translate G (mk_vec3 (f32 1 0) (f32 0 0) (f32 0 0)))
    (rotate G (radians G (f32 0 0))
       (mk_vec3 (literal1 G) (literal0 G) (literal0 G))))
    (rotate G (radians G (f32 90 0))
       (mk_vec3 (literal0 G) (literal1 G) (literal0 G))))
    (rotate G (radians G (f32 0 0))
       (mk_vec3 (literal0 G) (literal0 G) (literal1 G))))
    (scale G (mk_vec3 (f32 2 0) (f32 1 0) (f32 1 0))) =
  mk_vec4
    (mk_vec4 (f32 (-12303662) (-47)) (f32 0 0) (f32 (-2) 0) (f32 0 0))
    (mk_vec4 (f32 0 0) (f32 16777215 (-24)) (f32 0 0) (f32 0 0))
    (mk_vec4 (f32 1 0) (f32 0 0) (f32 (-12303662) (-48)) (f32 0 0))
    (mk_vec4 (f32 1 0) (f32 0 0) (f32 0 0) (f32 1 0)).
Proof.
  cbv zeta. unfold Binary32.glm.
  cbn [mat4_mul rotate radians translate scale literal0 literal1].
  unfold Binary32.rotate. cbv zeta.
  rewrite cos_zero, sin_zero, cos_quarter, sin_quarter.
  vm_compute. reflexivity.
Qed.

End Golden32.

Lemma within_tolerance_golden :
  Binary32.vec4_within_tolerance
    (mk_vec4 (f32 1 0) (f32 0 0) (f32 0 0) (f32 1 0))
    (mk_vec4 1 0 0 1)%R /\
  Binary32.vec4_within_tolerance
    (mk_vec4 (f32 16777215 (-24)) (f32 0 0) (f32 (-2) 0) (f32 1 0))
    (mk_vec4 1 0 (-2) 1)%R.
Proof.
  unfold Binary32.vec4_within_tolerance, Binary32.within_tolerance.
  cbn [v4x v4y v4z v4w].
  change (f32 16777215 (-24)) with (S754_finite false 16777215 (-24)).
  change (f32 0 0) with (S754_zero false).
  change (f32 (-2) 0) with (S754_finite true 8388608 (-22)).
  change (f32 1 0) with (S754_finite false 8388608 (-23)).
  cbn [Binary32.value is_finite cond_Zopp Z.opp].
  change (Z.pow_pos 2 24) with 16777216.
  change (Z.pow_pos 2 22) with 4194304.
  change (Z.pow_pos 2 23) with 8388608.
  repeat split; apply Rabs_le; lra.
Qed.

Section RenderState.

Import SceneManager.

(** C5.  With a shader manager present, [SetTransformations] hands it one
    more uniform, named [model]: the product translation * rotationX *
    rotationY * rotationZ * scale of the matrices GLM builds from its
    arguments; nothing else of the scene manager changes.  For the scale
    (2,1,1), the rotation (0,90,0) degrees and the translation (1,0,0)
    that matrix sends (0,0,0,1) to (1,0,0,1) and (1,0,0,1) to (1,0,-2,1)
    in exact arithmetic; in binary32, with the cosine and the sine of a
    correctly rounding libm, it sends (0,0,0,1) to (1,0,0,1) and
    (1,0,0,1) to (0.99999994, 0, -2, 1), within 10^-6 of the golden
    point. *)
Theorem SetTransformations_model_matrix :
  (forall (F : Type) (G : GLM F) (scaleXYZ : vec3 F) (rx ry rz : F)
          (positionXYZ : vec3 F) (st : State F) (sh : ShaderManager F),
     m_pShaderManager st = Some sh ->
     let st' := SetTransformations G scaleXYZ rx ry rz positionXYZ st in
     m_pShaderManager st' =
     Some (sh ++
       [("model"%string,
         Mat4Value
           (mat4_mul G
              (mat4_mul G
                 (mat4_mul G
                    (mat4_mul G (translate G positionXYZ)
                       (rotate G (radians G rx)
                          (mk_vec3 (literal1 G) (literal0 G) (literal0 G))))
                    (rotate G (radians G ry)
                       (mk_vec3 (literal0 G) (literal1 G) (literal0 G))))
                 (rotate G (radians G rz)
                    (mk_vec3 (literal0 G) (literal0 G) (literal1 G))))
              (scale G scaleXYZ)))]) /\
     m_textureIDs st' = m_textureIDs st /\
     m_loadedTextures st' = m_loadedTextures st /\
     m_objectMaterials st' = m_objectMaterials st /\
     gl st' = gl st)
  /\
  (forall (st : State R) (sh : ShaderManager R),
     m_pShaderManager st = Some sh ->
     exists M : mat4 R,
       m_pShaderManager
         (SetTransformations Exact.glm (mk_vec3 2 1 1)%R 0%R 90%R 0%R
            (mk_vec3 1 0 0)%R st) =
       Some (sh ++ [("model"%string, Mat4Value M)]) /\
       Exact.mul_vec M (mk_vec4 0 0 0 1)%R = (mk_vec4 1 0 0 1)%R /\
       Exact.mul_vec M (mk_vec4 1 0 0 1)%R = (mk_vec4 1 0 (-2) 1)%R)
  /\
  (forall (cosf sinf : float -> float) (st : State float)
          (sh : ShaderManager float),
     m_pShaderManager st = Some sh ->
     cosf (Binary32.radians (f32 0 0)) = f32 1 0 ->
     sinf (Binary32.radians (f32 0 0)) = f32 0 0 ->
     cosf (Binary32.radians (f32 90 0)) = f32 (-12303662) (-48) ->
     sinf (Binary32.radians (f32 90 0)) = f32 1 0 ->
     exists M : mat4 float,
       m_pShaderManager
         (SetTransformations (Binary32.glm cosf sinf)
            (mk_vec3 (f32 2 0) (f32 1 0) (f32 1 0))
            (f32 0 0) (f32 90 0) (f32 0 0)
            (mk_vec3 (f32 1 0) (f32 0 0) (f32 0 0)) st) =
       Some (sh ++ [("model"%string, Mat4Value M)]) /\
       Binary32.mul_vec M (mk_vec4 (f32 0 0) (f32 0 0) (f32 0 0) (f32 1 0)) =
         mk_vec4 (f32 1 0) (f32 0 0) (f32 0 0) (f32 1 0) /\
       Binary32.mul_vec M (mk_vec4 (f32 1 0) (f32 0 0) (f32 0 0) (f32 1 0)) =
         mk_vec4 (f32 16777215 (-24)) (f32 0 0) (f32 (-2) 0) (f32 1 0) /\
       Binary32.vec4_within_tolerance
         (Binary32.mul_vec M (mk_vec4 (f32 0 0) (f32 0 0) (f32 0 0) (f32 1 0)))
         (mk_vec4 1 0 0 1)%R /\
       Binary32.vec4_within_tolerance
         (Binary32.mul_vec M (mk_vec4 (f32 1 0) (f32 0 0) (f32 0 0) (f32 1 0)))
         (mk_vec4 1 0 (-2) 1)%R).
Proof.
  split; [|split].
  - intros F G scaleXYZ rx ry rz positionXYZ st sh Hs.
    unfold SetTransformations. rewrite Hs. unfold upload, g_ModelName.
    cbn [m_pShaderManager m_textureIDs m_loadedTextures m_objectMaterials gl].
    repeat split.
  - intros st sh Hs. eexists. split.
    + unfold SetTransformations. rewrite Hs. reflexivity.
    + exact golden_model_matrix.
  - intros cosf sinf st sh Hs Hc0 Hs0 Hc90 Hs90. eexists. split.
    + unfold SetTransformations. rewrite Hs. reflexivity.
    + cbv zeta.
      rewrite (golden_model_matrix_binary32 cosf sinf Hc0 Hs0 Hc90 Hs90).
      assert (E0 : Binary32.mul_vec
                (mk_vec4
                   (mk_vec4 (f32 (-12303662) (-47)) (f32 0 0) (f32 (-2) 0) (f32 0 0))
                   (mk_vec4 (f32 0 0) (f32 16777215 (-24)) (f32 0 0) (f32 0 0))
                   (mk_vec4 (f32 1 0) (f32 0 0) (f32 (-12303662) (-48)) (f32 0 0))
                   (mk_vec4 (f32 1 0) (f32 0 0) (f32 0 0) (f32 1 0)))
                (mk_vec4 (f32 0 0) (f32 0 0) (f32 0 0) (f32 1 0)) =
              mk_vec4 (f32 1 0) (f32 0 0) (f32 0 0) (f32 1 0))
        by (vm_compute; reflexivity).
      assert (E1 : Binary32.mul_vec
                (mk_vec4
                   (mk_vec4 (f32 (-12303662) (-47)) (f32 0 0) (f32 (-2) 0) (f32 0 0))
                   (mk_vec4 (f32 0 0) (f32 16777215 (-24)) (f32 0 0) (f32 0 0))
                   (mk_vec4 (f32 1 0) (f32 0 0) (f32 (-12303662) (-48)) (f32 0 0))
                   (mk_vec4 (f32 1 0) (f32 0 0) (f32 0 0) (f32 1 0)))
                (mk_vec4 (f32 1 0) (f32 0 0) (f32 0 0) (f32 1 0)) =
              mk_vec4 (f32 16777215 (-24)) (f32 0 0) (f32 (-2) 0) (f32 1 0))
        by (vm_compute; reflexivity).
      rewrite E0, E1.
      split; [reflexivity|]. split; [reflexivity|].
      split; [apply within_tolerance_golden|apply within_tolerance_golden].
Qed.

(** C10.  With a null shader manager [SetTransformations],
    [SetShaderColor], [SetShaderTexture] and [SetTextureUVScale] leave the
    state as it is.  [SetShaderMaterial] has no such test: as soon as
    there is a material the lookup reports success, whatever the tag, and
    the null pointer is dereferenced. *)
Theorem null_shader_manager :
  forall (F : Type) (st : State F),
    m_pShaderManager st = None ->
    (forall (G : GLM F) scaleXYZ rx ry rz positionXYZ,
       SetTransformations G scaleXYZ rx ry rz positionXYZ st = st) /\
    (forall r g b a, SetShaderColor r g b a st = st) /\
    (forall t, SetShaderTexture t st = st) /\
    (forall u v, SetTextureUVScale u v st = st) /\
    (forall material t,
       m_objectMaterials st <> [] ->
       fst (FindMaterial t material st) = true /\
       SetShaderMaterial material t st = Undefined).
Proof.
  intros F st Hs. repeat split.
  - intros. unfold SetTransformations. rewrite Hs. reflexivity.
  - intros. unfold SetShaderColor. rewrite Hs. reflexivity.
  - intros. unfold SetShaderTexture. rewrite Hs. reflexivity.
  - intros. unfold SetTextureUVScale. rewrite Hs. reflexivity.
  - apply FindMaterial_nonempty_found. assumption.
  - unfold SetShaderMaterial.
    pose proof (FindMaterial_nonempty_found F t material st H) as Hf.
    destruct (FindMaterial t material st) as [bReturn material'].
    simpl in Hf. rewrite Hf, Hs.
    destruct (m_objectMaterials st); [contradiction|reflexivity].
Qed.

End RenderState.

Lemma SetTransformations_model_matrix_witness :
  exists M : mat4 float,
    SceneManager.m_pShaderManager
      (SceneManager.SetTransformations (Binary32.glm Sample.cosf Sample.sinf)
         (mk_vec3 (f32 2 0) (f32 1 0) (f32 1 0))
         (f32 0 0) (f32 90 0) (f32 0 0)
         (mk_vec3 (f32 1 0) (f32 0 0) (f32 0 0)) Sample.scene) =
    Some [("model"%string, SceneManager.Mat4Value M)] /\
    Binary32.mul_vec M (mk_vec4 (f32 0 0) (f32 0 0) (f32 0 0) (f32 1 0)) =
      mk_vec4 (f32 1 0) (f32 0 0) (f32 0 0) (f32 1 0) /\
    Binary32.mul_vec M (mk_vec4 (f32 1 0) (f32 0 0) (f32 0 0) (f32 1 0)) =
      mk_vec4 (f32 16777215 (-24)) (f32 0 0) (f32 (-2) 0) (f32 1 0) /\
    Binary32.vec4_within_tolerance
      (Binary32.mul_vec M (mk_vec4 (f32 0 0) (f32 0 0) (f32 0 0) (f32 1 0)))
      (mk_vec4 1 0 0 1)%R /\
    Binary32.vec4_within_tolerance
      (Binary32.mul_vec M (mk_vec4 (f32 1 0) (f32 0 0) (f32 0 0) (f32 1 0)))
      (mk_vec4 1 0 (-2) 1)%R.
Proof.
  exact (proj2 (proj2 SetTransformations_model_matrix) Sample.cosf Sample.sinf
           Sample.scene [] eq_refl eq_refl eq_refl eq_refl eq_refl).
Defined.

Lemma null_shader_manager_witness :
  SceneManager.SetShaderTexture "grass" Sample.unlit_scene = Sample.unlit_scene /\
  SceneManager.SetShaderMaterial Sample.leftover "grass" Sample.unlit_scene = Undefined.
Proof.
  destruct (null_shader_manager float Sample.unlit_scene eq_refl)
    as (_ & _ & H3 & _ & H5).
  split.
  - apply H3.
  - apply (H5 Sample.leftover "grass"%string). discriminate.
Defined.

(** C1: the code at a tag the catalog lacks.  The scene's five materials
    are defined and the tag "glass" is none of them; [SetShaderMaterial]
    returns after handing the shader manager five material uniforms, with
    the values its never-assigned local variable holds. *)
Theorem SetShaderMaterial_unknown_tag :
  SceneManager.SetShaderMaterial Sample.leftover "glass" Sample.scene =
  Returns (SceneManager.upload Sample.scene []
             (SceneManager.material_uniforms Sample.leftover)).
Proof. vm_compute. reflexivity. Qed.

(** C6: the code at a tag the catalogs lack.  The texture lookup answers
    [-1]; the material lookup answers [true], as it does for a tag that is
    there, and leaves the material it was given untouched. *)
Theorem FindMaterial_unknown_tag :
  SceneManager.FindTextureSlot "glass" Sample.scene = -1 /\
  SceneManager.FindMaterial "glass" Sample.leftover Sample.scene =
  (true, Sample.leftover).
Proof. split; vm_compute; reflexivity. Qed.

(** ** The texture catalog as a whole *)

Section TextureCatalog.

Import SceneManager.

Variable F : Type.

Lemma loaded_from_S (textures : Z -> TEXTURE_INFO) (n : nat) (i : Z) :
  loaded_from textures (S n) i = textures i :: loaded_from textures n (i + 1).
Proof.
  unfold loaded_from. cbn [seq map]. f_equal.
  - f_equal. lia.
  - rewrite <- seq_shift, map_map. apply map_ext. intros k. f_equal. lia.
Qed.

Lemma loaded_from_snoc (textures : Z -> TEXTURE_INFO) (n : nat) (i : Z) :
  loaded_from textures (S n) i =
  loaded_from textures n i ++ [textures (i + Z.of_nat n)].
Proof.
  unfold loaded_from. rewrite seq_S, map_app. reflexivity.
Qed.

Lemma loaded_from_ext (t1 t2 : Z -> TEXTURE_INFO) (n : nat) (i : Z) :
  (forall j, i <= j < i + Z.of_nat n -> t1 j = t2 j) ->
  loaded_from t1 n i = loaded_from t2 n i.
Proof.
  intros H. unfold loaded_from. apply map_ext_in. intros k Hk.
  apply in_seq in Hk. apply H. lia.
Qed.

Lemma FindTextureSlot_loop_loaded (textures : Z -> TEXTURE_INFO) (t : string)
    (n : nat) :
  forall i, FindTextureSlot_loop textures t n i =
            first_with_tag t (loaded_from textures n i) i.
Proof.
  induction n as [|n IH]; intros i.
  - reflexivity.
  - rewrite loaded_from_S. cbn [FindTextureSlot_loop first_with_tag].
    rewrite IH. reflexivity.
Qed.

(** The lookup sees the catalog as the list of its loaded entries. *)
Lemma FindTextureSlot_loaded (t : string) (st : State F) :
  FindTextureSlot t st = first_with_tag t (loaded st) 0.
Proof. apply FindTextureSlot_loop_loaded. Qed.

Lemma first_with_tag_range (t : string) (entries : list TEXTURE_INFO) :
  forall i, 0 <= i ->
    first_with_tag t entries i = -1 \/
    i <= first_with_tag t entries i < i + Z.of_nat (List.length entries).
Proof.
  induction entries as [|e rest IH]; intros i Hi; cbn [first_with_tag List.length].
  - left. reflexivity.
  - destruct (String.eqb (texture_tag e) t).
    + right. lia.
    + destruct (IH (i + 1)) as [H|H]; [lia|left; exact H|right; lia].
Qed.

Lemma first_with_tag_app (t : string) (l1 l2 : list TEXTURE_INFO) :
  forall i, 0 <= i ->
    first_with_tag t (l1 ++ l2) i =
    if first_with_tag t l1 i =? -1
    then first_with_tag t l2 (i + Z.of_nat (List.length l1))
    else first_with_tag t l1 i.
Proof.
  induction l1 as [|e rest IH]; intros i Hi; cbn [first_with_tag List.length app].
  - cbn. f_equal. lia.
  - destruct (String.eqb (texture_tag e) t).
    + destruct (Z.eqb_spec i (-1)); [lia|reflexivity].
    + rewrite IH by lia. replace (i + 1 + Z.of_nat (List.length rest))
        with (i + Z.of_nat (S (List.length rest))) by lia. reflexivity.
Qed.

Lemma loaded_length (st : State F) :
  List.length (loaded st) = Z.to_nat (m_loadedTextures st).
Proof. unfold loaded, loaded_from. rewrite length_map, length_seq. reflexivity. Qed.

(** What [CreateGLTexture] does to the list of loaded entries and to their
    number. *)
Lemma CreateGLTexture_loaded (image : option Image) (textureID : Z) (t : string)
    (st : State F) :
  0 <= m_loadedTextures st ->
  let st' := snd (CreateGLTexture image textureID t st) in
  loaded st' =
    (if supported image
     then loaded st ++ [{| ID := textureID; texture_tag := t |}]
     else loaded st) /\
  m_loadedTextures st' =
    (if supported image then m_loadedTextures st + 1 else m_loadedTextures st).
Proof.
  intros Hn. cbv zeta.
  assert (Hreg : forall call,
    let st' :=
      {| m_pShaderManager := m_pShaderManager st;
         m_textureIDs := fun index =>
           if index =? m_loadedTextures st
           then {| ID := textureID; texture_tag := t |}
           else m_textureIDs st index;
         m_loadedTextures := m_loadedTextures st + 1;
         m_objectMaterials := m_objectMaterials st;
         gl := call |} in
    loaded st' = loaded st ++ [{| ID := textureID; texture_tag := t |}]).
  { intros call. cbv zeta. unfold loaded. cbn [m_textureIDs m_loadedTextures].
    replace (Z.to_nat (m_loadedTextures st + 1))
      with (S (Z.to_nat (m_loadedTextures st))) by lia.
    rewrite loaded_from_snoc. f_equal.
    - apply loaded_from_ext. intros j Hj.
      destruct (Z.eqb_spec j (m_loadedTextures st)); [lia|reflexivity].
    - f_equal. replace (0 + Z.of_nat (Z.to_nat (m_loadedTextures st)))
        with (m_loadedTextures st) by lia.
      rewrite Z.eqb_refl. reflexivity. }
  unfold CreateGLTexture, supported.
  destruct image as [img|]; [|split; reflexivity].
  destruct (colorChannels img =? 3); [split; [apply Hreg|reflexivity]|].
  destruct (colorChannels img =? 4); [split; [apply Hreg|reflexivity]|].
  split; reflexivity.
Qed.

Lemma int_of_GLuint_small (name : Z) :
  0 <= name < 2147483648 -> int_of_GLuint name = name.
Proof.
  intros H. unfold int_of_GLuint. rewrite Z.mod_small by lia. lia.
Qed.

Lemma int_of_GLuint_large (name : Z) :
  2147483648 <= name <= GLuint_MAX -> int_of_GLuint name = name - 4294967296.
Proof.
  unfold GLuint_MAX. intros H. unfold int_of_GLuint.
  replace (name + 2147483648) with (name - 2147483648 + 1 * 4294967296) by lia.
  rewrite Z.mod_add by lia. rewrite Z.mod_small by lia. lia.
Qed.

(** The only name that comes out as the value [-1] is the largest. *)
Lemma int_of_GLuint_sentinel (name : Z) :
  0 <= name <= GLuint_MAX -> (int_of_GLuint name = -1 <-> name = GLuint_MAX).
Proof.
  intros H. destruct (Z.lt_ge_cases name 2147483648) as [Hlt|Hge].
  - rewrite int_of_GLuint_small by lia. unfold GLuint_MAX. lia.
  - rewrite int_of_GLuint_large by lia. unfold GLuint_MAX. lia.
Qed.

Lemma FindTextureID_loop_slot (textures : Z -> TEXTURE_INFO) (t : string)
    (n : nat) :
  forall i, 0 <= i ->
    FindTextureID_loop textures t n i =
    if FindTextureSlot_loop textures t n i =? -1 then -1
    else int_of_GLuint (ID (textures (FindTextureSlot_loop textures t n i))).
Proof.
  induction n as [|n IH]; intros i Hi; cbn [FindTextureID_loop FindTextureSlot_loop].
  - reflexivity.
  - destruct (String.eqb (texture_tag (textures i)) t).
    + destruct (Z.eqb_spec i (-1)); [lia|reflexivity].
    + apply IH. lia.
Qed.

Lemma FindTextureID_via_slot (t : string) (st : State F) :
  FindTextureID t st =
  if FindTextureSlot t st =? -1 then -1
  else int_of_GLuint (ID (m_textureIDs st (FindTextureSlot t st))).
Proof. apply FindTextureID_loop_slot. lia. Qed.

(** X3.  For every tag and catalog, [FindTextureID] returns the name stored
    in the entry [FindTextureSlot] points at, converted from [GLuint] to
    [int], and [-1] when [FindTextureSlot] returns [-1].  For a tag that
    is found the result is the name itself when the name is below 2^31;
    and the result is [-1] exactly when the tag is not found or the name
    found is the largest [GLuint], which the conversion turns into the
    not-found value. *)
Theorem FindTextureID_at_slot :
  forall (t : string) (st : State F),
    let slot := FindTextureSlot t st in
    let name := ID (m_textureIDs st slot) in
    FindTextureID t st = (if slot =? -1 then -1 else int_of_GLuint name) /\
    (slot <> -1 -> 0 <= name < 2147483648 -> FindTextureID t st = name) /\
    (0 <= name <= GLuint_MAX ->
     (FindTextureID t st = -1 <-> slot = -1 \/ name = GLuint_MAX)).
Proof.
  intros t st slot name.
  assert (E : FindTextureID t st =
              if slot =? -1 then -1 else int_of_GLuint name).
  { unfold FindTextureID, slot, name, FindTextureSlot.
    apply FindTextureID_loop_slot. lia. }
  split; [exact E|]. split.
  - intros Hs Hn. rewrite E.
    destruct (Z.eqb_spec slot (-1)); [contradiction|].
    apply int_of_GLuint_small. exact Hn.
  - intros Hn. rewrite E. destruct (Z.eqb_spec slot (-1)) as [Hs|Hs].
    + split; [intros _; left; exact Hs|reflexivity].
    + rewrite (int_of_GLuint_sentinel name Hn). split.
      * intros H. right. exact H.
      * intros [H|H]; [contradiction|exact H].
Qed.

(** X4.  Insert and look up: after [CreateGLTexture] has accepted an image
    under a tag the catalog did not have, [FindTextureSlot] finds the tag
    at the index the catalog's length had before the call, and
    [FindTextureID] returns the name of the new texture converted to
    [int]: the name itself when it is below 2^31. *)
Theorem CreateGLTexture_then_find :
  forall (image : option Image) (textureID : Z) (t : string) (st : State F),
    0 <= m_loadedTextures st ->
    supported image = true ->
    FindTextureSlot t st = -1 ->
    let st' := snd (CreateGLTexture image textureID t st) in
    FindTextureSlot t st' = m_loadedTextures st /\
    FindTextureID t st' = int_of_GLuint textureID /\
    (0 <= textureID < 2147483648 -> FindTextureID t st' = textureID).
Proof.
  intros image textureID t st Hn Hs Hmiss st'.
  assert (Hslot : FindTextureSlot t st' = m_loadedTextures st).
  { subst st'. rewrite FindTextureSlot_loaded.
    destruct (CreateGLTexture_loaded image textureID t st Hn) as [-> _].
    rewrite Hs. rewrite first_with_tag_app by lia.
    rewrite <- FindTextureSlot_loaded, Hmiss, Z.eqb_refl.
    cbn [first_with_tag texture_tag].
    rewrite String.eqb_refl, loaded_length. lia. }
  split; [exact Hslot|].
  assert (Hid : FindTextureID t st' = int_of_GLuint textureID).
  { rewrite FindTextureID_via_slot, Hslot.
    destruct (Z.eqb_spec (m_loadedTextures st) (-1)); [lia|].
    subst st'. unfold CreateGLTexture, supported in *.
    destruct image as [img|]; [|discriminate].
    destruct (colorChannels img =? 3).
    - cbn [snd m_textureIDs]. rewrite Z.eqb_refl. reflexivity.
    - destruct (colorChannels img =? 4); [|discriminate].
      cbn [snd m_textureIDs]. rewrite Z.eqb_refl. reflexivity. }
  split; [exact Hid|].
  intros Hsmall. rewrite Hid. apply int_of_GLuint_small. exact Hsmall.
Qed.

(** X5.  The catalog only grows at its end: whatever image, name and tag
    [CreateGLTexture] is called with, and whether it accepts the image or
    not, a tag that was found before is found at the same index
    afterwards (a second texture under an existing tag is never the one
    found), and a tag other than the new one that was not found is still
    not found. *)
Theorem CreateGLTexture_keeps_slots :
  forall (image : option Image) (textureID : Z) (t t' : string) (st : State F),
    0 <= m_loadedTextures st ->
    FindTextureSlot t' st <> -1 \/ t' <> t ->
    FindTextureSlot t' (snd (CreateGLTexture image textureID t st)) =
    FindTextureSlot t' st.
Proof.
  intros image textureID t t' st Hn H.
  rewrite !FindTextureSlot_loaded.
  destruct (CreateGLTexture_loaded image textureID t st Hn) as [-> _].
  destruct (supported image); [|reflexivity].
  rewrite first_with_tag_app by lia.
  destruct (Z.eqb_spec (first_with_tag t' (loaded st) 0) (-1)) as [E|E];
    [|reflexivity].
  rewrite E. cbn [first_with_tag texture_tag].
  destruct (String.eqb_spec t t') as [->|Hne]; [|reflexivity].
  rewrite <- FindTextureSlot_loaded in E. destruct H; congruence.
Qed.



Lemma DestroyGLTextures_loop_entries (names : Z -> Z) (n : nat) :
  forall (textures : Z -> TEXTURE_INFO) (i index : Z),
    fst (DestroyGLTextures_loop names textures n i) index =
    if (i <=? index) && (index <? i + Z.of_nat n)
    then {| ID := names index; texture_tag := texture_tag (textures index) |}
    else textures index.
Proof.
  induction n as [|n IH]; intros textures i index.
  - cbn [DestroyGLTextures_loop fst].
    destruct (Z.leb_spec i index), (Z.ltb_spec index (i + Z.of_nat 0));
      cbn [andb]; try reflexivity; lia.
  - cbn [DestroyGLTextures_loop].
    specialize (IH (fun k => if k =? i
                             then {| ID := names i;
                                     texture_tag := texture_tag (textures i) |}
                             else textures k) (i + 1) index).
    destruct (DestroyGLTextures_loop names _ n (i + 1)) as [textures'' calls].
    cbn [fst] in *. rewrite IH.
    destruct (Z.leb_spec (i + 1) index), (Z.ltb_spec index (i + 1 + Z.of_nat n)),
             (Z.leb_spec i index), (Z.ltb_spec index (i + Z.of_nat (S n))),
             (Z.eqb_spec index i);
      cbn [andb texture_tag]; try reflexivity; try lia; subst; reflexivity.
Qed.

Lemma DestroyGLTextures_loop_calls (names : Z -> Z) (n : nat) :
  forall (textures : Z -> TEXTURE_INFO) (i : Z),
    snd (DestroyGLTextures_loop names textures n i) =
    map (fun k => glGenTextures (names (i + Z.of_nat k))) (seq 0 n).
Proof.
  induction n as [|n IH]; intros textures i.
  - reflexivity.
  - cbn [DestroyGLTextures_loop].
    specialize (IH (fun k => if k =? i
                             then {| ID := names i;
                                     texture_tag := texture_tag (textures i) |}
                             else textures k) (i + 1)).
    destruct (DestroyGLTextures_loop names _ n (i + 1)) as [textures'' calls].
    cbn [snd] in *. rewrite IH. cbn [seq map]. f_equal.
    + do 2 f_equal. lia.
    + rewrite <- seq_shift, map_map. apply map_ext. intros k. do 2 f_equal. lia.
Qed.

Lemma FindTextureSlot_loop_tags (t1 t2 : Z -> TEXTURE_INFO) (t : string) (n : nat) :
  (forall j, texture_tag (t1 j) = texture_tag (t2 j)) ->
  forall i, FindTextureSlot_loop t1 t n i = FindTextureSlot_loop t2 t n i.
Proof.
  intros H. induction n as [|n IH]; intros i; cbn [FindTextureSlot_loop].
  - reflexivity.
  - rewrite H, IH. reflexivity.
Qed.

(** X7.  [DestroyGLTextures] frees no catalog entry: the number of loaded
    textures and every tag stay, so each tag is found at the same index
    as before; the only OpenGL calls are [glGenTextures], one per entry,
    and each stored name is replaced by the name generated for it, which,
    converted to [int], is what [FindTextureID] returns afterwards. *)
Theorem DestroyGLTextures_keeps_catalog :
  forall (names : Z -> Z) (st : State F),
    let st' := DestroyGLTextures names st in
    m_loadedTextures st' = m_loadedTextures st /\
    (forall t, FindTextureSlot t st' = FindTextureSlot t st) /\
    (forall i, 0 <= i < m_loadedTextures st ->
       m_textureIDs st' i =
       {| ID := names i; texture_tag := texture_tag (m_textureIDs st i) |}) /\
    (forall t, FindTextureSlot t st <> -1 ->
       FindTextureID t st' = int_of_GLuint (names (FindTextureSlot t st))) /\
    gl st' =
      gl st ++ map (fun k => glGenTextures (names (Z.of_nat k)))
                 (seq 0 (Z.to_nat (m_loadedTextures st))) /\
    m_objectMaterials st' = m_objectMaterials st /\
    m_pShaderManager st' = m_pShaderManager st.
Proof.
  intros names st st'.
  pose proof (DestroyGLTextures_loop_entries names (Z.to_nat (m_loadedTextures st))
                (m_textureIDs st) 0) as He.
  pose proof (DestroyGLTextures_loop_calls names (Z.to_nat (m_loadedTextures st))
                (m_textureIDs st) 0) as Hc.
  subst st'. unfold DestroyGLTextures.
  destruct (DestroyGLTextures_loop names (m_textureIDs st)
              (Z.to_nat (m_loadedTextures st)) 0) as [textures calls].
  cbn [fst snd] in He, Hc.
  cbn [m_loadedTextures m_textureIDs gl m_objectMaterials m_pShaderManager].
  assert (Hin : forall i, 0 <= i < m_loadedTextures st ->
            textures i =
            {| ID := names i; texture_tag := texture_tag (m_textureIDs st i) |}).
  { intros i Hi. rewrite He.
    destruct (Z.leb_spec 0 i),
             (Z.ltb_spec i (0 + Z.of_nat (Z.to_nat (m_loadedTextures st))));
      cbn [andb]; try reflexivity; lia. }
  assert (Hslot : forall t,
            FindTextureSlot t
              {| m_pShaderManager := m_pShaderManager st;
                 m_textureIDs := textures;
                 m_loadedTextures := m_loadedTextures st;
                 m_objectMaterials := m_objectMaterials st;
                 gl := gl st ++ calls |} = FindTextureSlot t st).
  { intros t. unfold FindTextureSlot. cbn [m_loadedTextures m_textureIDs].
    apply FindTextureSlot_loop_tags. intros j. rewrite He.
    destruct ((0 <=? j) && (j <? 0 + Z.of_nat (Z.to_nat (m_loadedTextures st))));
      reflexivity. }
  split; [reflexivity|]. split; [exact Hslot|]. split; [exact Hin|].
  split.
  - intros t Ht. rewrite FindTextureID_via_slot, Hslot.
    destruct (Z.eqb_spec (FindTextureSlot t st) (-1)); [contradiction|].
    cbn [m_textureIDs].
    pose proof (FindTextureSlot_loop_spec (m_textureIDs st) t
                  (Z.to_nat (m_loadedTextures st)) 0 (Z.le_refl 0)) as Hr.
    cbv zeta in Hr. fold (FindTextureSlot t st) in Hr.
    destruct Hr as [(Hr & _)|(Hr & _)]; [|contradiction].
    rewrite Hin by lia. reflexivity.
  - split; [|split; reflexivity]. rewrite Hc. reflexivity.
Qed.

(** X8.  [LoadSceneTextures] on an empty catalog: the five results of
    [CreateGLTexture] are ignored, so a texture that fails to load leaves
    no gap.  The catalog ends up as long as the number of accepted images;
    the tag of an accepted image is found at the number of accepted images
    before it, and the tag of a rejected one is not found. *)
Theorem LoadSceneTextures_slots :
  forall (stbi_load : string -> option Image) (names : Z -> Z) (st : State F),
    m_loadedTextures st = 0 ->
    let st' := fst (LoadSceneTextures stbi_load names st) in
    let grass := supported (stbi_load "textures/plants_grass_seamless.jpg"%string) in
    let dirt := supported (stbi_load "textures/dirt.jpg"%string) in
    let brick := supported (stbi_load "textures/brick.jpg"%string) in
    let hedge := supported (stbi_load "textures/plants_hedge_seamless.jpg"%string) in
    let foliage := supported (stbi_load "textures/foliage.jpg"%string) in
    m_loadedTextures st' =
      Z.b2z grass + Z.b2z dirt + Z.b2z brick + Z.b2z hedge + Z.b2z foliage /\
    FindTextureSlot "grass" st' = (if grass then 0 else -1) /\
    FindTextureSlot "dirt" st' = (if dirt then Z.b2z grass else -1) /\
    FindTextureSlot "brick" st' =
      (if brick then Z.b2z grass + Z.b2z dirt else -1) /\
    FindTextureSlot "hedge" st' =
      (if hedge then Z.b2z grass + Z.b2z dirt + Z.b2z brick else -1) /\
    FindTextureSlot "foliage" st' =
      (if foliage then Z.b2z grass + Z.b2z dirt + Z.b2z brick + Z.b2z hedge
       else -1).
Proof.
  intros stbi_load names st H0 st' grass dirt brick hedge foliage.
  subst st'. unfold LoadSceneTextures. cbn [fst].
  set (st1 := snd (CreateGLTexture _ (names 0) "grass" st)).
  set (st2 := snd (CreateGLTexture _ (names 1) "dirt" st1)).
  set (st3 := snd (CreateGLTexture _ (names 2) "brick" st2)).
  set (st4 := snd (CreateGLTexture _ (names 3) "hedge" st3)).
  set (st5 := snd (CreateGLTexture _ (names 4) "foliage" st4)).
  assert (Hl0 : loaded st = []) by (unfold loaded; rewrite H0; reflexivity).
  destruct (CreateGLTexture_loaded (stbi_load "textures/plants_grass_seamless.jpg"%string)
              (names 0) "grass" st) as [Hl1 Hn1]; [lia|].
  fold st1 in Hl1, Hn1. fold grass in Hl1, Hn1. rewrite Hl0, H0 in *.
  destruct (CreateGLTexture_loaded (stbi_load "textures/dirt.jpg"%string)
              (names 1) "dirt" st1) as [Hl2 Hn2];
    [rewrite Hn1; destruct grass; lia|].
  fold st2 in Hl2, Hn2. fold dirt in Hl2, Hn2. rewrite Hl1, Hn1 in *.
  destruct (CreateGLTexture_loaded (stbi_load "textures/brick.jpg"%string)
              (names 2) "brick" st2) as [Hl3 Hn3];
    [rewrite Hn2; destruct grass, dirt; lia|].
  fold st3 in Hl3, Hn3. fold brick in Hl3, Hn3. rewrite Hl2, Hn2 in *.
  destruct (CreateGLTexture_loaded (stbi_load "textures/plants_hedge_seamless.jpg"%string)
              (names 3) "hedge" st3) as [Hl4 Hn4];
    [rewrite Hn3; destruct grass, dirt, brick; lia|].
  fold st4 in Hl4, Hn4. fold hedge in Hl4, Hn4. rewrite Hl3, Hn3 in *.
  destruct (CreateGLTexture_loaded (stbi_load "textures/foliage.jpg"%string)
              (names 4) "foliage" st4) as [Hl5 Hn5];
    [rewrite Hn4; destruct grass, dirt, brick, hedge; lia|].
  fold st5 in Hl5, Hn5. fold foliage in Hl5, Hn5. rewrite Hl4, Hn4 in *.
  rewrite !FindTextureSlot_loaded, Hl5, Hn5.
  clear. destruct grass, dirt, brick, hedge, foliage; repeat split.
Qed.

End TextureCatalog.

(** ** Materials and the render pass *)

Section RenderPass.

Import SceneManager.

Lemma FindMaterial_loop_find {F : Type} (t : string)
    (materials : list (OBJECT_MATERIAL F)) (material : OBJECT_MATERIAL F) :
  FindMaterial_loop t materials material =
  match first_material t materials with
  | Some m =>
      (true, mk_OBJECT_MATERIAL (ambientColor m) (ambientStrength m)
               (diffuseColor m) (specularColor m) (shininess m) (tag material))
  | None => (false, material)
  end.
Proof.
  unfold first_material.
  induction materials as [|m rest IH]; cbn [FindMaterial_loop find].
  - reflexivity.
  - destruct (String.eqb (tag m) t); [reflexivity|exact IH].
Qed.

(** [SetShaderMaterial] by cases on the catalog, the lookup and the
    pointer. *)
Lemma SetShaderMaterial_cases {F : Type} (material : OBJECT_MATERIAL F)
    (t : string) (st : State F) :
  SetShaderMaterial material t st =
  match m_objectMaterials st with
  | [] => Returns st
  | _ :: _ =>
      match m_pShaderManager st with
      | None => Undefined
      | Some sh =>
          Returns (upload st sh
                     (material_uniforms
                        (match first_material t (m_objectMaterials st) with
                         | Some m => m
                         | None => material
                         end)))
      end
  end.
Proof.
  unfold SetShaderMaterial, FindMaterial.
  rewrite FindMaterial_loop_find.
  destruct (m_objectMaterials st) as [|m0 rest] eqn:E; [reflexivity|].
  cbn [List.length Nat.ltb Nat.leb Nat.eqb].
  destruct (first_material t (m0 :: rest)) as [m|]; reflexivity.
Qed.

(** X9.  For a tag the material catalog has, [SetShaderMaterial] hands the
    shader manager exactly the five members of the first material with
    that tag, whatever its local variable held before the lookup. *)
Theorem SetShaderMaterial_hit :
  forall (F : Type) (material m : OBJECT_MATERIAL F) (t : string) (st : State F)
         (sh : ShaderManager F),
    m_pShaderManager st = Some sh ->
    first_material t (m_objectMaterials st) = Some m ->
    SetShaderMaterial material t st = Returns (upload st sh (material_uniforms m)).
Proof.
  intros F material m t st sh Hs Hm.
  rewrite SetShaderMaterial_cases, Hs, Hm.
  destruct (m_objectMaterials st); [discriminate|reflexivity].
Qed.

(** X10.  With a shader manager present, [SetShaderTexture] switches
    texturing on and uploads the index [FindTextureSlot] returns as the
    sampler; for a tag that none of the loaded textures carries that is
    [-1]. *)
Theorem SetShaderTexture_miss :
  forall (F : Type) (t : string) (st : State F) (sh : ShaderManager F),
    m_pShaderManager st = Some sh ->
    (forall i, 0 <= i < m_loadedTextures st ->
               texture_tag (m_textureIDs st i) <> t) ->
    SetShaderTexture t st =
    upload st sh [(g_UseTextureName, IntValue 1);
                  (g_TextureValueName, Sampler2DValue (-1))].
Proof.
  intros F t st sh Hs Hmiss. unfold SetShaderTexture. rewrite Hs.
  pose proof (FindTextureSlot_loop_spec (m_textureIDs st) t
                (Z.to_nat (m_loadedTextures st)) 0 (Z.le_refl 0)) as Hr.
  cbv zeta in Hr. fold (FindTextureSlot t st) in Hr.
  destruct Hr as [(Hr & Ht & _)|(Hr & _)].
  - exfalso. apply (Hmiss (FindTextureSlot t st)); [lia|exact Ht].
  - rewrite Hr. reflexivity.
Qed.

Lemma prepared_refl (st0 : State float) :
  m_pShaderManager st0 <> None -> prepared st0 st0.
Proof. intros H. repeat split. exact H. Qed.

Lemma prepared_SetTransformations (G : GLM float) s rx ry rz p (st0 st : State float) :
  prepared st0 st -> prepared st0 (SetTransformations G s rx ry rz p st).
Proof.
  intros (H1 & H2 & H3 & H4 & H5). unfold SetTransformations.
  destruct (m_pShaderManager st); [|contradiction].
  split; [cbn; discriminate|repeat split; assumption].
Qed.

Lemma prepared_SetTextureUVScale u v (st0 st : State float) :
  prepared st0 st -> prepared st0 (SetTextureUVScale u v st).
Proof.
  intros (H1 & H2 & H3 & H4 & H5). unfold SetTextureUVScale.
  destruct (m_pShaderManager st); [|contradiction].
  split; [cbn; discriminate|repeat split; assumption].
Qed.

Lemma prepared_SetShaderTexture t (st0 st : State float) :
  prepared st0 st -> prepared st0 (SetShaderTexture t st).
Proof.
  intros (H1 & H2 & H3 & H4 & H5). unfold SetShaderTexture.
  destruct (m_pShaderManager st); [|contradiction].
  split; [cbn; discriminate|repeat split; assumption].
Qed.

Lemma prepared_uploaded_material t (st0 st : State float) :
  prepared st0 st -> prepared st0 (uploaded_material t st).
Proof.
  intros (H1 & H2 & H3 & H4 & H5). unfold uploaded_material.
  destruct (m_pShaderManager st) eqn:E; [|contradiction].
  destruct (first_material t (m_objectMaterials st)).
  - split; [cbn; discriminate|repeat split; assumption].
  - split; [rewrite E; discriminate|repeat split; assumption].
Qed.

Lemma SetShaderMaterial_prepared (material : OBJECT_MATERIAL float) (t : string)
    (st0 st : State float) :
  prepared st0 st ->
  first_material t (m_objectMaterials st0) <> None ->
  SetShaderMaterial material t st = Returns (uploaded_material t st).
Proof.
  intros (H1 & H2 & _) Hm. rewrite <- H2 in Hm.
  rewrite SetShaderMaterial_cases. unfold uploaded_material.
  destruct (m_pShaderManager st) as [sh|]; [|contradiction].
  destruct (first_material t (m_objectMaterials st)) as [m|] eqn:E;
    [|contradiction].
  destruct (m_objectMaterials st); [discriminate|reflexivity].
Qed.

Lemma render_step (material : OBJECT_MATERIAL float) (t : string)
    (st0 : State float) (sc : Scene) :
  prepared st0 (manager sc) ->
  first_material t (m_objectMaterials st0) <> None ->
  on_manager_outcome (SetShaderMaterial material t) sc =
  Returns (on_manager (uploaded_material t) sc).
Proof.
  intros Hp Hm. unfold on_manager_outcome.
  rewrite (SetShaderMaterial_prepared material t st0 (manager sc) Hp Hm).
  reflexivity.
Qed.

Ltac solve_prepared :=
  cbn [manager on_manager mesh];
  repeat first [ apply prepared_SetTransformations
               | apply prepared_SetTextureUVScale
               | apply prepared_SetShaderTexture
               | apply prepared_uploaded_material ];
  apply prepared_refl; assumption.

Ltac render_steps st0 :=
  repeat match goal with
         | |- context [on_manager_outcome (SetShaderMaterial ?j ?t) ?X] =>
             rewrite (render_step j t st0 X) by (solve_prepared || auto);
             cbn [bind]
         end.

Lemma RenderScene_run (G : GLM float) (sc : Scene) :
  m_pShaderManager (manager sc) <> None ->
  (forall t, In t scene_tags ->
             first_material t (m_objectMaterials (manager sc)) <> None) ->
  exists sc',
    (forall material, RenderScene G material sc = Returns sc') /\
    prepared (manager sc) (manager sc') /\
    units sc' = units sc /\
    meshes sc' = meshes sc ++ render_calls.
Proof.
  intros Hs Ht.
  assert (Hgrass := Ht "grass"%string ltac:(cbn; tauto)).
  assert (Hdirt := Ht "dirt"%string ltac:(cbn; tauto)).
  assert (Hbrick := Ht "brick"%string ltac:(cbn; tauto)).
  assert (Hhedge := Ht "hedge"%string ltac:(cbn; tauto)).
  assert (Hfoliage := Ht "foliage"%string ltac:(cbn; tauto)).
  eexists. split; [|split; [|split]].
  - intros material. unfold RenderScene. cbv zeta.
    render_steps (manager sc). reflexivity.
  - solve_prepared.
  - reflexivity.
  - cbn [meshes on_manager mesh]. rewrite <- !app_assoc. reflexivity.
Qed.

(** X11.  With a shader manager present and a material under each of the
    five tags of the scene, [RenderScene] returns, and what it returns
    does not depend on what the local variables of [SetShaderMaterial]
    hold; the materials, the textures and their number are unchanged, no
    texture unit is rebound, and the meshes are drawn in the order of
    [render_calls]. *)
Theorem RenderScene_defined :
  forall (G : GLM float) (sc : Scene),
    m_pShaderManager (manager sc) <> None ->
    (forall t, In t scene_tags ->
               first_material t (m_objectMaterials (manager sc)) <> None) ->
    exists sc',
      (forall material, RenderScene G material sc = Returns sc') /\
      m_objectMaterials (manager sc') = m_objectMaterials (manager sc) /\
      m_textureIDs (manager sc') = m_textureIDs (manager sc) /\
      m_loadedTextures (manager sc') = m_loadedTextures (manager sc) /\
      units sc' = units sc /\
      meshes sc' = meshes sc ++ render_calls.
Proof.
  intros G sc Hs Ht.
  destruct (RenderScene_run G sc Hs Ht) as (sc' & Hr & Hp & Hu & Hm).
  exists sc'. destruct Hp as (_ & H2 & H3 & H4 & _). repeat split; assumption.
Qed.

Lemma on_manager_SetTransformations_null (G : GLM float) s rx ry rz p st u ms :
  m_pShaderManager st = None ->
  on_manager (SetTransformations G s rx ry rz p) (mk_Scene st u ms) =
  mk_Scene st u ms.
Proof.
  intros H. unfold on_manager, SetTransformations. cbn [manager units meshes].
  rewrite H. reflexivity.
Qed.

Lemma on_manager_SetTextureUVScale_null a b st u ms :
  m_pShaderManager st = None ->
  on_manager (SetTextureUVScale a b) (mk_Scene st u ms) = mk_Scene st u ms.
Proof.
  intros H. unfold on_manager, SetTextureUVScale. cbn [manager units meshes].
  rewrite H. reflexivity.
Qed.

Lemma on_manager_SetShaderTexture_null t st u ms :
  m_pShaderManager st = None ->
  on_manager (SetShaderTexture t) (mk_Scene st u ms) = mk_Scene st u ms.
Proof.
  intros H. unfold on_manager, SetShaderTexture. cbn [manager units meshes].
  rewrite H. reflexivity.
Qed.

Lemma on_manager_outcome_SetShaderMaterial_empty
    (material : OBJECT_MATERIAL float) t st u ms :
  m_objectMaterials st = [] ->
  on_manager_outcome (SetShaderMaterial material t) (mk_Scene st u ms) =
  Returns (mk_Scene st u ms).
Proof.
  intros H. unfold on_manager_outcome. cbn [manager units meshes].
  rewrite SetShaderMaterial_cases, H. reflexivity.
Qed.

Lemma mesh_mk_Scene c st u ms :
  mesh c (mk_Scene st u ms) = mk_Scene st u (ms ++ [c]).
Proof. reflexivity. Qed.

(** X12.  [RenderScene] with a null shader manager: while no material is
    defined it uploads nothing and only draws; as soon as the material
    catalog is not empty it runs into the null pointer at its first
    [SetShaderMaterial] and draws nothing. *)
Theorem RenderScene_null_shader :
  forall (G : GLM float) (material : nat -> OBJECT_MATERIAL float) (sc : Scene),
    m_pShaderManager (manager sc) = None ->
    (m_objectMaterials (manager sc) = [] ->
     RenderScene G material sc =
     Returns {| manager := manager sc; units := units sc;
                meshes := meshes sc ++ render_calls |}) /\
    (m_objectMaterials (manager sc) <> [] ->
     RenderScene G material sc = Undefined).
Proof.
  intros G material [st u ms]. cbn [manager units meshes]. intros Hs. split.
  - intros He. unfold RenderScene. cbv zeta.
    repeat (first [ rewrite on_manager_SetTransformations_null by exact Hs
                  | rewrite on_manager_SetTextureUVScale_null by exact Hs
                  | rewrite on_manager_SetShaderTexture_null by exact Hs
                  | rewrite on_manager_outcome_SetShaderMaterial_empty by exact He
                  | rewrite mesh_mk_Scene ];
            cbn [bind]).
    rewrite <- !app_assoc. reflexivity.
  - intros Hne. unfold RenderScene. cbv zeta.
    rewrite on_manager_SetTransformations_null by exact Hs.
    rewrite on_manager_SetTextureUVScale_null by exact Hs.
    unfold on_manager_outcome at 1. cbn [manager].
    rewrite SetShaderMaterial_cases, Hs.
    destruct (m_objectMaterials st); [contradiction|reflexivity].
Qed.

Lemma first_material_app {F : Type} (t : string)
    (l1 l2 : list (OBJECT_MATERIAL F)) :
  first_material t l2 <> None -> first_material t (l1 ++ l2) <> None.
Proof.
  unfold first_material. intros H.
  induction l1 as [|m rest IH]; cbn [app find].
  - exact H.
  - destruct (String.eqb (tag m) t); [discriminate|exact IH].
Qed.

(** After [DefineObjectMaterials] each tag of the scene has a material. *)
Lemma DefineObjectMaterials_defines (st : State float) (t : string) :
  In t scene_tags ->
  first_material t (m_objectMaterials (DefineObjectMaterials st)) <> None.
Proof.
  intros Ht. unfold DefineObjectMaterials. cbv zeta. cbn [m_objectMaterials].
  apply first_material_app.
  cbn [scene_tags In] in Ht.
  destruct Ht as [<-|[<-|[<-|[<-|[<-|[]]]]]]; vm_compute; discriminate.
Qed.

Lemma CreateGLTexture_frame {F : Type} (image : option Image) (textureID : Z)
    (t : string) (st : State F) :
  m_pShaderManager (snd (CreateGLTexture image textureID t st)) = m_pShaderManager st /\
  m_objectMaterials (snd (CreateGLTexture image textureID t st)) = m_objectMaterials st.
Proof.
  unfold CreateGLTexture. destruct image as [img|]; [|split; reflexivity].
  destruct (colorChannels img =? 3); [split; reflexivity|].
  destruct (colorChannels img =? 4); split; reflexivity.
Qed.

Lemma LoadSceneTextures_frame {F : Type} (stbi_load : string -> option Image)
    (names : Z -> Z) (st : State F) :
  m_pShaderManager (fst (LoadSceneTextures stbi_load names st)) = m_pShaderManager st /\
  m_objectMaterials (fst (LoadSceneTextures stbi_load names st)) = m_objectMaterials st.
Proof.
  unfold LoadSceneTextures. cbv zeta. cbn [fst].
  repeat match goal with
         | |- context [snd (CreateGLTexture ?i ?n ?t ?s)] =>
             destruct (CreateGLTexture_frame i n t s) as [-> ->]
         end.
  split; reflexivity.
Qed.

(** X13.  [PrepareScene] dereferences the shader manager when it sets up
    the lights, so with a null shader manager it has undefined behaviour.
    With a shader manager it returns for every outcome of the five texture
    loads, having loaded the four meshes and appended the five materials
    of the scene; a [RenderScene] that follows returns, and does so
    whatever the locals of [SetShaderMaterial] hold. *)
Theorem PrepareScene_then_RenderScene :
  forall (BoolValue : bool -> UniformValue float)
         (stbi_load : string -> option Image) (names : Z -> Z)
         (G : GLM float) (sc : Scene),
    (m_pShaderManager (manager sc) = None ->
     PrepareScene BoolValue stbi_load names sc = Undefined) /\
    (m_pShaderManager (manager sc) <> None ->
     exists sc1 sc2,
       PrepareScene BoolValue stbi_load names sc = Returns sc1 /\
       m_objectMaterials (manager sc1) =
         m_objectMaterials (DefineObjectMaterials (manager sc)) /\
       meshes sc1 =
         meshes sc ++ [LoadPlaneMesh; LoadBoxMesh; LoadPyramid4Mesh; LoadConeMesh] /\
       (forall material, RenderScene G material sc1 = Returns sc2) /\
       meshes sc2 = meshes sc1 ++ render_calls).
Proof.
  intros BoolValue stbi_load names G sc.
  destruct (LoadSceneTextures_frame stbi_load names (manager sc)) as [Hsh Hms].
  unfold PrepareScene. cbv zeta. cbn [manager mesh meshes units].
  destruct (LoadSceneTextures stbi_load names (manager sc)) as [st calls].
  cbn [fst] in Hsh, Hms.
  unfold on_manager_outcome, on_manager, SetupSceneLights.
  cbn [manager units meshes m_pShaderManager DefineObjectMaterials].
  rewrite Hsh. split.
  - intros ->. reflexivity.
  - intros Hs. destruct (m_pShaderManager (manager sc)) as [sh|] eqn:E;
      [|contradiction].
    cbn [bind].
    match goal with
    | |- exists sc1 sc2, Returns ?X = Returns sc1 /\ _ =>
        destruct (RenderScene_run G X) as (sc2 & Hr & _ & _ & Hm)
    end.
    + cbn. discriminate.
    + intros t Ht. cbn [manager upload m_objectMaterials].
      pose proof (DefineObjectMaterials_defines st t Ht) as Hd.
      unfold DefineObjectMaterials in Hd. cbv zeta in Hd.
      cbn [m_objectMaterials] in Hd. exact Hd.
    + do 2 eexists. split; [reflexivity|].
      split; [unfold upload, DefineObjectMaterials; cbv zeta;
              cbn [manager m_objectMaterials]; rewrite Hms; reflexivity|].
      split; [cbn [meshes]; rewrite <- !app_assoc; reflexivity|].
      split; [exact Hr|exact Hm].
Qed.

End RenderPass.

(** ** The per-frame functions of the view manager *)

Section Frame.

Import ViewManager ViewFrame.

Variable K : CameraKernel.
Variable V : ViewKernel.

Lemma set_camera_same (st : State) : set_camera st (g_pCamera st) = st.
Proof. destruct st; reflexivity. Qed.

Lemma movement_idle (pressed : Key -> bool) (deltaTime : float) (st : State) :
  moving pressed = false -> movement V pressed deltaTime st = Returns st.
Proof.
  unfold moving, movement. intros H.
  repeat (apply orb_false_elim in H; destruct H as [H ?]).
  repeat match goal with E : pressed _ = false |- _ => rewrite E; clear E end.
  reflexivity.
Qed.

Lemma movement_null (pressed : Key -> bool) (deltaTime : float) (st : State) :
  g_pCamera st = None ->
  movement V pressed deltaTime st =
  if moving pressed then Undefined else Returns st.
Proof.
  intros Hc. unfold moving, movement, move_on_key.
  destruct (pressed GLFW_KEY_W); cbn [orb bind]; rewrite ?Hc; [reflexivity|].
  destruct (pressed GLFW_KEY_S); cbn [orb bind]; rewrite ?Hc; [reflexivity|].
  destruct (pressed GLFW_KEY_A); cbn [orb bind]; rewrite ?Hc; [reflexivity|].
  destruct (pressed GLFW_KEY_D); cbn [orb bind]; rewrite ?Hc; [reflexivity|].
  destruct (pressed GLFW_KEY_Q); cbn [orb bind]; rewrite ?Hc; [reflexivity|].
  destruct (pressed GLFW_KEY_E); cbn [orb bind]; rewrite ?Hc; reflexivity.
Qed.

Lemma move_on_key_camera (b : bool) (direction : Camera_Movement)
    (deltaTime : float) (st : State) (c : Camera) :
  g_pCamera st = Some c ->
  exists c', move_on_key V b direction deltaTime st =
             Returns (set_camera st (Some c')).
Proof.
  intros Hc. unfold move_on_key. rewrite Hc. destruct b.
  - eexists. reflexivity.
  - exists c. rewrite <- Hc, set_camera_same. reflexivity.
Qed.

Lemma set_camera_twice (st : State) (c c' : option Camera) :
  set_camera (set_camera st c) c' = set_camera st c'.
Proof. reflexivity. Qed.

Lemma movement_camera (pressed : Key -> bool) (deltaTime : float) (st : State)
    (c : Camera) :
  g_pCamera st = Some c ->
  exists c', movement V pressed deltaTime st = Returns (set_camera st (Some c')).
Proof.
  intros Hc. unfold movement.
  destruct (move_on_key_camera (pressed GLFW_KEY_W) FORWARD deltaTime st c Hc)
    as [c1 ->]. cbn [bind].
  destruct (move_on_key_camera (pressed GLFW_KEY_S) BACKWARD deltaTime
              (set_camera st (Some c1)) c1 eq_refl) as [c2 ->]. cbn [bind].
  rewrite set_camera_twice.
  destruct (move_on_key_camera (pressed GLFW_KEY_A) LEFT deltaTime
              (set_camera st (Some c2)) c2 eq_refl) as [c3 ->]. cbn [bind].
  rewrite set_camera_twice.
  destruct (move_on_key_camera (pressed GLFW_KEY_D) RIGHT deltaTime
              (set_camera st (Some c3)) c3 eq_refl) as [c4 ->]. cbn [bind].
  rewrite set_camera_twice.
  destruct (move_on_key_camera (pressed GLFW_KEY_Q) UP deltaTime
              (set_camera st (Some c4)) c4 eq_refl) as [c5 ->]. cbn [bind].
  rewrite set_camera_twice.
  destruct (move_on_key_camera (pressed GLFW_KEY_E) DOWN deltaTime
              (set_camera st (Some c5)) c5 eq_refl) as [c6 ->].
  rewrite set_camera_twice. exists c6. reflexivity.
Qed.


(** What a projection switch that returns leaves of the variables. *)
Lemma SwitchToPerspective_returns (st st' : State) :
  SwitchToPerspective K st = Returns st' ->
  bOrthographicProjection st' =
    bOrthographicProjection st && negb (cameraStatesInitialized st) /\
  cameraStatesInitialized st' = cameraStatesInitialized st /\
  (g_pCamera st = None <-> g_pCamera st' = None).
Proof.
  unfold SwitchToPerspective.
  destruct (bOrthographicProjection st) eqn:Hb,
           (cameraStatesInitialized st) eqn:Hi; cbn [andb negb].
  - destruct (g_pCamera st) as [c|] eqn:Hc; [|discriminate].
    intros E. injection E as <-. cbn. repeat split; discriminate.
  - intros E. injection E as <-. rewrite Hb, Hi. repeat split; auto.
  - intros E. injection E as <-. rewrite Hb, Hi. repeat split; auto.
  - intros E. injection E as <-. rewrite Hb, Hi. repeat split; auto.
Qed.

Lemma SwitchToOrthographic_returns (st st' : State) :
  SwitchToOrthographic K st = Returns st' ->
  bOrthographicProjection st' =
    bOrthographicProjection st || cameraStatesInitialized st /\
  cameraStatesInitialized st' = cameraStatesInitialized st /\
  (g_pCamera st = None <-> g_pCamera st' = None).
Proof.
  unfold SwitchToOrthographic.
  destruct (bOrthographicProjection st) eqn:Hb,
           (cameraStatesInitialized st) eqn:Hi; cbn [andb negb orb].
  - intros E. injection E as <-. rewrite Hb, Hi. repeat split; auto.
  - intros E. injection E as <-. rewrite Hb, Hi. repeat split; auto.
  - destruct (g_pCamera st) as [c|] eqn:Hc; [|discriminate].
    intros E. injection E as <-. cbn. repeat split; discriminate.
  - intros E. injection E as <-. rewrite Hb, Hi. repeat split; auto.
Qed.

Lemma SwitchToPerspective_camera (st : State) (c : Camera) :
  g_pCamera st = Some c -> exists st', SwitchToPerspective K st = Returns st'.
Proof.
  intros Hc. unfold SwitchToPerspective. rewrite Hc.
  destruct (_ && _); eexists; reflexivity.
Qed.

Lemma SwitchToOrthographic_camera (st : State) (c : Camera) :
  g_pCamera st = Some c -> exists st', SwitchToOrthographic K st = Returns st'.
Proof.
  intros Hc. unfold SwitchToOrthographic. rewrite Hc.
  destruct (_ && _); eexists; reflexivity.
Qed.

Lemma toggles_returns (pressed : Key -> bool) (pWas oWas : bool) (st st' : State) :
  toggles K pressed pWas oWas st = Returns st' ->
  bOrthographicProjection st' =
    (if pressed GLFW_KEY_O && negb oWas && cameraStatesInitialized st then true
     else if pressed GLFW_KEY_P && negb pWas && cameraStatesInitialized st
          then false
          else bOrthographicProjection st) /\
  cameraStatesInitialized st' = cameraStatesInitialized st /\
  (g_pCamera st = None <-> g_pCamera st' = None).
Proof.
  unfold toggles. cbv zeta.
  destruct (pressed GLFW_KEY_P && negb pWas) eqn:Hp.
  - destruct (SwitchToPerspective K st) as [st1|] eqn:E1; [|discriminate].
    cbn [bind]. apply SwitchToPerspective_returns in E1.
    destruct E1 as (B1 & I1 & C1).
    destruct (pressed GLFW_KEY_O && negb oWas) eqn:Ho.
    + intros E2. apply SwitchToOrthographic_returns in E2.
      destruct E2 as (B2 & I2 & C2).
      rewrite B2, I2, B1, I1. split; [|split; [reflexivity|tauto]].
      destruct (bOrthographicProjection st), (cameraStatesInitialized st);
        reflexivity.
    + intros E2. injection E2 as <-.
      rewrite B1, I1. split; [|split; [reflexivity|tauto]].
      destruct (bOrthographicProjection st), (cameraStatesInitialized st);
        reflexivity.
  - cbn [bind].
    destruct (pressed GLFW_KEY_O && negb oWas) eqn:Ho.
    + intros E2. apply SwitchToOrthographic_returns in E2.
      destruct E2 as (B2 & I2 & C2).
      rewrite B2, I2. split; [|split; [reflexivity|tauto]].
      destruct (bOrthographicProjection st), (cameraStatesInitialized st);
        reflexivity.
    + intros E2. injection E2 as <-. cbn [andb].
      split; [|split; [reflexivity|tauto]]. reflexivity.
Qed.

Lemma toggles_camera (pressed : Key -> bool) (pWas oWas : bool) (st : State)
    (c : Camera) :
  g_pCamera st = Some c ->
  exists st', toggles K pressed pWas oWas st = Returns st'.
Proof.
  intros Hc. unfold toggles. cbv zeta.
  assert (H1 : exists st1 c1,
             (if pressed GLFW_KEY_P && negb pWas then SwitchToPerspective K st
              else Returns st) = Returns st1 /\ g_pCamera st1 = Some c1).
  { destruct (pressed GLFW_KEY_P && negb pWas).
    - destruct (SwitchToPerspective_camera st c Hc) as [st1 E].
      pose proof (SwitchToPerspective_returns st st1 E) as (_ & _ & C).
      destruct (g_pCamera st1) as [c1|] eqn:E1.
      + exists st1, c1. split; [exact E|exact E1].
      + exfalso. destruct C as [_ C]. specialize (C eq_refl). congruence.
    - exists st, c. split; [reflexivity|exact Hc]. }
  destruct H1 as (st1 & c1 & -> & Hc1). cbn [bind].
  destruct (pressed GLFW_KEY_O && negb oWas).
  - exact (SwitchToOrthographic_camera st1 c1 Hc1).
  - eexists. reflexivity.
Qed.

Lemma toggles_held (pressed : Key -> bool) (st : State) :
  toggles K pressed (pressed GLFW_KEY_P) (pressed GLFW_KEY_O) st = Returns st.
Proof.
  unfold toggles. cbv zeta. rewrite !andb_negb_r. reflexivity.
Qed.

Lemma toggles_null (pressed : Key -> bool) (pWas oWas : bool) (st : State) :
  g_pCamera st = None ->
  toggles K pressed pWas oWas st =
  if (pressed GLFW_KEY_P && negb pWas &&
      bOrthographicProjection st && cameraStatesInitialized st) ||
     (pressed GLFW_KEY_O && negb oWas && cameraStatesInitialized st &&
      (negb (bOrthographicProjection st) || pressed GLFW_KEY_P && negb pWas))
  then Undefined else Returns st.
Proof.
  intros Hc. unfold toggles, SwitchToPerspective, SwitchToOrthographic.
  cbv zeta. rewrite Hc.
  destruct (pressed GLFW_KEY_P && negb pWas),
           (pressed GLFW_KEY_O && negb oWas),
           (bOrthographicProjection st) eqn:Hb,
           (cameraStatesInitialized st) eqn:Hi;
    cbn [andb orb negb bind]; rewrite ?Hb, ?Hi, ?Hc; reflexivity.
Qed.


Lemma movement_returns (pressed : Key -> bool) (deltaTime : float)
    (st st' : State) :
  movement V pressed deltaTime st = Returns st' ->
  st' = set_camera st (g_pCamera st') /\
  (g_pCamera st = None <-> g_pCamera st' = None).
Proof.
  destruct (g_pCamera st) as [c|] eqn:Hc.
  - destruct (movement_camera pressed deltaTime st c Hc) as [c' ->].
    intros E. injection E as <-. cbn [g_pCamera set_camera].
    split; [reflexivity|]. split; discriminate.
  - rewrite (movement_null pressed deltaTime st Hc).
    destruct (moving pressed); [discriminate|].
    intros E. injection E as <-. rewrite Hc, <- Hc, set_camera_same.
    rewrite Hc. split; [reflexivity|tauto].
Qed.

Lemma ProcessKeyboardEvents_inv (pressed : Key -> bool) (v v1 : View) :
  ProcessKeyboardEvents K V pressed v = Returns v1 ->
  exists st1 st2,
    movement V pressed (gDeltaTime v) (globals v) = Returns st1 /\
    toggles K pressed (pKeyWasPressed v) (oKeyWasPressed v) st1 = Returns st2 /\
    v1 = {| globals := st2;
            gDeltaTime := gDeltaTime v;
            gLastFrame := gLastFrame v;
            pKeyWasPressed := pressed GLFW_KEY_P;
            oKeyWasPressed := pressed GLFW_KEY_O;
            m_pShaderManager := m_pShaderManager v;
            window_should_close :=
              if pressed GLFW_KEY_ESCAPE then true else window_should_close v |}.
Proof.
  unfold ProcessKeyboardEvents. cbv zeta.
  destruct (movement V pressed (gDeltaTime v) (globals v)) as [st1|];
    [|discriminate]. cbn [bind].
  destruct (toggles K pressed (pKeyWasPressed v) (oKeyWasPressed v) st1)
    as [st2|] eqn:E2; [|discriminate]. cbn [bind].
  intros E. injection E as <-. exists st1, st2.
  split; [reflexivity|]. split; [exact E2|reflexivity].
Qed.

(** X14.  The mode a call of [ProcessKeyboardEvents] leaves: a toggle key counts
    when it is down and was not at the previous call, the O key wins over
    the P key, and neither counts before a view manager has been
    constructed. *)
Theorem ProcessKeyboardEvents_mode :
  forall (pressed : Key -> bool) (v v1 : View),
    ProcessKeyboardEvents K V pressed v = Returns v1 ->
    bOrthographicProjection (globals v1) = mode_after pressed v /\
    cameraStatesInitialized (globals v1) = cameraStatesInitialized (globals v) /\
    pKeyWasPressed v1 = pressed GLFW_KEY_P /\
    oKeyWasPressed v1 = pressed GLFW_KEY_O.
Proof.
  intros pressed v v1 E.
  destruct (ProcessKeyboardEvents_inv pressed v v1 E) as (st1 & st2 & E1 & E2 & ->).
  cbn [globals pKeyWasPressed oKeyWasPressed].
  apply movement_returns in E1. destruct E1 as (E1 & _).
  apply toggles_returns in E2. destruct E2 as (B & I & _).
  rewrite B, I, E1. unfold mode_after. cbn [set_camera cameraStatesInitialized bOrthographicProjection].
  repeat split.
Qed.

(** X15.  Toggle keys held down: at a call where the P and the O key are as
    they were at the call before, the mode and the ten saved members stay
    as they are, whatever the other keys; and with no movement key down, a
    call with the same keys as the previous one changes nothing at
    all. *)
Theorem ProcessKeyboardEvents_held_keys :
  forall (pressed pressed' : Key -> bool) (v v1 : View),
    ProcessKeyboardEvents K V pressed v = Returns v1 ->
    pressed' GLFW_KEY_P = pressed GLFW_KEY_P ->
    pressed' GLFW_KEY_O = pressed GLFW_KEY_O ->
    (forall v2,
       ProcessKeyboardEvents K V pressed' v1 = Returns v2 ->
       bOrthographicProjection (globals v2) = bOrthographicProjection (globals v1) /\
       perspective_slot (globals v2) = perspective_slot (globals v1) /\
       orthographic_slot (globals v2) = orthographic_slot (globals v1)) /\
    (moving pressed = false ->
     ProcessKeyboardEvents K V pressed v1 = Returns v1).
Proof.
  intros pressed pressed' v v1 E HP HO.
  destruct (ProcessKeyboardEvents_inv pressed v v1 E) as (st1 & st2 & _ & _ & ->).
  split.
  - intros v2 E'.
    destruct (ProcessKeyboardEvents_inv pressed' _ v2 E')
      as (st3 & st4 & E3 & E4 & ->).
    cbn [globals pKeyWasPressed oKeyWasPressed gDeltaTime] in *.
    rewrite <- HP, <- HO, toggles_held in E4. injection E4 as <-.
    apply movement_returns in E3. destruct E3 as (-> & _).
    repeat split.
  - intros Hm. unfold ProcessKeyboardEvents. cbv zeta.
    cbn [globals pKeyWasPressed oKeyWasPressed gDeltaTime gLastFrame
         m_pShaderManager window_should_close].
    rewrite (movement_idle pressed _ st2 Hm). cbn [bind].
    rewrite toggles_held. cbn [bind].
    destruct (pressed GLFW_KEY_ESCAPE); reflexivity.
Qed.

Lemma ProcessKeyboardEvents_camera (pressed : Key -> bool) (v : View) :
  g_pCamera (globals v) <> None ->
  exists v1, ProcessKeyboardEvents K V pressed v = Returns v1 /\
             g_pCamera (globals v1) <> None.
Proof.
  intros Hc. destruct (g_pCamera (globals v)) as [c|] eqn:Ec; [|contradiction].
  unfold ProcessKeyboardEvents. cbv zeta.
  destruct (movement_camera pressed (gDeltaTime v) (globals v) c Ec) as [c1 ->].
  cbn [bind].
  destruct (toggles_camera pressed (pKeyWasPressed v) (oKeyWasPressed v)
              (set_camera (globals v) (Some c1)) c1 eq_refl) as [st2 E2].
  rewrite E2. cbn [bind]. eexists. split; [reflexivity|].
  cbn [globals]. apply toggles_returns in E2. destruct E2 as (_ & _ & C).
  intros H. apply C in H. discriminate.
Qed.

(** X16.  [ProcessKeyboardEvents] returns whenever there is a camera, and
    leaves one.  Without a camera it has undefined behaviour as soon as a
    movement key is down or a toggle key takes effect, and otherwise only
    records the two toggle keys and the request to close. *)
Theorem ProcessKeyboardEvents_defined :
  forall (pressed : Key -> bool) (v : View),
    (g_pCamera (globals v) <> None ->
     exists v1, ProcessKeyboardEvents K V pressed v = Returns v1 /\
                g_pCamera (globals v1) <> None) /\
    (g_pCamera (globals v) = None ->
     ProcessKeyboardEvents K V pressed v =
     if moving pressed || p_takes_effect pressed v || o_takes_effect pressed v
     then Undefined
     else Returns {| globals := globals v;
                     gDeltaTime := gDeltaTime v;
                     gLastFrame := gLastFrame v;
                     pKeyWasPressed := pressed GLFW_KEY_P;
                     oKeyWasPressed := pressed GLFW_KEY_O;
                     m_pShaderManager := m_pShaderManager v;
                     window_should_close :=
                       if pressed GLFW_KEY_ESCAPE then true
                       else window_should_close v |}).
Proof.
  intros pressed v. split.
  - apply ProcessKeyboardEvents_camera.
  - intros Hc. unfold ProcessKeyboardEvents. cbv zeta.
    rewrite (movement_null pressed _ _ Hc).
    destruct (moving pressed); [reflexivity|]. cbn [bind orb].
    rewrite (toggles_null pressed _ _ _ Hc).
    unfold p_takes_effect, o_takes_effect.
    destruct (_ || _); reflexivity.
Qed.

(** X17.  [PrepareSceneView] dereferences the camera pointer without a
    test: without a camera it has undefined behaviour whatever the keys,
    the time and the shader manager; with one it returns, having recorded
    the time of the frame and the time since the previous one, and
    without a shader manager it uploads nothing. *)
Theorem PrepareSceneView_needs_camera :
  forall (G : GLM float) (glfwGetTime : double) (pressed : Key -> bool) (v : View),
    (g_pCamera (globals v) = None ->
     PrepareSceneView K V G glfwGetTime pressed v = Undefined) /\
    (g_pCamera (globals v) <> None ->
     exists v',
       PrepareSceneView K V G glfwGetTime pressed v = Returns v' /\
       g_pCamera (globals v') <> None /\
       gLastFrame v' = to_float glfwGetTime /\
       gDeltaTime v' = fsub (to_float glfwGetTime) (gLastFrame v) /\
       (m_pShaderManager v = None -> m_pShaderManager v' = None)).
Proof.
  intros G t pressed v.
  set (v0 := {| globals := globals v;
                gDeltaTime := fsub (to_float t) (gLastFrame v);
                gLastFrame := to_float t;
                pKeyWasPressed := pKeyWasPressed v;
                oKeyWasPressed := oKeyWasPressed v;
                m_pShaderManager := m_pShaderManager v;
                window_should_close := window_should_close v |}).
  assert (Eq : PrepareSceneView K V G t pressed v =
               ProcessKeyboardEvents K V pressed v0 >>= fun v =>
               match g_pCamera (globals v) with
               | None => Undefined
               | Some c =>
                   match m_pShaderManager v with
                   | Some sh =>
                       Returns {| globals := globals v;
                                  gDeltaTime := gDeltaTime v;
                                  gLastFrame := gLastFrame v;
                                  pKeyWasPressed := pKeyWasPressed v;
                                  oKeyWasPressed := oKeyWasPressed v;
                                  m_pShaderManager :=
                                    Some (sh ++ view_uniforms (GetViewMatrix V c)
                                      (if bOrthographicProjection (globals v)
                                       then orthographic_volume V
                                       else perspective V (radians G (Zoom c))
                                              (f32 5 (-2)) (SceneManager.lit 1 10)
                                              (f32 100 0))
                                      (Position c));
                                  window_should_close := window_should_close v |}
                   | None => Returns v
                   end
               end) by reflexivity.
  rewrite Eq. clear Eq.
  split.
  - intros Hc.
    destruct (ProcessKeyboardEvents K V pressed v0) as [v1|] eqn:E; [|reflexivity].
    cbn [bind].
    destruct (ProcessKeyboardEvents_inv pressed v0 v1 E) as (st1 & st2 & E1 & E2 & ->).
    cbn [globals].
    apply movement_returns in E1. destruct E1 as (_ & C1).
    apply toggles_returns in E2. destruct E2 as (_ & _ & C2).
    cbn [globals v0] in C1.
    rewrite (proj1 C2 (proj1 C1 Hc)). reflexivity.
  - intros Hc.
    destruct (ProcessKeyboardEvents_camera pressed v0 Hc) as (v1 & E & Hc1).
    rewrite E. cbn [bind].
    destruct (ProcessKeyboardEvents_inv pressed v0 v1 E) as (st1 & st2 & _ & _ & Ev).
    destruct (g_pCamera (globals v1)) as [c1|] eqn:Ec1; [|contradiction].
    destruct (m_pShaderManager v1) as [sh|] eqn:Es.
    + eexists. split; [reflexivity|].
      cbn [globals gLastFrame gDeltaTime m_pShaderManager].
      rewrite Ec1. subst v1. cbn [gLastFrame gDeltaTime v0 m_pShaderManager] in *.
      repeat split; try discriminate. intros H. rewrite H in Es. discriminate.
    + exists v1. split; [reflexivity|]. rewrite Ec1.
      subst v1. cbn [gLastFrame gDeltaTime v0 m_pShaderManager] in *.
      repeat split; try discriminate. intros H; exact H.
Qed.


(** X18.  The projection of a frame is that of the mode the keys of the same
    frame leave: with a shader manager, [PrepareSceneView] uploads the
    view matrix of the camera as the keyboard handling leaves it, then the
    orthographic volume when the mode after the keys is orthographic and
    the perspective matrix of the camera's zoom and the aspect 1.25
    otherwise, then the camera's position. *)
Theorem PrepareSceneView_uploads :
  forall (G : GLM float) (glfwGetTime : double) (pressed : Key -> bool)
         (v v' : View) (sh : SceneManager.ShaderManager float),
    m_pShaderManager v = Some sh ->
    PrepareSceneView K V G glfwGetTime pressed v = Returns v' ->
    exists c',
      g_pCamera (globals v') = Some c' /\
      bOrthographicProjection (globals v') = mode_after pressed v /\
      m_pShaderManager v' =
      Some (sh ++ view_uniforms (GetViewMatrix V c')
                    (if mode_after pressed v then orthographic_volume V
                     else perspective V (radians G (Zoom c')) (f32 5 (-2))
                            (SceneManager.lit 1 10) (f32 100 0))
                    (Position c')).
Proof.
  intros G t pressed v v' sh Hs.
  set (v0 := {| globals := globals v;
                gDeltaTime := fsub (to_float t) (gLastFrame v);
                gLastFrame := to_float t;
                pKeyWasPressed := pKeyWasPressed v;
                oKeyWasPressed := oKeyWasPressed v;
                m_pShaderManager := m_pShaderManager v;
                window_should_close := window_should_close v |}).
  assert (Eq : PrepareSceneView K V G t pressed v =
               ProcessKeyboardEvents K V pressed v0 >>= fun v =>
               match g_pCamera (globals v) with
               | None => Undefined
               | Some c =>
                   match m_pShaderManager v with
                   | Some sh =>
                       Returns {| globals := globals v;
                                  gDeltaTime := gDeltaTime v;
                                  gLastFrame := gLastFrame v;
                                  pKeyWasPressed := pKeyWasPressed v;
                                  oKeyWasPressed := oKeyWasPressed v;
                                  m_pShaderManager :=
                                    Some (sh ++ view_uniforms (GetViewMatrix V c)
                                      (if bOrthographicProjection (globals v)
                                       then orthographic_volume V
                                       else perspective V (radians G (Zoom c))
                                              (f32 5 (-2)) (SceneManager.lit 1 10)
                                              (f32 100 0))
                                      (Position c));
                                  window_should_close := window_should_close v |}
                   | None => Returns v
                   end
               end) by reflexivity.
  rewrite Eq. clear Eq.
  destruct (ProcessKeyboardEvents K V pressed v0) as [v1|] eqn:E; [|discriminate].
  cbn [bind].
  destruct (ProcessKeyboardEvents_inv pressed v0 v1 E) as (st1 & st2 & E1 & E2 & Ev).
  assert (B : bOrthographicProjection (globals v1) = mode_after pressed v).
  { rewrite Ev. cbn [globals].
    apply movement_returns in E1. destruct E1 as (E1 & _).
    apply toggles_returns in E2. destruct E2 as (B & _ & _).
    rewrite B, E1. reflexivity. }
  assert (Es : m_pShaderManager v1 = Some sh).
  { rewrite Ev. cbn [m_pShaderManager v0]. exact Hs. }
  destruct (g_pCamera (globals v1)) as [c1|] eqn:Ec1; [|discriminate].
  rewrite Es. intros R. injection R as <-.
  cbn [globals m_pShaderManager]. exists c1.
  rewrite Ec1, B. repeat split.
Qed.

(** X19.  [SwitchToPerspective] is idempotent: a second call right after
    a first has the outcome of the first alone, undefined behaviour
    included. *)
Theorem SwitchToPerspective_twice :
  forall st : State,
    SwitchToPerspective K st >>= SwitchToPerspective K =
    SwitchToPerspective K st.
Proof.
  intros st. unfold SwitchToPerspective at 1 3.
  destruct (bOrthographicProjection st) eqn:Hb,
           (cameraStatesInitialized st) eqn:Hi; cbn [andb bind].
  - destruct (g_pCamera st) as [c|]; cbn [bind]; reflexivity.
  - unfold SwitchToPerspective. rewrite Hb, Hi. reflexivity.
  - unfold SwitchToPerspective. rewrite Hb. reflexivity.
  - unfold SwitchToPerspective. rewrite Hb. reflexivity.
Qed.

End Frame.

(** ** The properties above at sample inputs *)

Lemma CreateGLTexture_then_find_witness :
  SceneManager.FindTextureSlot "grass" Sample.one_texture = 0 /\
  SceneManager.FindTextureID "grass" Sample.one_texture = 7.
Proof.
  assert (Hn : 0 <= SceneManager.m_loadedTextures Sample.scene)
    by (vm_compute; discriminate).
  destruct (CreateGLTexture_then_find float (Some Sample.image) 7 "grass"
              Sample.scene Hn eq_refl eq_refl) as (Hslot & _ & Hid).
  split; [exact Hslot|]. apply Hid. lia.
Defined.

Lemma CreateGLTexture_keeps_slots_witness :
  SceneManager.FindTextureSlot "grass"
    (snd (SceneManager.CreateGLTexture (Some Sample.image) 8 "grass"
            Sample.one_texture)) =
  SceneManager.FindTextureSlot "grass" Sample.one_texture.
Proof.
  apply (CreateGLTexture_keeps_slots float (Some Sample.image) 8 "grass" "grass"
           Sample.one_texture).
  - vm_compute. discriminate.
  - left. vm_compute. discriminate.
Defined.

Lemma LoadSceneTextures_slots_witness :
  let st' := fst (SceneManager.LoadSceneTextures Sample.files (fun k => 10 + k)
                    Sample.scene) in
  SceneManager.m_loadedTextures st' = 4 /\
  SceneManager.FindTextureSlot "grass" st' = 0 /\
  SceneManager.FindTextureSlot "dirt" st' = -1 /\
  SceneManager.FindTextureSlot "brick" st' = 1 /\
  SceneManager.FindTextureSlot "hedge" st' = 2 /\
  SceneManager.FindTextureSlot "foliage" st' = 3.
Proof.
  exact (LoadSceneTextures_slots float Sample.files (fun k => 10 + k)
           Sample.scene eq_refl).
Defined.

Lemma SetShaderMaterial_hit_witness :
  exists m : SceneManager.OBJECT_MATERIAL float,
    SceneManager.tag m = "brick"%string /\
    SceneManager.SetShaderMaterial Sample.leftover "brick" Sample.scene =
    Returns (SceneManager.upload Sample.scene []
               (SceneManager.material_uniforms m)).
Proof.
  eexists. split.
  2: { apply (SetShaderMaterial_hit float Sample.leftover _ "brick"
                Sample.scene []); reflexivity. }
  reflexivity.
Defined.

Lemma SetShaderTexture_miss_witness :
  SceneManager.SetShaderTexture "glass" Sample.one_texture =
  SceneManager.upload Sample.one_texture []
    [(SceneManager.g_UseTextureName, SceneManager.IntValue 1);
     (SceneManager.g_TextureValueName, SceneManager.Sampler2DValue (-1))].
Proof.
  apply (SetShaderTexture_miss float "glass" Sample.one_texture []).
  - reflexivity.
  - intros i Hi.
    change (SceneManager.m_loadedTextures Sample.one_texture) with 1 in Hi.
    assert (Ei : i = 0) by lia. rewrite Ei. vm_compute. discriminate.
Defined.

Lemma RenderScene_defined_witness :
  exists sc',
    (forall material,
       SceneManager.RenderScene Sample.glm material Sample.stage = Returns sc') /\
    SceneManager.m_objectMaterials (SceneManager.manager sc') =
      SceneManager.m_objectMaterials Sample.scene /\
    SceneManager.m_textureIDs (SceneManager.manager sc') =
      SceneManager.m_textureIDs Sample.scene /\
    SceneManager.m_loadedTextures (SceneManager.manager sc') = 0 /\
    SceneManager.units sc' = [] /\
    SceneManager.meshes sc' = SceneManager.render_calls.
Proof.
  apply (RenderScene_defined Sample.glm Sample.stage).
  - discriminate.
  - intros t [<-|[<-|[<-|[<-|[<-|[]]]]]]; vm_compute; discriminate.
Defined.

Lemma RenderScene_null_shader_witness :
  SceneManager.RenderScene Sample.glm (fun _ => Sample.leftover)
    Sample.unlit_stage = Undefined.
Proof.
  apply (RenderScene_null_shader Sample.glm (fun _ => Sample.leftover)
           Sample.unlit_stage eq_refl).
  vm_compute. discriminate.
Defined.

Lemma ProcessKeyboardEvents_mode_witness :
  exists v1,
    ViewFrame.ProcessKeyboardEvents Sample.kernel Sample.view_kernel
      Sample.o_key Sample.view = Returns v1 /\
    ViewManager.bOrthographicProjection (ViewFrame.globals v1) = true /\
    ViewFrame.oKeyWasPressed v1 = true.
Proof.
  destruct (ViewFrame.ProcessKeyboardEvents Sample.kernel Sample.view_kernel
              Sample.o_key Sample.view) as [v1|] eqn:E;
    [|vm_compute in E; discriminate].
  exists v1. split; [reflexivity|].
  destruct (ProcessKeyboardEvents_mode Sample.kernel Sample.view_kernel
              Sample.o_key Sample.view v1 E) as (B & _ & _ & O).
  split; [exact B|exact O].
Defined.

Lemma ProcessKeyboardEvents_held_keys_witness :
  exists v1,
    ViewFrame.ProcessKeyboardEvents Sample.kernel Sample.view_kernel
      Sample.o_key Sample.view = Returns v1 /\
    ViewFrame.ProcessKeyboardEvents Sample.kernel Sample.view_kernel
      Sample.o_key v1 = Returns v1.
Proof.
  destruct (ViewFrame.ProcessKeyboardEvents Sample.kernel Sample.view_kernel
              Sample.o_key Sample.view) as [v1|] eqn:E;
    [|vm_compute in E; discriminate].
  exists v1. split; [reflexivity|].
  apply (proj2 (ProcessKeyboardEvents_held_keys Sample.kernel Sample.view_kernel
                  Sample.o_key Sample.o_key Sample.view v1 E eq_refl eq_refl)).
  reflexivity.
Defined.

Lemma PrepareSceneView_uploads_witness :
  exists v' c',
    ViewFrame.PrepareSceneView Sample.kernel Sample.view_kernel Sample.glm
      (f64 1 (-4)) Sample.o_key Sample.view = Returns v' /\
    ViewManager.g_pCamera (ViewFrame.globals v') = Some c' /\
    ViewFrame.m_pShaderManager v' =
    Some (ViewFrame.view_uniforms
            (ViewFrame.GetViewMatrix Sample.view_kernel c')
            (ViewFrame.orthographic_volume Sample.view_kernel)
            (Position c')).
Proof.
  destruct (ViewFrame.PrepareSceneView Sample.kernel Sample.view_kernel
              Sample.glm (f64 1 (-4)) Sample.o_key Sample.view) as [v'|] eqn:E;
    [|vm_compute in E; discriminate].
  destruct (PrepareSceneView_uploads Sample.kernel Sample.view_kernel Sample.glm
              (f64 1 (-4)) Sample.o_key Sample.view v' [] eq_refl E)
    as (c' & Hc & _ & Hs).
  exists v', c'. split; [reflexivity|]. split; [exact Hc|exact Hs].
Defined.
